(** * The automated market maker of [backend/automated_market_maker.py]

    A shallow embedding of the class [AutomatedMarketMaker] and of the three
    dataclasses it works on, followed by the properties of the constant-product
    engine.

    Conventions of the embedding.
    - Python [float] quantities are read as real numbers ([R]): the arithmetic
      of the source is taken exactly, without rounding.  A division is the
      fallible [fdiv] (Python raises [ZeroDivisionError] on a zero divisor) and
      [math.sqrt] is the fallible [fsqrt] ([ValueError], math domain error).
    - [datetime] values are integers, the microseconds since the epoch.
    - An operation is a function from the world it runs in to the world it
      leaves and either the exception it raised or the value it returned.  As
      in Python nothing is rolled back when an exception is raised.
    - The exceptions of the source are [ValueError]s and [Exception]s that
      differ by their message; [exn] has one constructor per message.
    - The public methods call the storage helpers of the class as methods of
      [self].  In the source these helpers are placeholders:
      [_get_pool_by_id] returns one pool with fixed contents for every id,
      [_get_pool_by_domain_and_base] and [_get_user_position] return [None]
      and the [_store_*], [_update_*] and [_remove_*] helpers are [pass].
      The public methods are embedded once, in [Engine], over the helper
      methods they call.  [Source] gives them the helpers as the source has
      them: it is the program of the repository.  [Store] gives them a store
      that keeps what is handed to it, which is what the comments of the
      placeholders say the production version does; a property that is
      stated on [Store] for an arbitrary stored pool covers the pool that
      the placeholder returns, and the pool it finds stored after a call is
      the object that the call handed to the helper. *)

From Stdlib Require Import Reals Lra Lia ZArith.
From stdpp Require Import base option list gmap strings pretty.

Local Open Scope R_scope.

(** ** Exceptions *)

Inductive exn : Type :=
| DomainNotFound                                  (* ValueError("Domain not found") *)
| DomainNotTokenized                              (* ValueError("Domain must be tokenized before creating pool") *)
| UnsupportedBaseToken (base_token : string)      (* ValueError(f"Unsupported base token: {base_token}") *)
| MinimumLiquidity (minimum : R) (base_token : string)  (* ValueError(f"Minimum liquidity is ...") *)
| PoolAlreadyExists                               (* ValueError("Pool already exists for this domain/base token pair") *)
| PoolNotFound                                    (* ValueError("Pool not found") *)
| InsufficientLiquidityTokens                     (* ValueError("Insufficient liquidity tokens") *)
| InvalidInputToken (input_token : string)        (* ValueError(f"Invalid input token: {input_token}") *)
| QuoteExpired                                    (* ValueError("Quote has expired") *)
| PriceImpactTooHigh (price_impact : R)           (* ValueError(f"Price impact too high: ...") *)
| ZeroDivisionError                               (* float division by zero *)
| MathDomainError                                 (* math.sqrt of a negative number *)
| PoolCreationFailed (cause : exn)                (* Exception(f"Pool creation failed: {str(e)}") *)
| AddLiquidityFailed (cause : exn)                (* Exception(f"Add liquidity failed: {str(e)}") *)
| RemoveLiquidityFailed (cause : exn)             (* Exception(f"Remove liquidity failed: {str(e)}") *)
| TradeExecutionFailed (cause : exn).             (* Exception(f"Trade execution failed: {str(e)}") *)

(** ** Data model *)

Definition datetime : Type := Z.

Record LiquidityPool : Type := mkPool {
  pool_id : string;
  domain_id : Z;
  base_token : string;
  domain_token_reserve : R;
  base_token_reserve : R;
  total_liquidity_tokens : R;
  fee_rate : R;
  created_at : datetime;
  last_updated : datetime
}.

Record LiquidityPosition : Type := mkPosition {
  position_id : string;
  pos_pool_id : string;
  user_id : Z;
  liquidity_tokens : R;
  initial_domain_amount : R;
  initial_base_amount : R;
  pos_created_at : datetime;
  rewards_earned : R
}.

Record TradeQuote : Type := mkQuote {
  input_token : string;
  output_token : string;
  input_amount : R;
  output_amount : R;
  price_impact : R;
  fee_amount : R;
  minimum_output : R;
  valid_until : datetime
}.

(** The part of the ORM model [Domain] that the market maker reads. *)
Record Domain : Type := mkDomain {
  domain_name : string;
  token_id : option string
}.

(** A token transfer.  The helpers [_transfer_*] of the source return a hash of
    a string built from their arguments and do nothing else; the reference
    they return is represented by the arguments that are hashed. *)
Inductive TransferRef : Type :=
| domain_to_pool (domain : Z) (amount : R)
| base_to_pool (token : string) (amount : R) (user : Z)
| domain_from_pool (domain : Z) (amount : R) (user : Z)
| base_from_pool (token : string) (amount : R) (user : Z)
| rewards_to (user : Z) (amount : R) (token : string).

Inductive json : Type :=
| JStr (s : string)
| JNum (x : R).

(** The fields of the ORM model [DomainTransaction] that the market maker
    sets. *)
Record DomainTransaction : Type := mkTransaction {
  tx_domain_id : Z;
  tx_user_id : Z;
  transaction_type : string;
  transaction_hash : TransferRef * TransferRef;
  tx_status : string;
  transaction_metadata : list (string * json)
}.

(** The configuration set by [AutomatedMarketMaker.__init__]. *)
Record AutomatedMarketMaker : Type := mkAMM {
  default_fee_rate : R;
  slippage_tolerance : R;
  minimum_liquidity : R;
  price_impact_threshold : R;
  supported_base_tokens : list string;
  base_apy : R;
  volume_multiplier : R;
  loyalty_bonus : R
}.

Definition AutomatedMarketMaker_init : AutomatedMarketMaker := {|
  default_fee_rate := 3 / 1000;
  slippage_tolerance := 2 / 100;
  minimum_liquidity := 1000;
  price_impact_threshold := 5 / 100;
  supported_base_tokens := ["USDC"; "ETH"; "MATIC"];
  base_apy := 5 / 100;
  volume_multiplier := 1 / 10;
  loyalty_bonus := 2 / 100
|}.

(** ** The world an operation runs in *)

Record World : Type := mkWorld {
  clock : datetime;                      (* what [datetime.utcnow()] returns *)
  domains : gmap Z Domain;               (* the table behind [Domain.query] *)
  pools : gmap string LiquidityPool;     (* the pool store *)
  positions : list LiquidityPosition;    (* the position store *)
  transactions : list DomainTransaction  (* the rows committed through [db.session] *)
}.

Definition M (A : Type) : Type := World -> World * (exn + A).

#[export] Instance M_ret : MRet M := fun A x w => (w, inr x).

#[export] Instance M_bind : MBind M := fun A B f m w =>
  match m w with
  | (w', inl e) => (w', inl e)
  | (w', inr x) => f x w'
  end.

Definition raise {A : Type} (e : exn) : M A := fun w => (w, inl e).

Definition gets {A : Type} (f : World -> A) : M A := fun w => (w, inr (f w)).

Definition modify (f : World -> World) : M unit := fun w => (f w, inr tt).

(** [try: body except Exception as e: raise Exception(f"...: {str(e)}")] *)
Definition try_except {A : Type} (wrap : exn -> exn) (body : M A) : M A :=
  fun w =>
    match body w with
    | (w', inl e) => (w', inl (wrap e))
    | (w', inr x) => (w', inr x)
    end.

(** [x / y] on floats. *)
Definition fdiv (x y : R) : M R :=
  if Req_dec_T y 0 then raise ZeroDivisionError else mret (x / y).

(** [math.sqrt(x)]. *)
Definition fsqrt (x : R) : M R :=
  if Rlt_dec x 0 then raise MathDomainError else mret (sqrt x).

Definition utcnow : M datetime := gets clock.

(** [timedelta(minutes=5)] *)
Definition five_minutes : Z := 300000000.

(** [(t1 - t0).days]: a [timedelta] is normalised with a floor division. *)
Definition timedelta_days (t1 t0 : datetime) : Z := ((t1 - t0) `div` 86400000000)%Z.

(** [int(t.timestamp())] *)
Definition timestamp_seconds (t : datetime) : Z := (t `quot` 1000000)%Z.

(** ** The database session and the ORM *)

(** [db.session.add(transaction); db.session.commit()] *)
Definition db_add_commit (t : DomainTransaction) : M unit :=
  modify (fun w => mkWorld (clock w) (domains w) (pools w) (positions w)
                           (transactions w ++ [t])).

(** [Domain.query.get(domain_id)] *)
Definition Domain_query_get (domain : Z) : M (option Domain) :=
  gets (fun w => domains w !! domain).

(** ** Helper methods of the class, as in the source *)

(** [_deploy_pool_contract]: a hash of the pool id, represented by the pool
    id. *)
Definition _deploy_pool_contract (pool : LiquidityPool) : string := pool_id pool.

Definition _transfer_domain_tokens_to_pool (domain : Z) (amount : R)
    (pool_address : string) : TransferRef :=
  domain_to_pool domain amount.

Definition _transfer_base_tokens_to_pool (token : string) (amount : R)
    (pool_address : string) (user : Z) : TransferRef :=
  base_to_pool token amount user.

Definition _transfer_domain_tokens_from_pool (domain : Z) (amount : R)
    (pool : string) (user : Z) : TransferRef :=
  domain_from_pool domain amount user.

Definition _transfer_base_tokens_from_pool (token : string) (amount : R)
    (pool : string) (user : Z) : TransferRef :=
  base_from_pool token amount user.

Definition _transfer_rewards (user : Z) (amount : R) (token : string) : TransferRef :=
  rewards_to user amount token.

Definition _get_trading_volume_24h (pool : string) : R := 1000.

Definition _distribute_trading_fees (pool : string) (fee : R) : M unit := mret tt.

Definition _calculate_liquidity_rewards (self : AutomatedMarketMaker)
    (position : LiquidityPosition) (pool : LiquidityPool) : M R :=
  now ← utcnow;
  let days_active := timedelta_days now (pos_created_at position) in
  y1 ← fdiv (IZR days_active) 365;
  let base_rewards := initial_base_amount position * base_apy self * y1 in
  y2 ← fdiv (IZR days_active) 365;
  let volume_bonus :=
    _get_trading_volume_24h (pool_id pool) * volume_multiplier self * y2 in
  let loyalty := if decide (30 < days_active)%Z
                 then base_rewards * loyalty_bonus self else 0 in
  mret (base_rewards + volume_bonus + loyalty).

Definition _calculate_impermanent_loss (position : LiquidityPosition)
    (pool : LiquidityPool) : M R :=
  initial_ratio ← fdiv (initial_base_amount position) (initial_domain_amount position);
  current_ratio ← fdiv (base_token_reserve pool) (domain_token_reserve pool);
  ratio_change ← fdiv current_ratio initial_ratio;
  root ← fsqrt ratio_change;
  il0 ← fdiv (2 * root) (1 + ratio_change);
  let il := il0 - 1 in
  mret (il * 100).

Definition _create_pool_creation_transactions (pool : LiquidityPool)
    (domain_tx base_tx : TransferRef) (creator : Z) : M unit :=
  db_add_commit {|
    tx_domain_id := domain_id pool;
    tx_user_id := creator;
    transaction_type := "create_pool";
    transaction_hash := (domain_tx, base_tx);
    tx_status := "confirmed";
    transaction_metadata :=
      [("pool_id", JStr (pool_id pool));
       ("base_token", JStr (base_token pool));
       ("initial_domain_reserve", JNum (domain_token_reserve pool));
       ("initial_base_reserve", JNum (base_token_reserve pool))]
  |}.

Definition _get_token_price (token : string) : R :=
  let prices : gmap string R :=
    {[ "USDC" := 1; "ETH" := 2000; "MATIC" := 8 / 10 ]} in
  default 1 (prices !! token).

Definition _calculate_pool_apy (pool : string) : R := 155 / 10.

Definition _get_liquidity_provider_count (pool : string) : Z := 25.

Definition _get_price_change_24h (pool : string) : R := 25 / 10.

(** ** Results of the public operations (the dictionaries they return) *)

Record PoolCreated : Type := mkPoolCreated {
  pc_pool_id : string;
  pc_pool_contract_address : string;
  pc_initial_price : R;
  pc_liquidity_tokens_minted : R;
  pc_position_id : string;
  pc_transactions : TransferRef * TransferRef
}.

Record LiquidityAdded : Type := mkLiquidityAdded {
  la_liquidity_tokens_minted : R;
  la_domain_amount_used : R;
  la_base_amount_used : R;
  la_unused_domain : R;
  la_unused_base : R;
  la_new_pool_share : R;
  la_transactions : TransferRef * TransferRef
}.

Record LiquidityRemoved : Type := mkLiquidityRemoved {
  lr_domain_amount_received : R;
  lr_base_amount_received : R;
  lr_rewards_earned : R;
  lr_liquidity_tokens_burned : R;
  lr_remaining_liquidity_tokens : R;
  lr_transactions : TransferRef * TransferRef * option TransferRef
}.

Record TradeExecuted : Type := mkTradeExecuted {
  te_input_amount : R;
  te_output_amount : R;
  te_price_impact : R;
  te_fee_paid : R;
  te_execution_price : R;
  te_transactions : TransferRef * TransferRef
}.

(** Truth value of [domain.token_id]: [None] and the empty string are false. *)
Definition truthy (s : option string) : bool :=
  match s with
  | None => false
  | Some s => if decide (s = "") then false else true
  end.

(** [slippage_tolerance or self.slippage_tolerance]: [None] and [0.0] are
    false. *)
Definition slippage_or_default (self : AutomatedMarketMaker)
    (tolerance : option R) : R :=
  match tolerance with
  | None => slippage_tolerance self
  | Some s => if Req_dec_T s 0 then slippage_tolerance self else s
  end.

(** ** The exceptions of [get_pool_analytics]

    Besides the exceptions of the engine the view can raise the
    [AttributeError] of [Domain.query.get(...).name] when the row of the
    domain is missing.  The string that [isoformat()] returns is represented
    by the [datetime] it renders. *)

Inductive view_exn : Type :=
| Engine (e : exn)
| AttributeError (attribute : string).  (* 'NoneType' object has no attribute '...' *)

Definition V (A : Type) : Type := World -> World * (view_exn + A).

#[export] Instance V_ret : MRet V := fun A x w => (w, inr x).

#[export] Instance V_bind : MBind V := fun A B f m w =>
  match m w with
  | (w', inl e) => (w', inl e)
  | (w', inr x) => f x w'
  end.

Definition vraise {A : Type} (e : view_exn) : V A := fun w => (w, inl e).

(** An operation of the engine, run inside a view. *)
Definition lift {A : Type} (m : M A) : V A := fun w =>
  match m w with
  | (w', inl e) => (w', inl (Engine e))
  | (w', inr x) => (w', inr x)
  end.

(** [Domain.query.get(domain_id).name] *)
Definition Domain_name (domain : Z) : V string :=
  d ← lift (Domain_query_get domain);
  match d with
  | None => vraise (AttributeError "name")
  | Some d => mret (domain_name d)
  end.

Record PoolAnalytics : Type := mkPoolAnalytics {
  pa_pool_id : string;
  pa_domain_name : string;
  pa_base_token : string;
  pa_current_price : R;
  pa_price_change_24h : R;
  pa_reserves : R * R;                 (* 'domain_tokens', 'base_tokens' *)
  pa_tvl : R;
  pa_volume_24h : R;
  pa_fee_rate : R;
  pa_apy : R;
  pa_liquidity_providers : Z;
  pa_total_liquidity_tokens : R;
  pa_created_at : datetime;
  pa_last_updated : datetime
}.

(** * The public methods of the class

    The methods as the source has them, over the storage helpers they call
    on [self].  [position_assigned] stands for the assignments that
    [add_liquidity] makes to the fields of the position object that
    [_get_user_position] returned: no helper is called for them, and what
    they change depends on whether the helper hands out the stored object. *)

Module Engine.

Section Methods.

Variable _get_pool_by_domain_and_base : Z -> string -> M (option LiquidityPool).
Variable _get_pool_by_id : string -> M (option LiquidityPool).
Variable _store_liquidity_pool : LiquidityPool -> M unit.
Variable _store_liquidity_position : LiquidityPosition -> M unit.
Variable _update_liquidity_pool : LiquidityPool -> M unit.
Variable _update_liquidity_position : LiquidityPosition -> M unit.
Variable _remove_liquidity_position : string -> M unit.
Variable _get_user_position : string -> Z -> M (option LiquidityPosition).
Variable position_assigned : LiquidityPosition -> M unit.

(** ** [create_liquidity_pool] *)

Definition create_liquidity_pool (self : AutomatedMarketMaker) (domain : Z)
    (base : string) (initial_domain initial_base : R) (creator_id : Z)
  : M PoolCreated :=
  d ← Domain_query_get domain;
  match d with
  | None => raise DomainNotFound
  | Some d =>
  if negb (truthy (token_id d)) then raise DomainNotTokenized else
  if negb (bool_decide (base ∈ supported_base_tokens self))
  then raise (UnsupportedBaseToken base) else
  if Rlt_dec initial_base (minimum_liquidity self)
  then raise (MinimumLiquidity (minimum_liquidity self) base) else
  existing_pool ← _get_pool_by_domain_and_base domain base;
  match existing_pool with
  | Some _ => raise PoolAlreadyExists
  | None =>
  try_except PoolCreationFailed (
    initial_liquidity ← fsqrt (initial_domain * initial_base);
    now ← utcnow;
    let id := "POOL_" +:+ pretty domain +:+ "_" +:+ base +:+ "_"
              +:+ pretty (timestamp_seconds now) in
    t_created ← utcnow;
    t_updated ← utcnow;
    let pool := {|
      pool_id := id;
      domain_id := domain;
      base_token := base;
      domain_token_reserve := initial_domain;
      base_token_reserve := initial_base;
      total_liquidity_tokens := initial_liquidity;
      fee_rate := default_fee_rate self;
      created_at := t_created;
      last_updated := t_updated
    |} in
    let pool_contract_address := _deploy_pool_contract pool in
    let domain_transfer_tx :=
      _transfer_domain_tokens_to_pool domain initial_domain pool_contract_address in
    let base_transfer_tx :=
      _transfer_base_tokens_to_pool base initial_base pool_contract_address creator_id in
    t_position ← utcnow;
    let position := {|
      position_id := "POS_" +:+ id +:+ "_" +:+ pretty creator_id;
      pos_pool_id := id;
      user_id := creator_id;
      liquidity_tokens := initial_liquidity;
      initial_domain_amount := initial_domain;
      initial_base_amount := initial_base;
      pos_created_at := t_position;
      rewards_earned := 0
    |} in
    _store_liquidity_pool pool;;
    _store_liquidity_position position;;
    _create_pool_creation_transactions pool domain_transfer_tx base_transfer_tx creator_id;;
    initial_price ← fdiv initial_base initial_domain;
    mret {|
      pc_pool_id := id;
      pc_pool_contract_address := pool_contract_address;
      pc_initial_price := initial_price;
      pc_liquidity_tokens_minted := initial_liquidity;
      pc_position_id := position_id position;
      pc_transactions := (domain_transfer_tx, base_transfer_tx)
    |})
  end
  end.

(** ** [add_liquidity] *)

Definition add_liquidity (self : AutomatedMarketMaker) (id : string) (user : Z)
    (domain_amount base_amount : R) : M LiquidityAdded :=
  p ← _get_pool_by_id id;
  match p with
  | None => raise PoolNotFound
  | Some pool =>
  current_ratio ← fdiv (base_token_reserve pool) (domain_token_reserve pool);
  let optimal_base_amount := domain_amount * current_ratio in
  optimal_domain_amount ← fdiv base_amount current_ratio;
  let final :=
    if Rle_dec optimal_base_amount base_amount
    then (domain_amount, optimal_base_amount)
    else (optimal_domain_amount, base_amount) in
  let final_domain_amount := fst final in
  let final_base_amount := snd final in
  domain_fraction ← fdiv final_domain_amount (domain_token_reserve pool);
  base_fraction ← fdiv final_base_amount (base_token_reserve pool);
  let minted := Rmin (domain_fraction * total_liquidity_tokens pool)
                     (base_fraction * total_liquidity_tokens pool) in
  try_except AddLiquidityFailed (
    let domain_tx :=
      _transfer_domain_tokens_to_pool (domain_id pool) final_domain_amount id in
    let base_tx :=
      _transfer_base_tokens_to_pool (base_token pool) final_base_amount id user in
    t_updated ← utcnow;
    let pool' := {|
      pool_id := pool_id pool;
      domain_id := domain_id pool;
      base_token := base_token pool;
      domain_token_reserve := domain_token_reserve pool + final_domain_amount;
      base_token_reserve := base_token_reserve pool + final_base_amount;
      total_liquidity_tokens := total_liquidity_tokens pool + minted;
      fee_rate := fee_rate pool;
      created_at := created_at pool;
      last_updated := t_updated
    |} in
    existing_position ← _get_user_position id user;
    match existing_position with
    | Some pos =>
        (* the fields of the object that the helper returned are assigned *)
        position_assigned {|
          position_id := position_id pos;
          pos_pool_id := pos_pool_id pos;
          user_id := user_id pos;
          liquidity_tokens := liquidity_tokens pos + minted;
          initial_domain_amount := initial_domain_amount pos + final_domain_amount;
          initial_base_amount := initial_base_amount pos + final_base_amount;
          pos_created_at := pos_created_at pos;
          rewards_earned := rewards_earned pos
        |}
    | None =>
        t_id ← utcnow;
        t_position ← utcnow;
        _store_liquidity_position {|
          position_id := "POS_" +:+ id +:+ "_" +:+ pretty user +:+ "_"
                         +:+ pretty (timestamp_seconds t_id);
          pos_pool_id := id;
          user_id := user;
          liquidity_tokens := minted;
          initial_domain_amount := final_domain_amount;
          initial_base_amount := final_base_amount;
          pos_created_at := t_position;
          rewards_earned := 0
        |}
    end;;
    _update_liquidity_pool pool';;
    db_add_commit {|
      tx_domain_id := domain_id pool';
      tx_user_id := user;
      transaction_type := "add_liquidity";
      transaction_hash := (domain_tx, base_tx);
      tx_status := "confirmed";
      transaction_metadata :=
        [("pool_id", JStr id);
         ("domain_amount", JNum final_domain_amount);
         ("base_amount", JNum final_base_amount);
         ("liquidity_tokens", JNum minted)]
    |};;
    pool_share ← fdiv minted (total_liquidity_tokens pool');
    mret {|
      la_liquidity_tokens_minted := minted;
      la_domain_amount_used := final_domain_amount;
      la_base_amount_used := final_base_amount;
      la_unused_domain := domain_amount - final_domain_amount;
      la_unused_base := base_amount - final_base_amount;
      la_new_pool_share := pool_share * 100;
      la_transactions := (domain_tx, base_tx)
    |})
  end.

(** ** [remove_liquidity] *)

Definition remove_liquidity (self : AutomatedMarketMaker) (id : string) (user : Z)
    (burned : R) : M LiquidityRemoved :=
  p ← _get_pool_by_id id;
  match p with
  | None => raise PoolNotFound
  | Some pool =>
  held ← _get_user_position id user;
  match held with
  | None => raise InsufficientLiquidityTokens
  | Some position =>
  if Rlt_dec (liquidity_tokens position) burned
  then raise InsufficientLiquidityTokens else
  share ← fdiv burned (total_liquidity_tokens pool);
  let domain_amount := domain_token_reserve pool * share in
  let base_amount := base_token_reserve pool * share in
  rewards ← _calculate_liquidity_rewards self position pool;
  try_except RemoveLiquidityFailed (
    let domain_tx :=
      _transfer_domain_tokens_from_pool (domain_id pool) domain_amount id user in
    let base_tx :=
      _transfer_base_tokens_from_pool (base_token pool) base_amount id user in
    let rewards_tx :=
      if Rlt_dec 0 rewards
      then Some (_transfer_rewards user rewards (base_token pool)) else None in
    t_updated ← utcnow;
    let pool' := {|
      pool_id := pool_id pool;
      domain_id := domain_id pool;
      base_token := base_token pool;
      domain_token_reserve := domain_token_reserve pool - domain_amount;
      base_token_reserve := base_token_reserve pool - base_amount;
      total_liquidity_tokens := total_liquidity_tokens pool - burned;
      fee_rate := fee_rate pool;
      created_at := created_at pool;
      last_updated := t_updated
    |} in
    let position' := {|
      position_id := position_id position;
      pos_pool_id := pos_pool_id position;
      user_id := user_id position;
      liquidity_tokens := liquidity_tokens position - burned;
      initial_domain_amount := initial_domain_amount position;
      initial_base_amount := initial_base_amount position;
      pos_created_at := pos_created_at position;
      rewards_earned := rewards_earned position + rewards
    |} in
    (if Rle_dec (liquidity_tokens position') 0
     then _remove_liquidity_position (position_id position')
     else _update_liquidity_position position');;
    _update_liquidity_pool pool';;
    db_add_commit {|
      tx_domain_id := domain_id pool';
      tx_user_id := user;
      transaction_type := "remove_liquidity";
      transaction_hash := (domain_tx, base_tx);
      tx_status := "confirmed";
      transaction_metadata :=
        [("pool_id", JStr id);
         ("liquidity_tokens_burned", JNum burned);
         ("domain_amount_received", JNum domain_amount);
         ("base_amount_received", JNum base_amount);
         ("rewards_earned", JNum rewards)]
    |};;
    mret {|
      lr_domain_amount_received := domain_amount;
      lr_base_amount_received := base_amount;
      lr_rewards_earned := rewards;
      lr_liquidity_tokens_burned := burned;
      lr_remaining_liquidity_tokens :=
        if Rlt_dec 0 (liquidity_tokens position')
        then liquidity_tokens position' else 0;
      lr_transactions := (domain_tx, base_tx, rewards_tx)
    |})
  end
  end.

(** ** [get_trade_quote] *)


Definition get_trade_quote (self : AutomatedMarketMaker) (id : string)
    (token : string) (amount : R) (tolerance : option R) : M TradeQuote :=
  p ← _get_pool_by_id id;
  match p with
  | None => raise PoolNotFound
  | Some pool =>
  let slippage := slippage_or_default self tolerance in
  sides ← (if decide (token = "domain")
           then mret (domain_token_reserve pool, base_token_reserve pool,
                      base_token pool)
           else if decide (token = base_token pool)
           then mret (base_token_reserve pool, domain_token_reserve pool,
                      "domain")
           else raise (InvalidInputToken token));
  let input_reserve := fst (fst sides) in
  let output_reserve := snd (fst sides) in
  let out_token := snd sides in
  let input_amount_with_fee := amount * (1 - fee_rate pool) in
  out ← fdiv (output_reserve * input_amount_with_fee)
             (input_reserve + input_amount_with_fee);
  price_before ← fdiv output_reserve input_reserve;
  let new_input_reserve := input_reserve + amount in
  let new_output_reserve := output_reserve - out in
  price_after ← fdiv new_output_reserve new_input_reserve;
  impact ← fdiv (Rabs (price_after - price_before)) price_before;
  let fee := amount * fee_rate pool in
  let min_out := out * (1 - slippage) in
  now ← utcnow;
  mret {|
    input_token := token;
    output_token := out_token;
    input_amount := amount;
    output_amount := out;
    price_impact := impact;
    fee_amount := fee;
    minimum_output := min_out;
    valid_until := (now + five_minutes)%Z
  |}
  end.

(** ** [execute_trade] *)

Definition execute_trade (self : AutomatedMarketMaker) (id : string)
    (quote : TradeQuote) (trader_id : Z) : M TradeExecuted :=
  now ← utcnow;
  if decide (valid_until quote < now)%Z then raise QuoteExpired else
  p ← _get_pool_by_id id;
  match p with
  | None => raise PoolNotFound
  | Some pool =>
  if Rlt_dec (price_impact_threshold self) (price_impact quote)
  then raise (PriceImpactTooHigh (price_impact quote)) else
  try_except TradeExecutionFailed (
    let moved :=
      if decide (input_token quote = "domain")
      then (_transfer_domain_tokens_to_pool (domain_id pool) (input_amount quote) id,
            _transfer_base_tokens_from_pool (base_token pool) (output_amount quote)
                                            id trader_id,
            domain_token_reserve pool + input_amount quote,
            base_token_reserve pool - output_amount quote)
      else (_transfer_base_tokens_to_pool (base_token pool) (input_amount quote)
                                          id trader_id,
            _transfer_domain_tokens_from_pool (domain_id pool) (output_amount quote)
                                              id trader_id,
            domain_token_reserve pool - output_amount quote,
            base_token_reserve pool + input_amount quote) in
    let input_tx := fst (fst (fst moved)) in
    let output_tx := snd (fst (fst moved)) in
    t_updated ← utcnow;
    let pool' := {|
      pool_id := pool_id pool;
      domain_id := domain_id pool;
      base_token := base_token pool;
      domain_token_reserve := snd (fst moved);
      base_token_reserve := snd moved;
      total_liquidity_tokens := total_liquidity_tokens pool;
      fee_rate := fee_rate pool;
      created_at := created_at pool;
      last_updated := t_updated
    |} in
    _update_liquidity_pool pool';;
    _distribute_trading_fees id (fee_amount quote);;
    db_add_commit {|
      tx_domain_id := domain_id pool';
      tx_user_id := trader_id;
      transaction_type := "swap";
      transaction_hash := (input_tx, output_tx);
      tx_status := "confirmed";
      transaction_metadata :=
        [("pool_id", JStr id);
         ("input_token", JStr (input_token quote));
         ("output_token", JStr (output_token quote));
         ("input_amount", JNum (input_amount quote));
         ("output_amount", JNum (output_amount quote));
         ("price_impact", JNum (price_impact quote));
         ("fee_amount", JNum (fee_amount quote))]
    |};;
    execution_price ← fdiv (output_amount quote) (input_amount quote);
    mret {|
      te_input_amount := input_amount quote;
      te_output_amount := output_amount quote;
      te_price_impact := price_impact quote;
      te_fee_paid := fee_amount quote;
      te_execution_price := execution_price;
      te_transactions := (input_tx, output_tx)
    |})
  end.

(** ** [get_pool_analytics] *)

Definition get_pool_analytics (self : AutomatedMarketMaker) (id : string)
  : V PoolAnalytics :=
  pool ← lift (_get_pool_by_id id);
  match pool with
  | None => vraise (Engine PoolNotFound)
  | Some pool =>
    current_price ← lift (fdiv (base_token_reserve pool) (domain_token_reserve pool));
    let volume_24h := _get_trading_volume_24h id in
    let base_token_price := _get_token_price (base_token pool) in
    let tvl := base_token_reserve pool * 2 * base_token_price in
    let apy := _calculate_pool_apy id in
    let lp_count := _get_liquidity_provider_count id in
    let price_change_24h := _get_price_change_24h id in
    name ← Domain_name (domain_id pool);
    mret {|
      pa_pool_id := id;
      pa_domain_name := name;
      pa_base_token := base_token pool;
      pa_current_price := current_price;
      pa_price_change_24h := price_change_24h;
      pa_reserves := (domain_token_reserve pool, base_token_reserve pool);
      pa_tvl := tvl;
      pa_volume_24h := volume_24h;
      pa_fee_rate := fee_rate pool;
      pa_apy := apy;
      pa_liquidity_providers := lp_count;
      pa_total_liquidity_tokens := total_liquidity_tokens pool;
      pa_created_at := created_at pool;
      pa_last_updated := last_updated pool
    |}
  end.

End Methods.

End Engine.

(** * The class as it is in the source

    The storage helpers as lines 640-718 of the source have them, and the
    public methods on them. *)

Module Source.

(** [return None], under the comment "In production, would query pools
    table". *)
Definition _get_pool_by_domain_and_base (domain : Z) (base : string)
  : M (option LiquidityPool) :=
  mret None.

(** A pool with fixed contents under the id that is asked for, under the
    comment "Simplified - would query database". *)
Definition _get_pool_by_id (id : string) : M (option LiquidityPool) :=
  t_created ← utcnow;
  t_updated ← utcnow;
  mret (Some {|
    pool_id := id;
    domain_id := 1;
    base_token := "USDC";
    domain_token_reserve := 1000;
    base_token_reserve := 5000;
    total_liquidity_tokens := 2236;
    fee_rate := 3 / 1000;
    created_at := t_created;
    last_updated := t_updated
  |}).

(** [pass] *)
Definition _store_liquidity_pool (pool : LiquidityPool) : M unit := mret tt.

(** [pass] *)
Definition _store_liquidity_position (position : LiquidityPosition) : M unit :=
  mret tt.

(** [pass] *)
Definition _update_liquidity_pool (pool : LiquidityPool) : M unit := mret tt.

(** [pass] *)
Definition _update_liquidity_position (position : LiquidityPosition) : M unit :=
  mret tt.

(** [pass] *)
Definition _remove_liquidity_position (id : string) : M unit := mret tt.

(** [return None], under the comment "Simplified - would query database". *)
Definition _get_user_position (pool : string) (user : Z)
  : M (option LiquidityPosition) :=
  mret None.

(** No position object is ever returned, so none is assigned to. *)
Definition position_assigned (position : LiquidityPosition) : M unit := mret tt.

Definition create_liquidity_pool :=
  Engine.create_liquidity_pool _get_pool_by_domain_and_base
    _store_liquidity_pool _store_liquidity_position.

Definition add_liquidity :=
  Engine.add_liquidity _get_pool_by_id _store_liquidity_position
    _update_liquidity_pool _get_user_position position_assigned.

Definition remove_liquidity :=
  Engine.remove_liquidity _get_pool_by_id _update_liquidity_pool
    _update_liquidity_position _remove_liquidity_position _get_user_position.

Definition get_trade_quote := Engine.get_trade_quote _get_pool_by_id.

Definition execute_trade :=
  Engine.execute_trade _get_pool_by_id _update_liquidity_pool.

Definition get_pool_analytics := Engine.get_pool_analytics _get_pool_by_id.

End Source.

(** * The class on a working store

    The helpers of this module are not those of the source: they do what the
    comments of the placeholders give as the production behaviour ("would
    query database", "would store in pools table").  Pools are kept by id
    and positions in a list, and a lookup finds what an earlier call
    stored. *)

Module Store.

(** The pool that is stored under the id, if any.  The placeholder of the
    source returns a pool for every id. *)
Definition _get_pool_by_id (pool_id : string) : M (option LiquidityPool) :=
  gets (fun w => pools w !! pool_id).

(** The first stored pool of the domain and the base token, if any.  The
    placeholder of the source returns [None]. *)
Definition _get_pool_by_domain_and_base (domain : Z) (base : string)
  : M (option LiquidityPool) :=
  gets (fun w =>
    head (filter (fun p => domain_id p = domain /\ base_token p = base)
                 (map snd (map_to_list (pools w))))).

(** The pool that is handed to [_store_liquidity_pool] or to
    [_update_liquidity_pool] is kept under its id; the placeholders of the
    source are [pass].  The methods change the pool object in place before
    they hand it to [_update_liquidity_pool] and nothing can raise in
    between, so the change reaches the store at that call. *)
Definition save_pool (pool : LiquidityPool) (w : World) : World :=
  mkWorld (clock w) (domains w) (<[pool_id pool := pool]> (pools w))
          (positions w) (transactions w).

Definition _store_liquidity_pool (pool : LiquidityPool) : M unit :=
  modify (save_pool pool).

Definition _update_liquidity_pool (pool : LiquidityPool) : M unit :=
  modify (save_pool pool).

Definition set_positions (f : list LiquidityPosition -> list LiquidityPosition)
    (w : World) : World :=
  mkWorld (clock w) (domains w) (pools w) (f (positions w)) (transactions w).

(** The first stored position of the user in the pool, if any.  The
    placeholder of the source returns [None]. *)
Definition _get_user_position (pool : string) (user : Z)
  : M (option LiquidityPosition) :=
  gets (fun w =>
    head (filter (fun p => pos_pool_id p = pool /\ user_id p = user)
                 (positions w))).

(** The position is appended to the stored ones; [pass] in the source. *)
Definition _store_liquidity_position (position : LiquidityPosition) : M unit :=
  modify (set_positions (fun ps => ps ++ [position])).

(** The stored position of that id is replaced; [pass] in the source.  The
    position object that [_get_user_position] hands out is the stored one, so
    an assignment to its fields is such a replacement too. *)
Definition _update_liquidity_position (position : LiquidityPosition) : M unit :=
  modify (set_positions
    (map (fun p => if decide (position_id p = position_id position)
                   then position else p))).

(** The stored position of that id is deleted; [pass] in the source. *)
Definition _remove_liquidity_position (id : string) : M unit :=
  modify (set_positions (filter (fun p => position_id p <> id))).

Definition create_liquidity_pool :=
  Engine.create_liquidity_pool _get_pool_by_domain_and_base
    _store_liquidity_pool _store_liquidity_position.

Definition add_liquidity :=
  Engine.add_liquidity _get_pool_by_id _store_liquidity_position
    _update_liquidity_pool _get_user_position _update_liquidity_position.

Definition remove_liquidity :=
  Engine.remove_liquidity _get_pool_by_id _update_liquidity_pool
    _update_liquidity_position _remove_liquidity_position _get_user_position.

Definition get_trade_quote := Engine.get_trade_quote _get_pool_by_id.

Definition execute_trade :=
  Engine.execute_trade _get_pool_by_id _update_liquidity_pool.

End Store.

Export Store.

(** * Vocabulary of the statements *)

(** ** What the operations build *)

(** The reserve of the token that is sold and the reserve of the token that is
    bought, as [get_trade_quote] selects them. *)
Definition input_side (pool : LiquidityPool) (token : string) : R :=
  if decide (token = "domain") then domain_token_reserve pool
  else base_token_reserve pool.

Definition output_side (pool : LiquidityPool) (token : string) : R :=
  if decide (token = "domain") then base_token_reserve pool
  else domain_token_reserve pool.

(** The pool object after [execute_trade] has applied a quote to it. *)
Definition traded (pool : LiquidityPool) (quote : TradeQuote) (now : datetime)
  : LiquidityPool := {|
  pool_id := pool_id pool;
  domain_id := domain_id pool;
  base_token := base_token pool;
  domain_token_reserve :=
    if decide (input_token quote = "domain")
    then domain_token_reserve pool + input_amount quote
    else domain_token_reserve pool - output_amount quote;
  base_token_reserve :=
    if decide (input_token quote = "domain")
    then base_token_reserve pool - output_amount quote
    else base_token_reserve pool + input_amount quote;
  total_liquidity_tokens := total_liquidity_tokens pool;
  fee_rate := fee_rate pool;
  created_at := created_at pool;
  last_updated := now
|}.

(** The pool object after [remove_liquidity] has burned [burned] tokens. *)
Definition withdrawn (pool : LiquidityPool) (burned : R) (now : datetime)
  : LiquidityPool := {|
  pool_id := pool_id pool;
  domain_id := domain_id pool;
  base_token := base_token pool;
  domain_token_reserve :=
    domain_token_reserve pool
    - domain_token_reserve pool * (burned / total_liquidity_tokens pool);
  base_token_reserve :=
    base_token_reserve pool
    - base_token_reserve pool * (burned / total_liquidity_tokens pool);
  total_liquidity_tokens := total_liquidity_tokens pool - burned;
  fee_rate := fee_rate pool;
  created_at := created_at pool;
  last_updated := now
|}.

(** The amounts of the two tokens that [add_liquidity] takes from the amounts
    supplied, and the liquidity tokens it mints. *)
Definition deposited (pool : LiquidityPool) (domain_amount base_amount : R) : R * R :=
  if Rle_dec (domain_amount
              * (base_token_reserve pool / domain_token_reserve pool)) base_amount
  then (domain_amount,
        domain_amount * (base_token_reserve pool / domain_token_reserve pool))
  else (base_amount / (base_token_reserve pool / domain_token_reserve pool),
        base_amount).

Definition minted (pool : LiquidityPool) (domain_amount base_amount : R) : R :=
  Rmin (fst (deposited pool domain_amount base_amount) / domain_token_reserve pool
        * total_liquidity_tokens pool)
       (snd (deposited pool domain_amount base_amount) / base_token_reserve pool
        * total_liquidity_tokens pool).

(** The pool object after [add_liquidity]. *)
Definition supplied (pool : LiquidityPool) (domain_amount base_amount : R)
    (now : datetime) : LiquidityPool := {|
  pool_id := pool_id pool;
  domain_id := domain_id pool;
  base_token := base_token pool;
  domain_token_reserve :=
    domain_token_reserve pool + fst (deposited pool domain_amount base_amount);
  base_token_reserve :=
    base_token_reserve pool + snd (deposited pool domain_amount base_amount);
  total_liquidity_tokens :=
    total_liquidity_tokens pool + minted pool domain_amount base_amount;
  fee_rate := fee_rate pool;
  created_at := created_at pool;
  last_updated := now
|}.

(** The id and the pool object that [create_liquidity_pool] builds. *)
Definition new_pool_id (domain : Z) (base : string) (now : datetime) : string :=
  "POOL_" +:+ pretty domain +:+ "_" +:+ base +:+ "_"
  +:+ pretty (timestamp_seconds now).

Definition new_pool (self : AutomatedMarketMaker) (domain : Z) (base : string)
    (initial_domain initial_base : R) (now : datetime) : LiquidityPool := {|
  pool_id := new_pool_id domain base now;
  domain_id := domain;
  base_token := base;
  domain_token_reserve := initial_domain;
  base_token_reserve := initial_base;
  total_liquidity_tokens := sqrt (initial_domain * initial_base);
  fee_rate := default_fee_rate self;
  created_at := now;
  last_updated := now
|}.

Definition new_position (domain : Z) (base : string)
    (initial_domain initial_base : R) (creator : Z) (now : datetime)
  : LiquidityPosition := {|
  position_id := "POS_" +:+ new_pool_id domain base now +:+ "_" +:+ pretty creator;
  pos_pool_id := new_pool_id domain base now;
  user_id := creator;
  liquidity_tokens := sqrt (initial_domain * initial_base);
  initial_domain_amount := initial_domain;
  initial_base_amount := initial_base;
  pos_created_at := now;
  rewards_earned := 0
|}.

(** The conditions on the domain, the base token and the pool store that
    [create_liquidity_pool] checks besides the amounts. *)
Definition admissible (self : AutomatedMarketMaker) (w : World) (domain : Z)
    (base : string) : Prop :=
  (exists d, domains w !! domain = Some d /\ truthy (token_id d) = true) /\
  base ∈ supported_base_tokens self /\
  _get_pool_by_domain_and_base domain base w = (w, inr None).

Definition reserve_product (pool : LiquidityPool) : R :=
  domain_token_reserve pool * base_token_reserve pool.

(** The closed form of the impermanent loss for a relative price change [r]. *)
Definition il_curve (r : R) : R := 2 * sqrt r / (1 + r) - 1.

(** ** Sequences of operations *)

(** A swap as a client performs it: a quote is requested from the pool's
    current state and submitted at once. *)
Definition quoted_swap (self : AutomatedMarketMaker) (id token : string)
    (amount : R) (tol : option R) (trader : Z) : M TradeExecuted :=
  quote ← get_trade_quote self id token amount tol;
  execute_trade self id quote trader.

(** Time passes between two operations. *)
Definition advance (t : datetime) (w : World) : World :=
  mkWorld t (domains w) (pools w) (positions w) (transactions w).

(** The pools of a world are stored under their own ids, with positive
    reserves and a fee rate in [0,1). *)
Definition healthy (w : World) : Prop :=
  forall id pool,
    pools w !! id = Some pool ->
    pool_id pool = id /\
    0 < domain_token_reserve pool /\
    0 < base_token_reserve pool /\
    0 <= fee_rate pool < 1.


(** The pools of a world are stored under their own ids, with reserves that
    are not negative and a fee rate in [0,1]. *)
Definition solvent (w : World) : Prop :=
  forall id pool,
    pools w !! id = Some pool ->
    pool_id pool = id /\
    0 <= domain_token_reserve pool /\
    0 <= base_token_reserve pool /\
    0 <= fee_rate pool <= 1.

(** A sequence of mutations within the bounds of the pool: swaps of a
    non-negative amount whose quote comes from the pool's current state,
    additions of non-negative amounts, and removals of a non-negative number
    of liquidity tokens that is at most the pool's total.  Each of them may be
    rejected. *)
Inductive mutations (self : AutomatedMarketMaker) : World -> World -> Prop :=
| mutations_done (w : World) : mutations self w w
| mutations_wait (w w' : World) (t : datetime) :
    mutations self (advance t w) w' -> mutations self w w'
| mutations_swap (w w1 w' : World) (id token : string) (amount : R)
    (tol : option R) (trader : Z) (res : exn + TradeExecuted) :
    0 <= amount ->
    quoted_swap self id token amount tol trader w = (w1, res) ->
    mutations self w1 w' ->
    mutations self w w'
| mutations_add (w w1 w' : World) (id : string) (user : Z)
    (domain_amount base_amount : R) (res : exn + LiquidityAdded) :
    0 <= domain_amount ->
    0 <= base_amount ->
    add_liquidity self id user domain_amount base_amount w = (w1, res) ->
    mutations self w1 w' ->
    mutations self w w'
| mutations_remove (w w1 w' : World) (id : string) (user : Z) (burned : R)
    (res : exn + LiquidityRemoved) :
    0 <= burned ->
    (forall pool, pools w !! id = Some pool -> burned <= total_liquidity_tokens pool) ->
    remove_liquidity self id user burned w = (w1, res) ->
    mutations self w1 w' ->
    mutations self w w'.

(** ** Sample data

    The pool that the placeholder [_get_pool_by_id] of the source returns,
    worlds that store it or nothing, a provider and two quotes. *)

Definition sample_time : datetime := 1700000000000000%Z.

Definition sample_pool (id : string) (now : datetime) : LiquidityPool := {|
  pool_id := id;
  domain_id := 1;
  base_token := "USDC";
  domain_token_reserve := 1000;
  base_token_reserve := 5000;
  total_liquidity_tokens := 2236;
  fee_rate := 3 / 1000;
  created_at := now;
  last_updated := now
|}.

Definition sample_world : World := {|
  clock := sample_time;
  domains := {[ 1%Z := {| domain_name := "example.com"; token_id := Some "42" |} ]};
  pools := {[ "P" := sample_pool "P" sample_time ]};
  positions := [];
  transactions := []
|}.

(** A world whose pool store is empty. *)
Definition empty_world : World := {|
  clock := sample_time;
  domains := {[ 1%Z := {| domain_name := "example.com"; token_id := Some "42" |} ]};
  pools := ∅;
  positions := [];
  transactions := []
|}.

(** A position that was opened when the price was 2.5 USDC per domain token. *)
Definition sample_position : LiquidityPosition := {|
  position_id := "POS_P_7";
  pos_pool_id := "P";
  user_id := 7;
  liquidity_tokens := 2236;
  initial_domain_amount := 1000;
  initial_base_amount := 2500;
  pos_created_at := sample_time;
  rewards_earned := 0
|}.

(** The sample world with a provider, user 7, who holds every liquidity token
    of the sample pool. *)
Definition provider_world : World :=
  set_positions (fun _ => [sample_position]) sample_world.

(** A quote as a client builds it, as in [test_amm_features]: 10 domain tokens
    for 49 USDC. *)
Definition sample_quote (impact : R) (until : datetime) : TradeQuote := {|
  input_token := "domain";
  output_token := "USDC";
  input_amount := 10;
  output_amount := 49;
  price_impact := impact;
  fee_amount := 3 / 100;
  minimum_output := 48;
  valid_until := until
|}.

(** A quote whose output amount exceeds the base reserve of the sample
    pool. *)
Definition overdrawing_quote : TradeQuote := {|
  input_token := "domain";
  output_token := "USDC";
  input_amount := 10;
  output_amount := 6000;
  price_impact := 1 / 100;
  fee_amount := 3 / 100;
  minimum_output := 5880;
  valid_until := (sample_time + five_minutes)%Z
|}.

(** The sample pool after all of its liquidity has been withdrawn, and a world
    that stores it. *)
Definition drained_pool : LiquidityPool := {|
  pool_id := "P";
  domain_id := 1;
  base_token := "USDC";
  domain_token_reserve := 0;
  base_token_reserve := 0;
  total_liquidity_tokens := 0;
  fee_rate := 3 / 1000;
  created_at := sample_time;
  last_updated := sample_time
|}.

Definition drained_world : World := {|
  clock := sample_time;
  domains := {[ 1%Z := {| domain_name := "example.com"; token_id := Some "42" |} ]};
  pools := {[ "P" := drained_pool ]};
  positions := [];
  transactions := []
|}.

(** A quote for an input of zero, with nothing to receive. *)
Definition empty_quote (until : datetime) : TradeQuote := {|
  input_token := "domain";
  output_token := "USDC";
  input_amount := 0;
  output_amount := 0;
  price_impact := 0;
  fee_amount := 0;
  minimum_output := 0;
  valid_until := until
|}.

(** The rewards that [_calculate_liquidity_rewards] computes at time [now]. *)
Definition accrued_rewards (self : AutomatedMarketMaker)
    (position : LiquidityPosition) (now : datetime) : R :=
  let days := timedelta_days now (pos_created_at position) in
  initial_base_amount position * base_apy self * (IZR days / 365)
  + 1000 * volume_multiplier self * (IZR days / 365)
  + (if decide (30 < days)%Z
     then initial_base_amount position * base_apy self * (IZR days / 365)
          * loyalty_bonus self
     else 0).

(** * Properties *)

(** ** Running an operation *)

Lemma fdiv_ok (x y : R) (w : World) :
  y <> 0 -> fdiv x y w = (w, inr (x / y)).
Proof.
  intros Hy. unfold fdiv.
  destruct (Req_dec_T y 0); [contradiction | reflexivity].
Qed.

Lemma fdiv_zero (x : R) (w : World) : fdiv x 0 w = (w, inl ZeroDivisionError).
Proof.
  unfold fdiv. destruct (Req_dec_T 0 0); [reflexivity | contradiction].
Qed.

Lemma fsqrt_ok (x : R) (w : World) : 0 <= x -> fsqrt x w = (w, inr (sqrt x)).
Proof.
  intros Hx. unfold fsqrt. destruct (Rlt_dec x 0); [lra | reflexivity].
Qed.

Lemma fsqrt_neg (x : R) (w : World) : x < 0 -> fsqrt x w = (w, inl MathDomainError).
Proof.
  intros Hx. unfold fsqrt. destruct (Rlt_dec x 0); [reflexivity | lra].
Qed.

Lemma bind_run {A B : Type} (m : M A) (f : A -> M B) (w : World) :
  (m ≫= f) w = match m w with
               | (w', inl e) => (w', inl e)
               | (w', inr x) => f x w'
               end.
Proof. reflexivity. Qed.

Lemma bind_ok {A B : Type} (m : M A) (f : A -> M B) (w w' : World) (x : A) :
  m w = (w', inr x) -> (m ≫= f) w = f x w'.
Proof. intros H. rewrite bind_run, H. reflexivity. Qed.

Lemma bind_raise {A B : Type} (m : M A) (f : A -> M B) (w w' : World) (e : exn) :
  m w = (w', inl e) -> (m ≫= f) w = (w', inl e).
Proof. intros H. rewrite bind_run, H. reflexivity. Qed.

Lemma get_pool_run (id : string) (w : World) :
  _get_pool_by_id id w = (w, inr (pools w !! id)).
Proof. reflexivity. Qed.

Lemma get_trade_quote_run (self : AutomatedMarketMaker) (w : World) (id : string)
    (pool : LiquidityPool) (token : string) (amount : R) (tol : option R) :
  pools w !! id = Some pool ->
  token = "domain" \/ token = base_token pool ->
  input_side pool token <> 0 ->
  input_side pool token + amount * (1 - fee_rate pool) <> 0 ->
  input_side pool token + amount <> 0 ->
  output_side pool token <> 0 ->
  get_trade_quote self id token amount tol w =
  (w, inr {|
    input_token := token;
    output_token := if decide (token = "domain") then base_token pool else "domain";
    input_amount := amount;
    output_amount :=
      output_side pool token * (amount * (1 - fee_rate pool))
      / (input_side pool token + amount * (1 - fee_rate pool));
    price_impact :=
      Rabs ((output_side pool token
             - output_side pool token * (amount * (1 - fee_rate pool))
               / (input_side pool token + amount * (1 - fee_rate pool)))
            / (input_side pool token + amount)
            - output_side pool token / input_side pool token)
      / (output_side pool token / input_side pool token);
    fee_amount := amount * fee_rate pool;
    minimum_output :=
      output_side pool token * (amount * (1 - fee_rate pool))
      / (input_side pool token + amount * (1 - fee_rate pool))
      * (1 - slippage_or_default self tol);
    valid_until := (clock w + five_minutes)%Z
  |}).
Proof.
  intros Hp Htok Hin He Ha Hout.
  assert (Hpb : output_side pool token / input_side pool token <> 0).
  { unfold Rdiv. apply Rmult_integral_contrapositive_currified; [assumption|].
    apply Rinv_neq_0_compat; assumption. }
  unfold get_trade_quote, Engine.get_trade_quote.
  rewrite (bind_ok _ _ _ _ _ (get_pool_run id w)), Hp.
  unfold input_side, output_side in *.
  destruct (decide (token = "domain")) as [Hd | Hd].
  - rewrite bind_run. cbn [mret M_ret fst snd].
    do 4 (rewrite bind_run, fdiv_ok by assumption; cbv beta iota).
    reflexivity.
  - destruct Htok as [Htok | Htok]; [contradiction|].
    destruct (decide (token = base_token pool)) as [_ | Hn]; [|contradiction].
    rewrite bind_run. cbn [mret M_ret fst snd].
    do 4 (rewrite bind_run, fdiv_ok by assumption; cbv beta iota).
    reflexivity.
Qed.

(** A division in sequence: either it raises, which ends a goal that assumes a
    result, or it returns the quotient. *)
Ltac fdiv_cases H :=
  rewrite bind_run; unfold fdiv at 1;
  destruct (Req_dec_T _ 0) as [|H];
  [ unfold raise; cbv beta iota; try discriminate
  | unfold mret at 1, M_ret at 1; cbv beta iota ].

Lemma get_trade_quote_inv (self : AutomatedMarketMaker) (w w' : World) (id : string)
    (token : string) (amount : R) (tol : option R) (q : TradeQuote) :
  get_trade_quote self id token amount tol w = (w', inr q) ->
  w' = w /\
  exists pool,
    pools w !! id = Some pool /\
    (token = "domain" \/ token = base_token pool) /\
    input_side pool token <> 0 /\
    input_side pool token + amount * (1 - fee_rate pool) <> 0 /\
    input_side pool token + amount <> 0 /\
    output_side pool token <> 0.
Proof.
  unfold get_trade_quote, Engine.get_trade_quote.
  rewrite (bind_ok _ _ _ _ _ (get_pool_run id w)).
  destruct (pools w !! id) as [pool|] eqn:Hp; [|discriminate].
  intros H.
  assert (Hsides : token = "domain" \/ token = base_token pool).
  { revert H.
    destruct (decide (token = "domain")); [left; assumption|].
    destruct (decide (token = base_token pool)); [right; assumption|].
    discriminate. }
  assert (Hrun : w' = w /\ input_side pool token <> 0 /\
    input_side pool token + amount * (1 - fee_rate pool) <> 0 /\
    input_side pool token + amount <> 0 /\ output_side pool token <> 0).
  { revert H. unfold input_side, output_side.
    destruct (decide (token = "domain")) as [Hd | Hd];
      [| destruct (decide (token = base_token pool)); [|discriminate]];
      rewrite bind_run; cbn [mret M_ret fst snd];
      fdiv_cases He; fdiv_cases Hin; fdiv_cases Ha; fdiv_cases Hpb;
      intros H;
      (split; [inversion H; reflexivity|]);
      (repeat split; try assumption);
      intros Hz; apply Hpb; rewrite Hz; unfold Rdiv; apply Rmult_0_l. }
  destruct Hrun as (-> & Hin & He & Ha & Hout).
  split; [reflexivity|]. exists pool. auto 10.
Qed.

Lemma get_trade_quote_world (self : AutomatedMarketMaker) (w w' : World) (id : string)
    (token : string) (amount : R) (tol : option R) (res : exn + TradeQuote) :
  get_trade_quote self id token amount tol w = (w', res) -> w' = w.
Proof.
  unfold get_trade_quote, Engine.get_trade_quote.
  rewrite (bind_ok _ _ _ _ _ (get_pool_run id w)).
  destruct (pools w !! id) as [pool|]; [|intros H; inversion H; reflexivity].
  rewrite bind_run.
  destruct (decide (token = "domain")) as [Hd | Hd];
    [| destruct (decide (token = base_token pool));
       [| intros H; inversion H; reflexivity]];
    cbn [mret M_ret fst snd];
    do 4 (rewrite bind_run; unfold fdiv at 1;
          destruct (Req_dec_T _ 0);
          [intros H; inversion H; reflexivity
          | unfold mret at 1, M_ret at 1; cbv beta iota]);
    intros H; inversion H; reflexivity.
Qed.

Lemma execute_trade_expired (self : AutomatedMarketMaker) (w : World) (id : string)
    (quote : TradeQuote) (trader : Z) :
  (valid_until quote < clock w)%Z ->
  execute_trade self id quote trader w = (w, inl QuoteExpired).
Proof.
  intros Hlate. unfold execute_trade, Engine.execute_trade.
  rewrite bind_run. unfold utcnow, gets. cbv beta iota.
  destruct (decide (valid_until quote < clock w)%Z); [reflexivity | contradiction].
Qed.

Lemma execute_trade_impact (self : AutomatedMarketMaker) (w : World)
    (id : string) (quote : TradeQuote) (trader : Z) (pool : LiquidityPool) :
  (clock w <= valid_until quote)%Z ->
  pools w !! id = Some pool ->
  price_impact_threshold self < price_impact quote ->
  execute_trade self id quote trader w =
  (w, inl (PriceImpactTooHigh (price_impact quote))).
Proof.
  intros Hfresh Hsome Himpact. unfold execute_trade, Engine.execute_trade.
  rewrite bind_run. unfold utcnow, gets. cbv beta iota.
  destruct (decide (valid_until quote < clock w)%Z); [lia|].
  rewrite bind_run. unfold _get_pool_by_id, gets. cbv beta iota.
  rewrite Hsome.
  destruct (Rlt_dec (price_impact_threshold self) (price_impact quote));
    [reflexivity | contradiction].
Qed.

Lemma execute_trade_applied (self : AutomatedMarketMaker) (w : World)
    (id : string) (quote : TradeQuote) (trader : Z) (pool : LiquidityPool) :
  (clock w <= valid_until quote)%Z ->
  pools w !! id = Some pool ->
  price_impact quote <= price_impact_threshold self ->
  exists t res,
    execute_trade self id quote trader w =
    (mkWorld (clock w) (domains w)
             (<[pool_id pool := traded pool quote (clock w)]> (pools w))
             (positions w) (transactions w ++ [t]), res) /\
    (input_amount quote = 0 -> res = inl (TradeExecutionFailed ZeroDivisionError)) /\
    (input_amount quote <> 0 ->
     exists r, res = inr r /\
       te_input_amount r = input_amount quote /\
       te_output_amount r = output_amount quote /\
       te_fee_paid r = fee_amount quote /\
       te_execution_price r = output_amount quote / input_amount quote).
Proof.
  intros Hfresh Hsome Himpact. unfold execute_trade, Engine.execute_trade.
  rewrite bind_run. unfold utcnow, gets. cbv beta iota.
  destruct (decide (valid_until quote < clock w)%Z); [lia|].
  rewrite bind_run. unfold _get_pool_by_id, gets. cbv beta iota.
  rewrite Hsome.
  destruct (Rlt_dec (price_impact_threshold self) (price_impact quote)); [lra|].
  unfold try_except, traded.
  destruct (decide (input_token quote = "domain"));
    cbn [fst snd];
    rewrite bind_run; cbv beta iota;
    unfold _update_liquidity_pool, _distribute_trading_fees, db_add_commit, modify;
    rewrite bind_run; cbv beta iota;
    rewrite bind_run; unfold mret at 1, M_ret at 1; cbv beta iota;
    rewrite bind_run; cbv beta iota;
    rewrite bind_run; unfold fdiv;
    destruct (Req_dec_T (input_amount quote) 0) as [Hz | Hnz];
    unfold raise, mret, M_ret; cbv beta iota;
    eexists; eexists;
    (split; [unfold save_pool; cbn [clock domains pools positions transactions pool_id];
             reflexivity|]);
    (split; [intros Hzero; try contradiction; reflexivity|]);
    intros Hnonzero; try contradiction;
    eexists; (split; [reflexivity|]); cbn; auto.
Qed.

Lemma sample_world_pool :
  pools sample_world !! "P" = Some (sample_pool "P" sample_time).
Proof. apply lookup_singleton_eq. Qed.

(** ** The quote *)

(** C1: for a pool with positive reserves and a fee rate in [0,1), a quote for
    a positive input amount of either token of the pool is returned, its
    output amount is [output_reserve * effective_input / (input_reserve +
    effective_input)] with [effective_input = input_amount * (1 - fee_rate)],
    and its fee amount is [input_amount * fee_rate], taken on the gross
    input.  The input reserve is the domain reserve when domain tokens are
    sold and the base reserve when the base token is sold. *)
Theorem get_trade_quote_constant_product (self : AutomatedMarketMaker) (w : World)
    (id : string) (pool : LiquidityPool) (token : string) (amount : R)
    (tol : option R) :
  pools w !! id = Some pool ->
  0 < domain_token_reserve pool ->
  0 < base_token_reserve pool ->
  0 <= fee_rate pool < 1 ->
  0 < amount ->
  token = "domain" \/ token = base_token pool ->
  exists q,
    get_trade_quote self id token amount tol w = (w, inr q) /\
    input_amount q = amount /\
    output_amount q =
      output_side pool token * (amount * (1 - fee_rate pool))
      / (input_side pool token + amount * (1 - fee_rate pool)) /\
    fee_amount q = amount * fee_rate pool /\
    (token = "domain" ->
     output_amount q =
       base_token_reserve pool * (amount * (1 - fee_rate pool))
       / (domain_token_reserve pool + amount * (1 - fee_rate pool))) /\
    (token <> "domain" ->
     output_amount q =
       domain_token_reserve pool * (amount * (1 - fee_rate pool))
       / (base_token_reserve pool + amount * (1 - fee_rate pool))).
Proof.
  intros Hp Hd Hb Hf Ha Htok.
  assert (Hin : 0 < input_side pool token)
    by (unfold input_side; destruct (decide (token = "domain")); assumption).
  assert (Hout : 0 < output_side pool token)
    by (unfold output_side; destruct (decide (token = "domain")); assumption).
  assert (He : 0 < amount * (1 - fee_rate pool))
    by (apply Rmult_lt_0_compat; lra).
  eexists. split.
  - apply (get_trade_quote_run self w id pool); try assumption; lra.
  - cbn [input_amount output_amount fee_amount].
    repeat split; unfold input_side, output_side;
      destruct (decide (token = "domain")); intros; try contradiction; reflexivity.
Qed.

Lemma get_trade_quote_constant_product_witness :
  exists q,
    get_trade_quote AutomatedMarketMaker_init "P" "domain" 100 None sample_world
    = (sample_world, inr q) /\
    output_amount q = 5000 * (100 * (1 - 3 / 1000)) / (1000 + 100 * (1 - 3 / 1000)) /\
    fee_amount q = 100 * (3 / 1000).
Proof.
  destruct (get_trade_quote_constant_product AutomatedMarketMaker_init sample_world
              "P" (sample_pool "P" sample_time) "domain" 100 None)
    as (q & Hq & _ & _ & Hfee & Hdom & _).
  - exact sample_world_pool.
  - simpl; lra.
  - simpl; lra.
  - simpl; lra.
  - lra.
  - left; reflexivity.
  - exists q. split; [exact Hq|]. split; [apply Hdom; reflexivity | exact Hfee].
Defined.

(** ** Execution of a quote: frame *)

(** C10: a successful [execute_trade] leaves the total of liquidity tokens,
    the fee rate, the pool id, the domain id, the base token and the creation
    time of the pool as they were; it changes nothing of the pool but the two
    reserves and [last_updated], it changes no other pool, and it changes no
    liquidity position: no share is minted or burned. *)
Theorem execute_trade_frame (self : AutomatedMarketMaker) (w w' : World)
    (id : string) (quote : TradeQuote) (trader : Z) (r : TradeExecuted)
    (pool : LiquidityPool) :
  pools w !! id = Some pool ->
  pool_id pool = id ->
  execute_trade self id quote trader w = (w', inr r) ->
  (exists pool',
     pools w' !! id = Some pool' /\
     total_liquidity_tokens pool' = total_liquidity_tokens pool /\
     fee_rate pool' = fee_rate pool /\
     pool_id pool' = pool_id pool /\
     domain_id pool' = domain_id pool /\
     base_token pool' = base_token pool /\
     created_at pool' = created_at pool) /\
  (forall other, other <> id -> pools w' !! other = pools w !! other) /\
  positions w' = positions w.
Proof.
  intros Hp Hid Hrun.
  destruct (decide (valid_until quote < clock w)%Z) as [Hlate | Hfresh].
  { rewrite execute_trade_expired in Hrun by assumption. discriminate. }
  destruct (Rlt_dec (price_impact_threshold self) (price_impact quote)) as [Hbig | Hok].
  { rewrite (execute_trade_impact self w id quote trader pool) in Hrun
      by (assumption || lia).
    discriminate. }
  destruct (execute_trade_applied self w id quote trader pool)
    as (t & res & Happlied & _); [lia | assumption | lra |].
  rewrite Happlied in Hrun. inversion Hrun; subst w'. clear Hrun.
  cbn [pools positions]. subst id.
  split; [|split].
  - exists (traded pool quote (clock w)).
    split; [apply lookup_insert_eq | repeat split; reflexivity].
  - intros other Hother. apply lookup_insert_ne. congruence.
  - reflexivity.
Qed.

Lemma execute_trade_frame_witness :
  exists w' r pool',
    execute_trade AutomatedMarketMaker_init "P"
      (sample_quote (1 / 100) (sample_time + five_minutes)%Z) 7 sample_world
    = (w', inr r) /\
    pools w' !! "P" = Some pool' /\
    total_liquidity_tokens pool' = 2236 /\
    fee_rate pool' = 3 / 1000 /\
    positions w' = [].
Proof.
  destruct (execute_trade_applied AutomatedMarketMaker_init sample_world "P"
              (sample_quote (1 / 100) (sample_time + five_minutes)%Z) 7
              (sample_pool "P" sample_time))
    as (t & res & Hrun & _ & Hres).
  - discriminate.
  - exact sample_world_pool.
  - simpl. lra.
  - destruct Hres as (r & -> & _); [simpl; lra|].
    destruct (execute_trade_frame AutomatedMarketMaker_init sample_world _ "P"
                _ 7 r (sample_pool "P" sample_time) sample_world_pool eq_refl Hrun)
      as ((pool' & Hp' & Htotal & Hfee & _) & _ & Hpos).
    eexists. exists r, pool'.
    split; [exact Hrun|]. split; [exact Hp'|].
    split; [exact Htotal|]. split; [exact Hfee | exact Hpos].
Defined.

(** ** Impermanent loss *)

Lemma il_curve_square (r : R) :
  0 < r -> il_curve r = - ((sqrt r - 1) * (sqrt r - 1)) / (1 + r).
Proof.
  intros Hr. unfold il_curve.
  assert (Hs : sqrt r * sqrt r = r) by (apply sqrt_sqrt; lra).
  remember (sqrt r) as s eqn:Hroot. clear Hroot.
  rewrite <- Hs. field. nra.
Qed.

Lemma il_curve_nonpos (r : R) : 0 < r -> il_curve r <= 0.
Proof.
  intros Hr. rewrite il_curve_square by assumption.
  pose proof (Rle_0_sqr (sqrt r - 1)) as Hsq. unfold Rsqr in Hsq.
  assert (Hinv : 0 < / (1 + r)) by (apply Rinv_0_lt_compat; lra).
  unfold Rdiv. rewrite Ropp_mult_distr_l_reverse.
  apply Ropp_le_cancel. rewrite Ropp_involutive, Ropp_0.
  apply Rmult_le_pos; lra.
Qed.

Lemma il_curve_zero (r : R) : 0 < r -> (il_curve r = 0 <-> r = 1).
Proof.
  intros Hr. split.
  - rewrite il_curve_square by assumption. intros Hzero.
    assert (Hinv : 0 < / (1 + r)) by (apply Rinv_0_lt_compat; lra).
    assert (Hs : sqrt r * sqrt r = r) by (apply sqrt_sqrt; lra).
    unfold Rdiv in Hzero.
    assert (Hroot : (sqrt r - 1) * (sqrt r - 1) = 0).
    { rewrite Ropp_mult_distr_l_reverse in Hzero.
      apply Ropp_eq_0_compat in Hzero. rewrite Ropp_involutive in Hzero.
      apply Rmult_integral in Hzero. destruct Hzero; lra. }
    assert (Hone : sqrt r = 1).
    { apply Rmult_integral in Hroot. destruct Hroot; lra. }
    rewrite Hone in Hs. lra.
  - intros ->. unfold il_curve. rewrite sqrt_1. lra.
Qed.

Lemma sqrt_2_bounds : 141421 / 100000 < sqrt 2 < 141422 / 100000.
Proof.
  assert (Hs : sqrt 2 * sqrt 2 = 2) by (apply sqrt_sqrt; lra).
  assert (Hpos : 0 <= sqrt 2) by apply sqrt_pos.
  split; nra.
Qed.

Lemma il_curve_doubled : - (5725 / 100000) < il_curve 2 < - (5715 / 100000).
Proof.
  unfold il_curve. pose proof sqrt_2_bounds as [Hlo Hhi].
  replace (1 + 2) with 3 by lra. lra.
Qed.

(** C9: for a position with positive deposited amounts and a pool with
    positive reserves, [_calculate_impermanent_loss] returns, as a percentage,
    [2 * sqrt r / (1 + r) - 1] for [r] the ratio of the pool's price
    [base_reserve / domain_reserve] to the price at deposit
    [principal_base / principal_domain].  The loss is never positive, it is
    zero exactly when [r = 1], and it is about -5.72 % when [r = 2]. *)
Theorem impermanent_loss_closed_form (position : LiquidityPosition)
    (pool : LiquidityPool) (w : World) :
  0 < initial_domain_amount position ->
  0 < initial_base_amount position ->
  0 < domain_token_reserve pool ->
  0 < base_token_reserve pool ->
  let r := (base_token_reserve pool / domain_token_reserve pool)
           / (initial_base_amount position / initial_domain_amount position) in
  _calculate_impermanent_loss position pool w
  = (w, inr ((2 * sqrt r / (1 + r) - 1) * 100)) /\
  (2 * sqrt r / (1 + r) - 1) * 100 <= 0 /\
  ((2 * sqrt r / (1 + r) - 1) * 100 = 0 <-> r = 1) /\
  (r = 2 -> - (5725 / 1000) < (2 * sqrt r / (1 + r) - 1) * 100 < - (5715 / 1000)).
Proof.
  intros Hpd Hpb Hd Hb r.
  assert (Hinit : 0 < initial_base_amount position / initial_domain_amount position)
    by (apply Rdiv_lt_0_compat; assumption).
  assert (Hcur : 0 < base_token_reserve pool / domain_token_reserve pool)
    by (apply Rdiv_lt_0_compat; assumption).
  assert (Hr : 0 < r) by (apply Rdiv_lt_0_compat; assumption).
  fold (il_curve r).
  split; [|split; [|split]].
  - unfold _calculate_impermanent_loss.
    do 3 (rewrite bind_run, fdiv_ok by lra; cbv beta iota).
    fold r.
    rewrite bind_run, fsqrt_ok by lra; cbv beta iota.
    rewrite bind_run, fdiv_ok by lra; cbv beta iota.
    reflexivity.
  - pose proof (il_curve_nonpos r Hr). lra.
  - pose proof (il_curve_zero r Hr) as [Hto Hfrom].
    split; intros H; [apply Hto; lra | rewrite (Hfrom H); lra].
  - intros ->. pose proof il_curve_doubled. lra.
Qed.

Lemma impermanent_loss_closed_form_witness :
  exists il,
    _calculate_impermanent_loss sample_position (sample_pool "P" sample_time)
      sample_world = (sample_world, inr il) /\
    - (5725 / 1000) < il < - (5715 / 1000).
Proof.
  destruct (impermanent_loss_closed_form sample_position (sample_pool "P" sample_time)
              sample_world) as (Hrun & _ & _ & Hdouble).
  - simpl; lra.
  - simpl; lra.
  - simpl; lra.
  - simpl; lra.
  - eexists. split; [exact Hrun|]. apply Hdouble. simpl. field.
Defined.

(** ** Removing liquidity *)

Lemma rewards_run (self : AutomatedMarketMaker) (position : LiquidityPosition)
    (pool : LiquidityPool) (w : World) :
  exists rewards,
    _calculate_liquidity_rewards self position pool w = (w, inr rewards).
Proof.
  unfold _calculate_liquidity_rewards.
  rewrite bind_run. unfold utcnow, gets. cbv beta iota.
  do 2 (rewrite bind_run, fdiv_ok by lra; cbv beta iota).
  eexists. reflexivity.
Qed.

Lemma remove_liquidity_run (self : AutomatedMarketMaker) (w : World) (id : string)
    (user : Z) (burned : R) (pool : LiquidityPool) (position : LiquidityPosition) :
  pools w !! id = Some pool ->
  _get_user_position id user w = (w, inr (Some position)) ->
  burned <= liquidity_tokens position ->
  total_liquidity_tokens pool <> 0 ->
  exists w' r,
    remove_liquidity self id user burned w = (w', inr r) /\
    pools w' = <[pool_id pool := withdrawn pool burned (clock w)]> (pools w) /\
    clock w' = clock w /\
    lr_domain_amount_received r =
      domain_token_reserve pool * (burned / total_liquidity_tokens pool) /\
    lr_base_amount_received r =
      base_token_reserve pool * (burned / total_liquidity_tokens pool) /\
    lr_liquidity_tokens_burned r = burned.
Proof.
  intros Hp Hheld Henough Htotal.
  destruct (rewards_run self position pool w) as (rewards & Hrewards).
  unfold remove_liquidity, Engine.remove_liquidity.
  rewrite (bind_ok _ _ _ _ _ (get_pool_run id w)), Hp.
  rewrite (bind_ok _ _ _ _ _ Hheld).
  destruct (Rlt_dec (liquidity_tokens position) burned) as [|_]; [lra|].
  rewrite bind_run, fdiv_ok by assumption; cbv beta iota.
  rewrite (bind_ok _ _ _ _ _ Hrewards).
  unfold try_except.
  rewrite bind_run. unfold utcnow, gets. cbv beta iota.
  cbn [liquidity_tokens position_id].
  unfold _update_liquidity_pool, db_add_commit, _remove_liquidity_position,
    _update_liquidity_position, modify.
  destruct (Rle_dec (liquidity_tokens position - burned) 0);
    do 3 (rewrite bind_run; cbv beta iota);
    unfold mret, M_ret;
    eexists; eexists; (split; [reflexivity|]);
    cbn; repeat split; reflexivity.
Qed.

Lemma provider_world_position :
  _get_user_position "P" 7 provider_world = (provider_world, inr (Some sample_position)).
Proof. reflexivity. Qed.

(** The withdrawal of lines 317-343, on the working store, where the position
    of a provider is found: when the provider holds [shares] liquidity tokens of a pool, with
    [0 < shares <= total_shares], [remove_liquidity] returns
    [domain_reserve * shares / total_shares] domain tokens and
    [base_reserve * shares / total_shares] base tokens, takes these amounts
    out of the reserves and [shares] out of the total, so that the reserves
    and the total are all multiplied by [1 - shares / total_shares], and the
    price [base_reserve / domain_reserve] is the same before and after (as a
    cross product for every such withdrawal, as a quotient whenever some
    share remains in the pool). *)
Theorem remove_liquidity_proportional (self : AutomatedMarketMaker) (w : World)
    (id : string) (user : Z) (shares : R) (pool : LiquidityPool)
    (position : LiquidityPosition) :
  pools w !! id = Some pool ->
  pool_id pool = id ->
  _get_user_position id user w = (w, inr (Some position)) ->
  0 < shares <= total_liquidity_tokens pool ->
  shares <= liquidity_tokens position ->
  exists w' r pool',
    remove_liquidity self id user shares w = (w', inr r) /\
    lr_domain_amount_received r =
      domain_token_reserve pool * shares / total_liquidity_tokens pool /\
    lr_base_amount_received r =
      base_token_reserve pool * shares / total_liquidity_tokens pool /\
    pools w' !! id = Some pool' /\
    domain_token_reserve pool' =
      domain_token_reserve pool * (1 - shares / total_liquidity_tokens pool) /\
    base_token_reserve pool' =
      base_token_reserve pool * (1 - shares / total_liquidity_tokens pool) /\
    total_liquidity_tokens pool' =
      total_liquidity_tokens pool * (1 - shares / total_liquidity_tokens pool) /\
    total_liquidity_tokens pool' = total_liquidity_tokens pool - shares /\
    base_token_reserve pool' * domain_token_reserve pool =
      base_token_reserve pool * domain_token_reserve pool' /\
    (shares < total_liquidity_tokens pool -> domain_token_reserve pool <> 0 ->
     base_token_reserve pool' / domain_token_reserve pool' =
       base_token_reserve pool / domain_token_reserve pool).
Proof.
  intros Hp Hid Hheld [Hpos Hle] Henough.
  assert (Htotal : total_liquidity_tokens pool <> 0) by lra.
  destruct (remove_liquidity_run self w id user shares pool position
              Hp Hheld Henough Htotal)
    as (w' & r & Hrun & Hpools & _ & Hdomain & Hbase & _).
  exists w', r, (withdrawn pool shares (clock w)).
  split; [exact Hrun|].
  split; [rewrite Hdomain; field; exact Htotal|].
  split; [rewrite Hbase; field; exact Htotal|].
  split; [rewrite Hpools, Hid; apply lookup_insert_eq|].
  cbn [withdrawn domain_token_reserve base_token_reserve total_liquidity_tokens].
  split; [ring|]. split; [ring|].
  split; [field; exact Htotal|]. split; [reflexivity|].
  split; [ring|].
  intros Hsome Hd. field. repeat split; try assumption.
  intros Hzero.
  assert (Hfactor : domain_token_reserve pool
                    * (total_liquidity_tokens pool - shares) = 0)
    by (rewrite <- Hzero; ring).
  apply Rmult_integral in Hfactor. destruct Hfactor; [contradiction | lra].
Qed.

(** The scenario: half of the shares of a pool with reserves (1000,
    5000) return exactly (500, 2500), halve the total, and leave the price
    at 5. *)
Lemma remove_liquidity_proportional_witness :
  exists w' r pool',
    remove_liquidity AutomatedMarketMaker_init "P" 7 1118 provider_world = (w', inr r) /\
    lr_domain_amount_received r = 500 /\
    lr_base_amount_received r = 2500 /\
    pools w' !! "P" = Some pool' /\
    domain_token_reserve pool' = 500 /\
    base_token_reserve pool' = 2500 /\
    total_liquidity_tokens pool' = 1118 /\
    base_token_reserve pool' / domain_token_reserve pool' = 5000 / 1000.
Proof.
  destruct (remove_liquidity_proportional AutomatedMarketMaker_init provider_world
              "P" 7 1118 (sample_pool "P" sample_time) sample_position)
    as (w' & r & pool' & Hrun & Hdomain & Hbase & Hp & Hd' & Hb' & _ & Ht' & _ & Hprice).
  - exact sample_world_pool.
  - reflexivity.
  - exact provider_world_position.
  - simpl; lra.
  - simpl; lra.
  - exists w', r, pool'. simpl in *.
    split; [exact Hrun|].
    split; [rewrite Hdomain; field|].
    split; [rewrite Hbase; field|].
    split; [exact Hp|].
    split; [rewrite Hd'; field|].
    split; [rewrite Hb'; field|].
    split; [rewrite Ht'; ring|].
    apply Hprice; lra.
Defined.

(** ** Adding liquidity *)

Lemma add_liquidity_run (self : AutomatedMarketMaker) (w : World) (id : string)
    (user : Z) (domain_amount base_amount : R) (pool : LiquidityPool) :
  pools w !! id = Some pool ->
  domain_token_reserve pool <> 0 ->
  base_token_reserve pool <> 0 ->
  exists w' res,
    add_liquidity self id user domain_amount base_amount w = (w', res) /\
    pools w' = <[pool_id pool := supplied pool domain_amount base_amount (clock w)]>
                 (pools w) /\
    clock w' = clock w /\
    (total_liquidity_tokens pool + minted pool domain_amount base_amount = 0 ->
     res = inl (AddLiquidityFailed ZeroDivisionError)) /\
    (total_liquidity_tokens pool + minted pool domain_amount base_amount <> 0 ->
     exists r, res = inr r /\
       la_liquidity_tokens_minted r = minted pool domain_amount base_amount /\
       la_domain_amount_used r = fst (deposited pool domain_amount base_amount) /\
       la_base_amount_used r = snd (deposited pool domain_amount base_amount) /\
       la_unused_domain r =
         domain_amount - fst (deposited pool domain_amount base_amount) /\
       la_unused_base r =
         base_amount - snd (deposited pool domain_amount base_amount) /\
       la_new_pool_share r =
         minted pool domain_amount base_amount
         / (total_liquidity_tokens pool + minted pool domain_amount base_amount)
         * 100).
Proof.
  intros Hp Hd Hb.
  assert (Hratio : base_token_reserve pool / domain_token_reserve pool <> 0).
  { unfold Rdiv. apply Rmult_integral_contrapositive_currified; [assumption|].
    apply Rinv_neq_0_compat; assumption. }
  unfold add_liquidity, Engine.add_liquidity.
  rewrite (bind_ok _ _ _ _ _ (get_pool_run id w)), Hp.
  do 4 (rewrite bind_run, fdiv_ok by assumption; cbv beta iota).
  fold (deposited pool domain_amount base_amount).
  fold (minted pool domain_amount base_amount).
  unfold try_except.
  rewrite bind_run. unfold utcnow at 1, gets. cbv beta iota.
  rewrite bind_run. unfold _get_user_position at 1, gets. cbv beta iota.
  rewrite bind_run.
  unfold _update_liquidity_pool, db_add_commit, _update_liquidity_position,
    _store_liquidity_position, modify.
  destruct (head _) as [pos|];
    [| do 2 (rewrite bind_run; unfold utcnow at 1, gets; cbv beta iota)];
    cbv beta iota;
    do 3 (rewrite bind_run; cbv beta iota);
    unfold fdiv; cbn [total_liquidity_tokens];
    destruct (Req_dec_T _ 0) as [Hz | Hnz];
    unfold raise, mret, M_ret; cbv beta iota;
    eexists; eexists; (split; [reflexivity|]);
    (split; [reflexivity|]); (split; [reflexivity|]);
    (split; [intros Hzero; try contradiction; reflexivity|]);
    intros Hnonzero; try contradiction;
    eexists; (split; [reflexivity|]); cbn; auto 10.
Qed.

Section Deposit.

Variable pool : LiquidityPool.
Variables domain_amount base_amount : R.

Hypothesis domain_reserve_pos : 0 < domain_token_reserve pool.
Hypothesis base_reserve_pos : 0 < base_token_reserve pool.

Local Abbreviation used_domain := (fst (deposited pool domain_amount base_amount)).
Local Abbreviation used_base := (snd (deposited pool domain_amount base_amount)).

Lemma deposited_cases :
  (domain_amount * base_token_reserve pool / domain_token_reserve pool
     <= base_amount /\
   used_domain = domain_amount /\
   used_base = domain_amount * base_token_reserve pool / domain_token_reserve pool)
  \/
  (base_amount
     < domain_amount * base_token_reserve pool / domain_token_reserve pool /\
   used_domain = base_amount * domain_token_reserve pool / base_token_reserve pool /\
   used_base = base_amount).
Proof.
  unfold deposited.
  destruct (Rle_dec _ base_amount) as [Hle | Hgt]; cbn [fst snd].
  - left. replace (domain_amount * base_token_reserve pool
                   / domain_token_reserve pool)
      with (domain_amount * (base_token_reserve pool / domain_token_reserve pool))
      by (field; lra).
    auto.
  - right. replace (domain_amount * base_token_reserve pool
                    / domain_token_reserve pool)
      with (domain_amount * (base_token_reserve pool / domain_token_reserve pool))
      by (field; lra).
    split; [lra|]. split; [field; lra | reflexivity].
Qed.

Lemma deposited_at_pool_ratio :
  used_base * domain_token_reserve pool = used_domain * base_token_reserve pool.
Proof.
  destruct deposited_cases as [(_ & -> & ->) | (_ & -> & ->)]; field; lra.
Qed.

Lemma deposited_fractions :
  used_domain / domain_token_reserve pool = used_base / base_token_reserve pool.
Proof.
  pose proof deposited_at_pool_ratio as Hratio.
  apply (Rmult_eq_reg_r (domain_token_reserve pool * base_token_reserve pool)).
  - transitivity (used_domain * base_token_reserve pool); [field; lra|].
    rewrite <- Hratio. field; lra.
  - apply Rmult_integral_contrapositive_currified; lra.
Qed.

Lemma minted_fraction :
  minted pool domain_amount base_amount =
  Rmin (used_domain / domain_token_reserve pool)
       (used_base / base_token_reserve pool) * total_liquidity_tokens pool /\
  minted pool domain_amount base_amount =
  used_domain / domain_token_reserve pool * total_liquidity_tokens pool.
Proof.
  unfold minted.
  rewrite <- deposited_fractions.
  unfold Rmin.
  destruct (Rle_dec _ _), (Rle_dec _ _); auto.
Qed.

Hypothesis domain_amount_pos : 0 < domain_amount.
Hypothesis base_amount_pos : 0 < base_amount.

Lemma deposited_within_supplied :
  0 < used_domain <= domain_amount /\ 0 < used_base <= base_amount /\
  (used_domain = domain_amount \/ used_base = base_amount).
Proof.
  assert (Hprice : 0 < domain_amount * base_token_reserve pool
                       / domain_token_reserve pool).
  { apply Rdiv_lt_0_compat; [apply Rmult_lt_0_compat|]; assumption. }
  destruct deposited_cases as [(Hle & -> & ->) | (Hgt & -> & ->)].
  - split; [lra|]. split; [lra|]. left; reflexivity.
  - assert (Hback : 0 < base_amount * domain_token_reserve pool
                        / base_token_reserve pool).
    { apply Rdiv_lt_0_compat; [apply Rmult_lt_0_compat|]; assumption. }
    split; [|split; [lra | right; reflexivity]].
    split; [exact Hback|].
    apply (Rmult_le_reg_r (base_token_reserve pool / domain_token_reserve pool)).
    + apply Rdiv_lt_0_compat; assumption.
    + apply Rlt_le.
      replace (base_amount * domain_token_reserve pool / base_token_reserve pool
               * (base_token_reserve pool / domain_token_reserve pool))
        with base_amount by (field; lra).
      replace (domain_amount
               * (base_token_reserve pool / domain_token_reserve pool))
        with (domain_amount * base_token_reserve pool / domain_token_reserve pool)
        by (field; lra).
      exact Hgt.
Qed.

End Deposit.

Lemma Rdiv_eq_cross (a b c d : R) :
  b <> 0 -> d <> 0 -> a * d = c * b -> a / b = c / d.
Proof.
  intros Hb Hd Hcross.
  apply (Rmult_eq_reg_r (b * d)).
  - transitivity (a * d); [field; assumption|].
    rewrite Hcross. field; assumption.
  - apply Rmult_integral_contrapositive_currified; assumption.
Qed.

(** C7: on a pool with positive reserves and a positive total of liquidity
    tokens, [add_liquidity] with positive supplied amounts takes the smaller
    of the two supplied amounts scaled to the pool's reserve ratio: all of
    the domain amount and [domain_amount * base_reserve / domain_reserve] of
    the base amount when that is within the base amount supplied, otherwise
    all of the base amount and [base_amount * domain_reserve / base_reserve]
    of the domain amount.  The remainder of the other asset is reported as
    unused.  The tokens minted are [min (domain_used / domain_reserve)
    (base_used / base_reserve) * total_shares], and their fraction of the
    total after the deposit is the deposit's fraction of each reserve after
    the deposit, hence of the value of the reserves at any prices. *)
Theorem add_liquidity_pool_ratio (self : AutomatedMarketMaker) (w : World)
    (id : string) (user : Z) (domain_amount base_amount : R) (pool : LiquidityPool) :
  pools w !! id = Some pool ->
  pool_id pool = id ->
  0 < domain_token_reserve pool ->
  0 < base_token_reserve pool ->
  0 < total_liquidity_tokens pool ->
  0 < domain_amount ->
  0 < base_amount ->
  exists w' r pool',
    add_liquidity self id user domain_amount base_amount w = (w', inr r) /\
    (domain_amount * base_token_reserve pool / domain_token_reserve pool
       <= base_amount ->
     la_domain_amount_used r = domain_amount /\
     la_base_amount_used r =
       domain_amount * base_token_reserve pool / domain_token_reserve pool) /\
    (base_amount
       < domain_amount * base_token_reserve pool / domain_token_reserve pool ->
     la_domain_amount_used r =
       base_amount * domain_token_reserve pool / base_token_reserve pool /\
     la_base_amount_used r = base_amount) /\
    la_unused_domain r = domain_amount - la_domain_amount_used r /\
    la_unused_base r = base_amount - la_base_amount_used r /\
    0 <= la_unused_domain r /\
    0 <= la_unused_base r /\
    (la_unused_domain r = 0 \/ la_unused_base r = 0) /\
    la_liquidity_tokens_minted r =
      Rmin (la_domain_amount_used r / domain_token_reserve pool)
           (la_base_amount_used r / base_token_reserve pool)
      * total_liquidity_tokens pool /\
    pools w' !! id = Some pool' /\
    domain_token_reserve pool' = domain_token_reserve pool + la_domain_amount_used r /\
    base_token_reserve pool' = base_token_reserve pool + la_base_amount_used r /\
    total_liquidity_tokens pool' =
      total_liquidity_tokens pool + la_liquidity_tokens_minted r /\
    la_liquidity_tokens_minted r / total_liquidity_tokens pool' =
      la_domain_amount_used r / domain_token_reserve pool' /\
    la_liquidity_tokens_minted r / total_liquidity_tokens pool' =
      la_base_amount_used r / base_token_reserve pool' /\
    (forall domain_price base_price : R,
       0 < domain_price -> 0 < base_price ->
       la_liquidity_tokens_minted r / total_liquidity_tokens pool' =
         (domain_price * la_domain_amount_used r + base_price * la_base_amount_used r)
         / (domain_price * domain_token_reserve pool'
            + base_price * base_token_reserve pool')) /\
    la_new_pool_share r =
      la_liquidity_tokens_minted r / total_liquidity_tokens pool' * 100.
Proof.
  intros Hp Hid Hd Hb Ht Hda Hba.
  pose proof (deposited_cases pool domain_amount base_amount Hd Hb) as Hcases.
  pose proof (deposited_fractions pool domain_amount base_amount Hd Hb) as Hfrac.
  pose proof (minted_fraction pool domain_amount base_amount Hd Hb) as [Hmin Hminted].
  pose proof (deposited_within_supplied pool domain_amount base_amount Hd Hb Hda Hba)
    as ([Hud Hud'] & [Hub Hub'] & Hall).
  assert (Hmint_pos : 0 < minted pool domain_amount base_amount).
  { rewrite Hminted. apply Rmult_lt_0_compat; [|assumption].
    apply Rdiv_lt_0_compat; assumption. }
  destruct (add_liquidity_run self w id user domain_amount base_amount pool Hp)
    as (w' & res & Hrun & Hpools & _ & _ & Hres); [lra | lra |].
  destruct Hres as (r & -> & Hm & Hfd & Hfb & Hunused_d & Hunused_b & Hshare); [lra|].
  exists w', r, (supplied pool domain_amount base_amount (clock w)).
  rewrite Hm, Hfd, Hfb, Hunused_d, Hunused_b, Hshare.
  cbn [supplied domain_token_reserve base_token_reserve total_liquidity_tokens].
  set (fd := fst (deposited pool domain_amount base_amount)) in *.
  set (fb := snd (deposited pool domain_amount base_amount)) in *.
  set (m := minted pool domain_amount base_amount) in *.
  assert (Hshare_domain :
    m / (total_liquidity_tokens pool + m) = fd / (domain_token_reserve pool + fd)).
  { apply Rdiv_eq_cross; [lra | lra |]. rewrite Hminted. field. lra. }
  assert (Hshare_base :
    m / (total_liquidity_tokens pool + m) = fb / (base_token_reserve pool + fb)).
  { apply Rdiv_eq_cross; [lra | lra |]. rewrite Hminted, Hfrac. field. lra. }
  split; [exact Hrun|].
  split; [intros Hle; destruct Hcases as [(_ & H1 & H2) | (Hgt & _)]; [auto | lra]|].
  split; [intros Hgt; destruct Hcases as [(Hle & _) | (_ & H1 & H2)]; [lra | auto]|].
  split; [reflexivity|]. split; [reflexivity|].
  split; [lra|]. split; [lra|].
  split; [destruct Hall; [left | right]; lra|].
  split; [exact Hmin|].
  split; [rewrite Hpools, Hid; apply lookup_insert_eq|].
  split; [reflexivity|]. split; [reflexivity|]. split; [reflexivity|].
  split; [exact Hshare_domain|]. split; [exact Hshare_base|].
  split; [|reflexivity].
  intros pd pb Hpd Hpb.
  assert (Hvalue : 0 < pd * (domain_token_reserve pool + fd)
                       + pb * (base_token_reserve pool + fb)).
  { apply Rplus_lt_0_compat; apply Rmult_lt_0_compat; lra. }
  rewrite Hshare_domain.
  apply (Rmult_eq_reg_r (pd * (domain_token_reserve pool + fd)
                         + pb * (base_token_reserve pool + fb))); [|lra].
  unfold Rdiv at 2. rewrite Rmult_assoc, Rinv_l, Rmult_1_r by lra.
  rewrite Rmult_plus_distr_l.
  replace (fd / (domain_token_reserve pool + fd)
           * (pb * (base_token_reserve pool + fb)))
    with (fb / (base_token_reserve pool + fb)
          * (pb * (base_token_reserve pool + fb)))
    by (rewrite <- Hshare_base, <- Hshare_domain; reflexivity).
  field. lra.
Qed.

Lemma add_liquidity_pool_ratio_witness :
  exists w' r,
    add_liquidity AutomatedMarketMaker_init "P" 8 50 300 sample_world = (w', inr r) /\
    la_domain_amount_used r = 50 /\
    la_base_amount_used r = 250 /\
    la_unused_domain r = 0 /\
    la_unused_base r = 50 /\
    la_liquidity_tokens_minted r = 1118 / 10.
Proof.
  destruct (add_liquidity_pool_ratio AutomatedMarketMaker_init sample_world "P" 8
              50 300 (sample_pool "P" sample_time))
    as (w' & r & pool' & Hrun & Hfirst & _ & Hud & Hub & _ & _ & _ & Hminted & _).
  - exact sample_world_pool.
  - reflexivity.
  - simpl; lra.
  - simpl; lra.
  - simpl; lra.
  - lra.
  - lra.
  - simpl in Hfirst, Hminted.
    destruct Hfirst as [Hd Hb]; [lra|].
    exists w', r.
    split; [exact Hrun|].
    split; [exact Hd|].
    split; [rewrite Hb; field|].
    split; [rewrite Hud, Hd; ring|].
    split; [rewrite Hub, Hb; field|].
    rewrite Hminted, Hd, Hb.
    replace (50 * 5000 / 1000 / 5000) with (50 / 1000) by field.
    unfold Rmin. destruct (Rle_dec _ _); field.
Defined.

(** ** Swaps and the product of the reserves *)

(** The arithmetic of one swap: [rin] and [rout] are the reserves of the token
    sold and of the token bought, [a] is the gross input and [f] the fee
    rate. *)
Section SwapArithmetic.

Variables rin rout a f : R.

Hypothesis rin_pos : 0 < rin.
Hypothesis rout_pos : 0 < rout.
Hypothesis a_nonneg : 0 <= a.
Hypothesis f_range : 0 <= f <= 1.

Local Abbreviation e := (a * (1 - f)).
Local Abbreviation out := (rout * e / (rin + e)).

Lemma effective_input_range : 0 <= e <= a.
Proof.
  split.
  - apply Rmult_le_pos; lra.
  - rewrite <- (Rmult_1_r a) at 2. apply Rmult_le_compat_l; lra.
Qed.

Lemma output_reserve_after : rout - out = rout * rin / (rin + e).
Proof.
  pose proof effective_input_range. field. lra.
Qed.

Lemma output_reserve_after_pos : 0 < rout - out.
Proof.
  pose proof effective_input_range.
  rewrite output_reserve_after.
  apply Rdiv_lt_0_compat; [apply Rmult_lt_0_compat; assumption | lra].
Qed.

Lemma output_below_reserve : 0 <= out < rout.
Proof.
  pose proof effective_input_range. pose proof output_reserve_after_pos.
  split; [|lra].
  unfold Rdiv. apply Rmult_le_pos.
  - apply Rmult_le_pos; lra.
  - apply Rlt_le, Rinv_0_lt_compat. lra.
Qed.

Lemma product_after_swap :
  (rin + a) * (rout - out) = rin * rout + a * f * (rout - out).
Proof.
  pose proof effective_input_range.
  rewrite output_reserve_after. field. lra.
Qed.

Lemma product_not_decreased : rin * rout <= (rin + a) * (rout - out).
Proof.
  pose proof output_reserve_after_pos.
  rewrite product_after_swap.
  assert (0 <= a * f * (rout - out)).
  { apply Rmult_le_pos; [apply Rmult_le_pos|]; lra. }
  lra.
Qed.

Lemma product_increased_iff : rin * rout < (rin + a) * (rout - out) <-> e < a.
Proof.
  pose proof output_reserve_after_pos as Hout.
  rewrite product_after_swap.
  assert (Hfee : a * f = a - e) by ring.
  rewrite Hfee.
  split.
  - intros Hlt.
    destruct (Rlt_dec e a) as [|Hge]; [assumption|].
    pose proof effective_input_range.
    assert (Hsame : a - e = 0) by lra.
    rewrite Hsame, Rmult_0_l in Hlt. lra.
  - intros Hlt.
    assert (0 < (a - e) * (rout - out)) by (apply Rmult_lt_0_compat; lra).
    lra.
Qed.

End SwapArithmetic.

Lemma get_trade_quote_value (self : AutomatedMarketMaker) (w w' : World)
    (id token : string) (amount : R) (tol : option R) (q : TradeQuote) :
  get_trade_quote self id token amount tol w = (w', inr q) ->
  w' = w /\
  exists pool,
    pools w !! id = Some pool /\
    (token = "domain" \/ token = base_token pool) /\
    input_side pool token <> 0 /\
    input_side pool token + amount * (1 - fee_rate pool) <> 0 /\
    output_side pool token <> 0 /\
    input_token q = token /\
    input_amount q = amount /\
    output_amount q =
      output_side pool token * (amount * (1 - fee_rate pool))
      / (input_side pool token + amount * (1 - fee_rate pool)) /\
    fee_amount q = amount * fee_rate pool /\
    valid_until q = (clock w + five_minutes)%Z.
Proof.
  intros Hq.
  destruct (get_trade_quote_inv _ _ _ _ _ _ _ _ Hq)
    as (-> & pool & Hp & Htok & Hin & He & Ha & Hout).
  split; [reflexivity|]. exists pool.
  rewrite (get_trade_quote_run self w id pool token amount tol Hp Htok Hin He Ha Hout)
    in Hq.
  inversion Hq; subst q; clear Hq. cbn. auto 12.
Qed.

Lemma quoted_swap_cases (self : AutomatedMarketMaker) (w w' : World)
    (id token : string) (amount : R) (tol : option R) (trader : Z)
    (res : exn + TradeExecuted) :
  quoted_swap self id token amount tol trader w = (w', res) ->
  (w' = w /\ exists e, res = inl e) \/
  (exists pool q t,
     get_trade_quote self id token amount tol w = (w, inr q) /\
     pools w !! id = Some pool /\
     price_impact q <= price_impact_threshold self /\
     w' = mkWorld (clock w) (domains w)
                  (<[pool_id pool := traded pool q (clock w)]> (pools w))
                  (positions w) (transactions w ++ [t]) /\
     (amount <> 0 -> exists r, res = inr r)).
Proof.
  unfold quoted_swap. rewrite bind_run.
  destruct (get_trade_quote self id token amount tol w) as [w1 [e | q]] eqn:Hq.
  - intros Hrun. apply get_trade_quote_world in Hq. inversion Hrun; subst.
    left. eauto.
  - destruct (get_trade_quote_value _ _ _ _ _ _ _ _ Hq)
      as (-> & pool & Hp & _ & _ & _ & _ & _ & Hamount & _ & _ & Huntil).
    assert (Hfresh : (clock w <= valid_until q)%Z)
      by (rewrite Huntil; unfold five_minutes; lia).
    destruct (Rlt_dec (price_impact_threshold self) (price_impact q)) as [Hbig | Hok].
    + rewrite (execute_trade_impact self w id q trader pool) by assumption.
      intros Hrun. inversion Hrun; subst. left. eauto.
    + destruct (execute_trade_applied self w id q trader pool)
        as (t & res' & Happlied & _ & Hres); [assumption | assumption | lra |].
      rewrite Happlied. intros Hrun. inversion Hrun; subst w' res'.
      right. exists pool, q, t.
      split; [reflexivity|]. split; [assumption|]. split; [lra|].
      split; [reflexivity|].
      intros Hnz. destruct Hres as (r & -> & _); [congruence | eauto].
Qed.

(** The pool after a quote computed from it has been applied to it. *)
Lemma traded_fresh (pool : LiquidityPool) (q : TradeQuote) (token : string)
    (now : datetime) :
  0 < domain_token_reserve pool ->
  0 < base_token_reserve pool ->
  0 <= fee_rate pool <= 1 ->
  0 <= input_amount q ->
  input_token q = token ->
  output_amount q =
    output_side pool token * (input_amount q * (1 - fee_rate pool))
    / (input_side pool token + input_amount q * (1 - fee_rate pool)) ->
  fee_amount q = input_amount q * fee_rate pool ->
  0 < domain_token_reserve (traded pool q now) /\
  0 < base_token_reserve (traded pool q now) /\
  reserve_product (traded pool q now) =
    reserve_product pool + fee_amount q * output_side (traded pool q now) token /\
  reserve_product pool <= reserve_product (traded pool q now) /\
  (reserve_product pool < reserve_product (traded pool q now) <->
   input_amount q * (1 - fee_rate pool) < input_amount q).
Proof.
  intros Hd Hb Hf Ha Htok Hout Hfee.
  unfold reserve_product, traded.
  cbn [domain_token_reserve base_token_reserve].
  rewrite Htok, Hfee, Hout.
  unfold input_side, output_side.
  cbn [domain_token_reserve base_token_reserve].
  destruct (decide (token = "domain")).
  - pose proof (output_reserve_after_pos _ _ _ _ Hd Hb Ha Hf).
    pose proof (product_after_swap _ (base_token_reserve pool) _ _ Hd Ha Hf).
    pose proof (product_not_decreased _ _ _ _ Hd Hb Ha Hf).
    pose proof (product_increased_iff _ _ _ _ Hd Hb Ha Hf).
    repeat split; try lra; tauto.
  - pose proof (output_reserve_after_pos _ _ _ _ Hb Hd Ha Hf).
    pose proof (product_after_swap _ (domain_token_reserve pool) _ _ Hb Ha Hf) as Hprod.
    pose proof (product_not_decreased _ _ _ _ Hb Hd Ha Hf) as Hle.
    pose proof (product_increased_iff _ _ _ _ Hb Hd Ha Hf) as Hiff.
    rewrite (Rmult_comm (base_token_reserve pool + _)) in Hprod, Hle, Hiff.
    rewrite (Rmult_comm (base_token_reserve pool)) in Hprod, Hle, Hiff.
    repeat split; try lra; tauto.
Qed.

Lemma quoted_swap_healthy (self : AutomatedMarketMaker) (w w' : World)
    (id token : string) (amount : R) (tol : option R) (trader : Z)
    (res : exn + TradeExecuted) :
  healthy w ->
  0 <= amount ->
  quoted_swap self id token amount tol trader w = (w', res) ->
  healthy w' /\
  forall id0 pool,
    pools w !! id0 = Some pool ->
    exists pool',
      pools w' !! id0 = Some pool' /\
      reserve_product pool <= reserve_product pool'.
Proof.
  intros Hw Ha Hrun.
  destruct (quoted_swap_cases _ _ _ _ _ _ _ _ _ Hrun)
    as [(-> & _) | (pool & q & t & Hq & Hp & _ & -> & _)].
  { split; [assumption|]. intros id0 p Hp. exists p. split; [assumption | lra]. }
  destruct (get_trade_quote_value _ _ _ _ _ _ _ _ Hq)
    as (_ & pool0 & Hp0 & _ & _ & _ & _ & Htok & Hamount & Hout & Hfee & _).
  rewrite Hp in Hp0. inversion Hp0; subst pool0; clear Hp0.
  destruct (Hw id pool Hp) as (Hid & Hd & Hb & Hf).
  rewrite <- Hamount in Ha, Hout, Hfee.
  destruct (traded_fresh pool q token (clock w) Hd Hb ltac:(lra) Ha Htok Hout Hfee)
    as (Hd' & Hb' & _ & Hle & _).
  unfold healthy. cbn [pools]. rewrite Hid.
  split.
  - intros id0 p'. destruct (decide (id0 = id)) as [-> | Hne].
    + rewrite lookup_insert_eq. intros Hp'. inversion Hp'; subst p'.
      split; [exact Hid|]. split; [exact Hd'|]. split; [exact Hb' | exact Hf].
    + rewrite lookup_insert_ne by congruence. apply Hw.
  - intros id0 p. destruct (decide (id0 = id)) as [-> | Hne].
    + rewrite Hp. intros Hsame. inversion Hsame; subst p.
      exists (traded pool q (clock w)).
      split; [apply lookup_insert_eq | exact Hle].
    + rewrite lookup_insert_ne by congruence. intros Hp0.
      exists p. split; [assumption | lra].
Qed.


Lemma add_liquidity_product (self : AutomatedMarketMaker) (w w' : World)
    (id : string) (user : Z) (domain_amount base_amount : R)
    (res : exn + LiquidityAdded) (pool : LiquidityPool) :
  pools w !! id = Some pool ->
  pool_id pool = id ->
  0 < domain_token_reserve pool ->
  0 < base_token_reserve pool ->
  0 <= domain_amount ->
  0 <= base_amount ->
  add_liquidity self id user domain_amount base_amount w = (w', res) ->
  exists pool',
    pools w' !! id = Some pool' /\
    domain_token_reserve pool <= domain_token_reserve pool' /\
    base_token_reserve pool <= base_token_reserve pool' /\
    reserve_product pool <= reserve_product pool'.
Proof.
  intros Hp Hid Hd Hb Hda Hba Hrun.
  destruct (add_liquidity_run self w id user domain_amount base_amount pool Hp)
    as (w1 & res1 & Hrun1 & Hpools & _); [lra | lra |].
  rewrite Hrun1 in Hrun. inversion Hrun; subst w1 res1; clear Hrun.
  exists (supplied pool domain_amount base_amount (clock w)).
  split; [rewrite Hpools, Hid; apply lookup_insert_eq|].
  unfold reserve_product, supplied.
  cbn [domain_token_reserve base_token_reserve].
  assert (Hused : 0 <= fst (deposited pool domain_amount base_amount) /\
                  0 <= snd (deposited pool domain_amount base_amount)).
  { destruct (deposited_cases pool domain_amount base_amount Hd Hb)
      as [(_ & -> & ->) | (_ & -> & ->)];
      (split; [|]); try assumption;
      apply Rmult_le_pos; try (apply Rmult_le_pos; lra);
      apply Rlt_le, Rinv_0_lt_compat; assumption. }
  destruct Hused as [Hfd Hfb].
  split; [lra|]. split; [lra|].
  apply Rmult_le_compat; lra.
Qed.

Lemma sample_swap_impact :
  Rabs ((5000 - 5000 * (10 * (1 - 3 / 1000)) / (1000 + 10 * (1 - 3 / 1000)))
        / (1000 + 10) - 5000 / 1000) / (5000 / 1000) <= 5 / 100.
Proof.
  replace ((5000 - 5000 * (10 * (1 - 3 / 1000)) / (1000 + 10 * (1 - 3 / 1000)))
           / (1000 + 10) - 5000 / 1000)
    with (- (1003485 / 10200697)) by field.
  rewrite Rabs_Ropp, Rabs_pos_eq by lra.
  replace (1003485 / 10200697 / (5000 / 1000)) with (1003485 / 51003485) by field.
  lra.
Qed.

Lemma input_side_domain (pool : LiquidityPool) :
  input_side pool "domain" = domain_token_reserve pool.
Proof. unfold input_side. destruct (decide _); [reflexivity | contradiction]. Qed.

Lemma output_side_domain (pool : LiquidityPool) :
  output_side pool "domain" = base_token_reserve pool.
Proof. unfold output_side. destruct (decide _); [reflexivity | contradiction]. Qed.

Lemma sample_quote_runs :
  exists q,
    get_trade_quote AutomatedMarketMaker_init "P" "domain" 10 None sample_world
    = (sample_world, inr q) /\
    input_amount q = 10 /\
    price_impact q <= 5 / 100 /\
    valid_until q = (sample_time + five_minutes)%Z.
Proof.
  eexists. split.
  - apply (get_trade_quote_run AutomatedMarketMaker_init sample_world "P"
             (sample_pool "P" sample_time) "domain" 10 None sample_world_pool
             (or_introl eq_refl));
      rewrite ?input_side_domain, ?output_side_domain; simpl; lra.
  - cbn [input_amount price_impact valid_until].
    rewrite input_side_domain, output_side_domain.
    split; [reflexivity|]. split; [exact sample_swap_impact | reflexivity].
Qed.

Lemma sample_swap_runs :
  exists w' r,
    quoted_swap AutomatedMarketMaker_init "P" "domain" 10 None 7 sample_world
    = (w', inr r).
Proof.
  destruct sample_quote_runs as (q & Hq & Hamount & Himpact & Huntil).
  unfold quoted_swap. rewrite (bind_ok _ _ _ _ _ Hq).
  destruct (execute_trade_applied AutomatedMarketMaker_init sample_world "P"
              q 7 (sample_pool "P" sample_time))
    as (t & res & Hrun & _ & Hres).
  - rewrite Huntil. unfold five_minutes. simpl. lia.
  - exact sample_world_pool.
  - exact Himpact.
  - destruct Hres as (r & -> & _); [lra|]. eauto.
Qed.


Lemma sample_world_healthy : healthy sample_world.
Proof.
  intros id pool Hp. unfold sample_world in Hp. cbn [pools] in Hp.
  apply lookup_singleton_Some in Hp. destruct Hp as [<- <-].
  simpl. repeat split; lra.
Qed.


(** ** Reserves that stay non-negative *)

Lemma add_liquidity_cases (self : AutomatedMarketMaker) (w w' : World) (id : string)
    (user : Z) (domain_amount base_amount : R) (res : exn + LiquidityAdded) :
  add_liquidity self id user domain_amount base_amount w = (w', res) ->
  pools w' = pools w \/
  exists pool,
    pools w !! id = Some pool /\
    domain_token_reserve pool <> 0 /\
    base_token_reserve pool <> 0 /\
    pools w' = <[pool_id pool := supplied pool domain_amount base_amount (clock w)]>
                 (pools w).
Proof.
  destruct (pools w !! id) as [pool|] eqn:Hp.
  - destruct (Req_dec_T (domain_token_reserve pool) 0) as [Hd | Hd].
    { unfold add_liquidity, Engine.add_liquidity.
      rewrite (bind_ok _ _ _ _ _ (get_pool_run id w)), Hp.
      rewrite bind_run, Hd, fdiv_zero.
      intros Hrun. inversion Hrun. left. reflexivity. }
    destruct (Req_dec_T (base_token_reserve pool) 0) as [Hb | Hb].
    { unfold add_liquidity, Engine.add_liquidity.
      rewrite (bind_ok _ _ _ _ _ (get_pool_run id w)), Hp.
      rewrite bind_run, fdiv_ok by assumption. cbv beta iota.
      assert (Hratio : base_token_reserve pool / domain_token_reserve pool = 0)
        by (rewrite Hb; unfold Rdiv; apply Rmult_0_l).
      rewrite Hratio, bind_run, fdiv_zero.
      intros Hrun. inversion Hrun. left. reflexivity. }
    destruct (add_liquidity_run self w id user domain_amount base_amount pool
                Hp Hd Hb) as (w1 & res1 & Hrun1 & Hpools & _).
    rewrite Hrun1. intros Hrun. inversion Hrun; subst w1 res1.
    right. exists pool. auto.
  - unfold add_liquidity, Engine.add_liquidity.
    rewrite (bind_ok _ _ _ _ _ (get_pool_run id w)), Hp.
    intros Hrun. inversion Hrun. left. reflexivity.
Qed.

Lemma remove_liquidity_cases (self : AutomatedMarketMaker) (w w' : World)
    (id : string) (user : Z) (burned : R) (res : exn + LiquidityRemoved) :
  remove_liquidity self id user burned w = (w', res) ->
  pools w' = pools w \/
  exists pool,
    pools w !! id = Some pool /\
    total_liquidity_tokens pool <> 0 /\
    pools w' = <[pool_id pool := withdrawn pool burned (clock w)]> (pools w).
Proof.
  destruct (pools w !! id) as [pool|] eqn:Hp.
  - destruct (_get_user_position id user w) as [w1 held] eqn:Hheld.
    assert (Hsame : w1 = w /\ exists o, held = inr o).
    { unfold _get_user_position, gets in Hheld. inversion Hheld. eauto. }
    destruct Hsame as (-> & o & ->).
    destruct o as [position|].
    + destruct (Rlt_dec (liquidity_tokens position) burned) as [Hshort | Henough].
      { unfold remove_liquidity, Engine.remove_liquidity.
        rewrite (bind_ok _ _ _ _ _ (get_pool_run id w)), Hp.
        rewrite (bind_ok _ _ _ _ _ Hheld).
        destruct (Rlt_dec (liquidity_tokens position) burned); [|contradiction].
        intros Hrun. inversion Hrun. left. reflexivity. }
      destruct (Req_dec_T (total_liquidity_tokens pool) 0) as [Ht | Ht].
      { unfold remove_liquidity, Engine.remove_liquidity.
        rewrite (bind_ok _ _ _ _ _ (get_pool_run id w)), Hp.
        rewrite (bind_ok _ _ _ _ _ Hheld).
        destruct (Rlt_dec (liquidity_tokens position) burned); [contradiction|].
        rewrite bind_run, Ht, fdiv_zero.
        intros Hrun. inversion Hrun. left. reflexivity. }
      destruct (remove_liquidity_run self w id user burned pool position
                  Hp Hheld ltac:(lra) Ht) as (w1 & r & Hrun1 & Hpools & _).
      rewrite Hrun1. intros Hrun. inversion Hrun; subst w1.
      right. exists pool. auto.
    + unfold remove_liquidity, Engine.remove_liquidity.
      rewrite (bind_ok _ _ _ _ _ (get_pool_run id w)), Hp.
      rewrite (bind_ok _ _ _ _ _ Hheld).
      intros Hrun. inversion Hrun. left. reflexivity.
  - unfold remove_liquidity, Engine.remove_liquidity.
    rewrite (bind_ok _ _ _ _ _ (get_pool_run id w)), Hp.
    intros Hrun. inversion Hrun. left. reflexivity.
Qed.

Lemma solvent_insert (w : World) (id : string) (pool pool' : LiquidityPool)
    (stored : gmap string LiquidityPool) :
  solvent w ->
  pools w !! id = Some pool ->
  stored = <[pool_id pool := pool']> (pools w) ->
  pool_id pool' = pool_id pool ->
  0 <= domain_token_reserve pool' ->
  0 <= base_token_reserve pool' ->
  fee_rate pool' = fee_rate pool ->
  forall id0 p,
    stored !! id0 = Some p ->
    pool_id p = id0 /\
    0 <= domain_token_reserve p /\
    0 <= base_token_reserve p /\
    0 <= fee_rate p <= 1.
Proof.
  intros Hw Hp -> Hid' Hd' Hb' Hf' id0 p.
  destruct (Hw id pool Hp) as (Hid & _ & _ & Hf).
  rewrite Hid.
  destruct (decide (id0 = id)) as [-> | Hne].
  - rewrite lookup_insert_eq. intros Hsame. inversion Hsame; subst p.
    split; [congruence|]. split; [assumption|]. split; [assumption|].
    rewrite Hf'. exact Hf.
  - rewrite lookup_insert_ne by congruence. apply Hw.
Qed.

Lemma quoted_swap_solvent (self : AutomatedMarketMaker) (w w' : World)
    (id token : string) (amount : R) (tol : option R) (trader : Z)
    (res : exn + TradeExecuted) :
  solvent w ->
  0 <= amount ->
  quoted_swap self id token amount tol trader w = (w', res) ->
  solvent w'.
Proof.
  intros Hw Ha Hrun.
  destruct (quoted_swap_cases _ _ _ _ _ _ _ _ _ Hrun)
    as [(-> & _) | (pool & q & t & Hq & Hp & _ & -> & _)]; [assumption|].
  destruct (get_trade_quote_value _ _ _ _ _ _ _ _ Hq)
    as (_ & pool0 & Hp0 & _ & Hin & _ & Hout & Htok & Hamount & Hvalue & Hfee & _).
  rewrite Hp in Hp0. inversion Hp0; subst pool0; clear Hp0.
  destruct (Hw id pool Hp) as (Hid & Hd & Hb & Hf).
  assert (Hpos : 0 < domain_token_reserve pool /\ 0 < base_token_reserve pool).
  { unfold input_side, output_side in Hin, Hout.
    destruct (decide (token = "domain")); lra. }
  destruct Hpos as [Hd' Hb'].
  rewrite <- Hamount in Ha, Hvalue, Hfee.
  destruct (traded_fresh pool q token (clock w) Hd' Hb' Hf Ha Htok Hvalue Hfee)
    as (Hdt & Hbt & _).
  unfold solvent. cbn [pools].
  apply (solvent_insert w id pool (traded pool q (clock w)));
    try assumption; try reflexivity; lra.
Qed.

Lemma add_liquidity_solvent (self : AutomatedMarketMaker) (w w' : World)
    (id : string) (user : Z) (domain_amount base_amount : R)
    (res : exn + LiquidityAdded) :
  solvent w ->
  0 <= domain_amount ->
  0 <= base_amount ->
  add_liquidity self id user domain_amount base_amount w = (w', res) ->
  solvent w'.
Proof.
  intros Hw Hda Hba Hrun.
  destruct (add_liquidity_cases _ _ _ _ _ _ _ _ Hrun)
    as [Hsame | (pool & Hp & Hd & Hb & Hpools)].
  { unfold solvent. rewrite Hsame. exact Hw. }
  destruct (Hw id pool Hp) as (Hid & Hd0 & Hb0 & Hf).
  destruct (add_liquidity_product self w w' id user domain_amount base_amount res pool
              Hp Hid ltac:(lra) ltac:(lra) Hda Hba Hrun)
    as (pool' & Hp' & Hdle & Hble & _).
  rewrite Hpools, Hid, lookup_insert_eq in Hp'. inversion Hp'; subst pool'.
  unfold solvent.
  apply (solvent_insert w id pool (supplied pool domain_amount base_amount (clock w)));
    try assumption; try reflexivity; lra.
Qed.

Lemma remove_liquidity_solvent (self : AutomatedMarketMaker) (w w' : World)
    (id : string) (user : Z) (burned : R) (res : exn + LiquidityRemoved) :
  solvent w ->
  0 <= burned ->
  (forall pool, pools w !! id = Some pool -> burned <= total_liquidity_tokens pool) ->
  remove_liquidity self id user burned w = (w', res) ->
  solvent w'.
Proof.
  intros Hw Hburned Hbound Hrun.
  destruct (remove_liquidity_cases _ _ _ _ _ _ _ Hrun)
    as [Hsame | (pool & Hp & Ht & Hpools)].
  { unfold solvent. rewrite Hsame. exact Hw. }
  destruct (Hw id pool Hp) as (Hid & Hd & Hb & Hf).
  specialize (Hbound pool Hp).
  assert (Hshare : 0 <= 1 - burned / total_liquidity_tokens pool).
  { assert (Htotal : 0 < total_liquidity_tokens pool) by lra.
    assert (burned / total_liquidity_tokens pool <= 1); [|lra].
    apply (Rmult_le_reg_r (total_liquidity_tokens pool)); [assumption|].
    unfold Rdiv. rewrite Rmult_assoc, Rinv_l by assumption. lra. }
  unfold solvent.
  apply (solvent_insert w id pool (withdrawn pool burned (clock w)));
    try assumption; try reflexivity;
    unfold withdrawn; cbn [domain_token_reserve base_token_reserve].
  - replace (domain_token_reserve pool
             - domain_token_reserve pool * (burned / total_liquidity_tokens pool))
      with (domain_token_reserve pool * (1 - burned / total_liquidity_tokens pool))
      by ring.
    apply Rmult_le_pos; assumption.
  - replace (base_token_reserve pool
             - base_token_reserve pool * (burned / total_liquidity_tokens pool))
      with (base_token_reserve pool * (1 - burned / total_liquidity_tokens pool))
      by ring.
    apply Rmult_le_pos; assumption.
Qed.

(** C3, as the code has it: along every sequence of swaps quoted from the
    pool's current state, additions of liquidity and removals of at most the
    pool's total of liquidity tokens, all of non-negative amounts, the
    reserves of every pool stay non-negative.  The code has no check of the
    reserves and no [InsufficientReserves] error: the bound comes from the
    arithmetic of the quote and of the proportional withdrawal. *)
Theorem reserves_stay_nonnegative (self : AutomatedMarketMaker) (w w' : World) :
  solvent w ->
  mutations self w w' ->
  forall id pool,
    pools w' !! id = Some pool ->
    0 <= domain_token_reserve pool /\ 0 <= base_token_reserve pool.
Proof.
  intros Hw Hrun.
  assert (Hw' : solvent w').
  { induction Hrun as
      [ w
      | w w' t _ IH
      | w w1 w' id token amount tol trader res Ha Hstep _ IH
      | w w1 w' id user da ba res Hda Hba Hstep _ IH
      | w w1 w' id user burned res Hburned Hbound Hstep _ IH ].
    - assumption.
    - apply IH. exact Hw.
    - apply IH. exact (quoted_swap_solvent _ _ _ _ _ _ _ _ _ Hw Ha Hstep).
    - apply IH. exact (add_liquidity_solvent _ _ _ _ _ _ _ _ Hw Hda Hba Hstep).
    - apply IH.
      exact (remove_liquidity_solvent _ _ _ _ _ _ _ Hw Hburned Hbound Hstep). }
  intros id pool Hp. destruct (Hw' id pool Hp) as (_ & Hd & Hb & _).
  split; assumption.
Qed.

Lemma sample_world_solvent : solvent sample_world.
Proof.
  intros id pool Hp.
  destruct (sample_world_healthy id pool Hp) as (Hid & Hd & Hb & Hf).
  repeat split; try assumption; lra.
Qed.

Lemma reserves_stay_nonnegative_witness :
  exists w' pool,
    mutations AutomatedMarketMaker_init sample_world w' /\
    pools w' !! "P" = Some pool /\
    0 <= domain_token_reserve pool /\ 0 <= base_token_reserve pool.
Proof.
  destruct sample_swap_runs as (w1 & r & Hswap).
  destruct (add_liquidity AutomatedMarketMaker_init "P" 8 50 300 w1)
    as [w2 res] eqn:Hadd.
  assert (Hrun : mutations AutomatedMarketMaker_init sample_world w2).
  { apply (mutations_swap _ sample_world w1 w2 "P" "domain" 10 None 7%Z (inr r));
      [lra | exact Hswap |].
    apply (mutations_add _ w1 w2 w2 "P" 8%Z 50 300 res); [lra | lra | exact Hadd |].
    apply mutations_done. }
  assert (H10 : 0 <= 10) by lra.
  assert (H50 : 0 <= 50) by lra.
  assert (H300 : 0 <= 300) by lra.
  destruct (quoted_swap_healthy _ _ _ _ _ _ _ _ _ sample_world_healthy
              H10 Hswap) as (Hw1 & Hkept).
  destruct (Hkept "P" _ sample_world_pool) as (pool1 & Hp1 & _).
  destruct (Hw1 "P" pool1 Hp1) as (Hid & Hd & Hb & _).
  destruct (add_liquidity_product _ _ _ _ _ _ _ _ _ Hp1 Hid Hd Hb
              H50 H300 Hadd) as (pool2 & Hp2 & _).
  exists w2, pool2.
  split; [exact Hrun|]. split; [exact Hp2|].
  exact (reserves_stay_nonnegative AutomatedMarketMaker_init sample_world w2
           sample_world_solvent Hrun "P" pool2 Hp2).
Defined.

(** C3, as the claim states it, fails: [execute_trade] applies the amounts of
    the quote it is given to the reserves without comparing them, so a quote
    for more than the output reserve is executed, with no error, and leaves
    the reserve negative. *)
Lemma execute_trade_overdraws_reserve :
  exists w' r pool',
    execute_trade AutomatedMarketMaker_init "P" overdrawing_quote 7 sample_world
    = (w', inr r) /\
    pools w' !! "P" = Some pool' /\
    base_token_reserve pool' = 5000 - 6000 /\
    base_token_reserve pool' < 0.
Proof.
  destruct (execute_trade_applied AutomatedMarketMaker_init sample_world "P"
              overdrawing_quote 7 (sample_pool "P" sample_time))
    as (t & res & Hrun & _ & Hres).
  - unfold overdrawing_quote, five_minutes. simpl. lia.
  - exact sample_world_pool.
  - simpl. lra.
  - destruct Hres as (r & -> & _); [simpl; lra|].
    eexists. exists r. eexists.
    split; [exact Hrun|].
    split; [apply lookup_insert_eq|].
    simpl. split; [reflexivity | lra].
Qed.

(** ** Creating a pool *)

Lemma create_liquidity_pool_floor (self : AutomatedMarketMaker) (w : World)
    (domain : Z) (base : string) (initial_domain initial_base : R) (creator : Z) :
  initial_base < minimum_liquidity self ->
  exists e,
    create_liquidity_pool self domain base initial_domain initial_base creator w
    = (w, inl e).
Proof.
  intros Hlow. unfold create_liquidity_pool, Engine.create_liquidity_pool.
  rewrite bind_run. unfold Domain_query_get, gets. cbv beta iota.
  destruct (domains w !! domain) as [d|]; [|eexists; reflexivity].
  destruct (negb (truthy (token_id d))); [eexists; reflexivity|].
  destruct (negb (bool_decide (base ∈ supported_base_tokens self)));
    [eexists; reflexivity|].
  destruct (Rlt_dec initial_base (minimum_liquidity self)); [|contradiction].
  eexists; reflexivity.
Qed.

Lemma create_liquidity_pool_negative (self : AutomatedMarketMaker) (w : World)
    (domain : Z) (base : string) (initial_domain initial_base : R) (creator : Z) :
  initial_domain * initial_base < 0 ->
  exists e,
    create_liquidity_pool self domain base initial_domain initial_base creator w
    = (w, inl e).
Proof.
  intros Hneg. unfold create_liquidity_pool, Engine.create_liquidity_pool.
  rewrite bind_run. unfold Domain_query_get, gets. cbv beta iota.
  destruct (domains w !! domain) as [d|]; [|eexists; reflexivity].
  destruct (negb (truthy (token_id d))); [eexists; reflexivity|].
  destruct (negb (bool_decide (base ∈ supported_base_tokens self)));
    [eexists; reflexivity|].
  destruct (Rlt_dec initial_base (minimum_liquidity self)); [eexists; reflexivity|].
  rewrite bind_run. unfold _get_pool_by_domain_and_base, gets. cbv beta iota.
  destruct (head _); [eexists; reflexivity|].
  unfold try_except. rewrite bind_run, fsqrt_neg by assumption.
  eexists; reflexivity.
Qed.

Lemma create_liquidity_pool_stored (self : AutomatedMarketMaker) (w : World)
    (domain : Z) (base : string) (initial_domain initial_base : R) (creator : Z) :
  admissible self w domain base ->
  minimum_liquidity self <= initial_base ->
  0 <= initial_domain * initial_base ->
  exists t res,
    create_liquidity_pool self domain base initial_domain initial_base creator w
    = (mkWorld (clock w) (domains w)
         (<[new_pool_id domain base (clock w) :=
              new_pool self domain base initial_domain initial_base (clock w)]>
            (pools w))
         (positions w
          ++ [new_position domain base initial_domain initial_base creator (clock w)])
         (transactions w ++ [t]),
       res) /\
    (initial_domain = 0 -> res = inl (PoolCreationFailed ZeroDivisionError)) /\
    (initial_domain <> 0 ->
     exists r, res = inr r /\
       pc_pool_id r = new_pool_id domain base (clock w) /\
       pc_liquidity_tokens_minted r = sqrt (initial_domain * initial_base) /\
       pc_initial_price r = initial_base / initial_domain).
Proof.
  intros ((d & Hd & Htok) & Hbase & Hfree) Hfloor Hprod.
  unfold create_liquidity_pool, Engine.create_liquidity_pool.
  rewrite bind_run. unfold Domain_query_get, gets. cbv beta iota.
  rewrite Hd, Htok. cbn [negb].
  rewrite bool_decide_eq_true_2 by assumption. cbn [negb].
  destruct (Rlt_dec initial_base (minimum_liquidity self)); [lra|].
  rewrite (bind_ok _ _ _ _ _ Hfree).
  unfold try_except.
  rewrite bind_run, fsqrt_ok by assumption. cbv beta iota.
  do 4 (rewrite bind_run; unfold utcnow at 1, gets; cbv beta iota).
  unfold _store_liquidity_pool, _store_liquidity_position,
    _create_pool_creation_transactions, db_add_commit, modify.
  do 3 (rewrite bind_run; cbv beta iota).
  rewrite bind_run. unfold fdiv.
  destruct (Req_dec_T initial_domain 0) as [Hz | Hnz];
    unfold raise, mret, M_ret; cbv beta iota;
    eexists; eexists;
    (split; [reflexivity|]);
    (split; [intros Hzero; try contradiction; reflexivity|]);
    intros Hnonzero; try contradiction;
    eexists; (split; [reflexivity|]); cbn; auto.
Qed.

Lemma empty_world_admissible :
  admissible AutomatedMarketMaker_init empty_world 1 "USDC".
Proof.
  split; [|split].
  - eexists. split; [apply lookup_singleton_eq | reflexivity].
  - simpl. set_solver.
  - unfold _get_pool_by_domain_and_base, gets, empty_world. cbn [pools].
    rewrite map_to_list_empty. reflexivity.
Qed.

(** ** The scenario: a pool of 1000 domain tokens and 5000 USDC *)

Lemma input_side_base (pool : LiquidityPool) (token : string) :
  token <> "domain" -> input_side pool token = base_token_reserve pool.
Proof.
  intros Hne. unfold input_side. destruct (decide _); [contradiction | reflexivity].
Qed.

Lemma output_side_base (pool : LiquidityPool) (token : string) :
  token <> "domain" -> output_side pool token = domain_token_reserve pool.
Proof.
  intros Hne. unfold output_side. destruct (decide _); [contradiction | reflexivity].
Qed.

Lemma sqrt_5000000_bounds : 223606 / 100 < sqrt (1000 * 5000) < 223607 / 100.
Proof.
  assert (Hs : sqrt (1000 * 5000) * sqrt (1000 * 5000) = 1000 * 5000)
    by (apply sqrt_sqrt; lra).
  assert (Hpos : 0 <= sqrt (1000 * 5000)) by apply sqrt_pos.
  split; nra.
Qed.

Lemma scenario_run :
  exists w' r q,
    create_liquidity_pool AutomatedMarketMaker_init 1 "USDC" 1000 5000 7 empty_world
    = (w', inr r) /\
    pc_liquidity_tokens_minted r = sqrt (1000 * 5000) /\
    pools w' !! pc_pool_id r
    = Some (new_pool AutomatedMarketMaker_init 1 "USDC" 1000 5000 sample_time) /\
    get_trade_quote AutomatedMarketMaker_init (pc_pool_id r) "USDC" 1000 None w'
    = (w', inr q) /\
    output_token q = "domain" /\
    input_amount q = 1000 /\
    output_amount q = 1000 * 997 / (5000 + 997) /\
    fee_amount q = 3.
Proof.
  destruct (create_liquidity_pool_stored AutomatedMarketMaker_init empty_world 1
              "USDC" 1000 5000 7 empty_world_admissible)
    as (t & res & Hrun & _ & Hres); [simpl; lra | lra |].
  destruct Hres as (r & -> & Hid & Hminted & _); [lra|].
  assert (Hne : "USDC" <> "domain") by discriminate.
  match type of Hrun with
  | _ = (?w, _) =>
      assert (Hp : pools w !! pc_pool_id r
                   = Some (new_pool AutomatedMarketMaker_init 1 "USDC" 1000 5000
                                    sample_time))
        by (rewrite Hid; apply lookup_insert_eq);
      pose proof (get_trade_quote_run AutomatedMarketMaker_init w (pc_pool_id r)
                    _ "USDC" 1000 None Hp (or_intror eq_refl)) as Hquote
  end.
  rewrite (input_side_base _ _ Hne), (output_side_base _ _ Hne) in Hquote.
  cbn [new_pool base_token_reserve domain_token_reserve fee_rate
       AutomatedMarketMaker_init default_fee_rate] in Hquote.
  eexists. exists r. eexists.
  split; [exact Hrun|]. split; [exact Hminted|]. split; [exact Hp|].
  split; [apply Hquote; lra|].
  cbn [output_token input_amount output_amount fee_amount].
  split; [reflexivity|]. split; [reflexivity|]. split; field.
Qed.

(** C8, as the code has it: creating the pool with 1000 domain tokens and 5000
    USDC mints [sqrt (1000 * 5000)], about 2236.07, liquidity tokens, at the
    default fee rate of 0.003.  A quote for an input of 1000 USDC against that
    pool has an effective input of 997 and a fee of 3; USDC being the input,
    the input reserve is the base reserve of 5000 and the output reserve is
    the domain reserve of 1000, so the output is [1000 * 997 / (5000 + 997)],
    about 166.25 domain tokens. *)
Theorem scenario_pool_and_quote :
  exists w' r q,
    create_liquidity_pool AutomatedMarketMaker_init 1 "USDC" 1000 5000 7 empty_world
    = (w', inr r) /\
    pc_liquidity_tokens_minted r = sqrt (1000 * 5000) /\
    223606 / 100 < pc_liquidity_tokens_minted r < 223607 / 100 /\
    (exists pool,
       pools w' !! pc_pool_id r = Some pool /\
       domain_token_reserve pool = 1000 /\
       base_token_reserve pool = 5000 /\
       fee_rate pool = 3 / 1000) /\
    get_trade_quote AutomatedMarketMaker_init (pc_pool_id r) "USDC" 1000 None w'
    = (w', inr q) /\
    output_token q = "domain" /\
    input_amount q * (1 - 3 / 1000) = 997 /\
    output_amount q = 1000 * 997 / (5000 + 997) /\
    16624 / 100 < output_amount q < 16626 / 100 /\
    fee_amount q = 3.
Proof.
  destruct scenario_run
    as (w' & r & q & Hrun & Hminted & Hp & Hq & Htok & Hin & Hout & Hfee).
  exists w', r, q.
  split; [exact Hrun|]. split; [exact Hminted|].
  split; [rewrite Hminted; exact sqrt_5000000_bounds|].
  split; [eexists; split; [exact Hp | cbn; auto]|].
  split; [exact Hq|]. split; [exact Htok|].
  split; [rewrite Hin; lra|]. split; [exact Hout|].
  split; [rewrite Hout; lra | exact Hfee].
Qed.

(** C8, as the claim states it, fails: the output of the quote for 1000 USDC
    is not [5000 * 997 / (1000 + 997)] and is nowhere near 2497.75. *)
Lemma scenario_quote_output_differs :
  exists w' r q,
    create_liquidity_pool AutomatedMarketMaker_init 1 "USDC" 1000 5000 7 empty_world
    = (w', inr r) /\
    get_trade_quote AutomatedMarketMaker_init (pc_pool_id r) "USDC" 1000 None w'
    = (w', inr q) /\
    output_amount q <> 5000 * 997 / (1000 + 997) /\
    ~ (2497 < output_amount q < 2498).
Proof.
  destruct scenario_run
    as (w' & r & q & Hrun & _ & _ & Hq & _ & _ & Hout & _).
  exists w', r, q.
  split; [exact Hrun|]. split; [exact Hq|].
  rewrite Hout. split; lra.
Qed.

(** * Further properties of the engine *)

(** ** Quotes *)

(** X1: a quote is read-only.  Whatever [get_trade_quote] returns, a quote or
    an exception, the world it leaves is the world it was called in: no pool,
    position or transaction is touched. *)
Theorem get_trade_quote_reads_only (self : AutomatedMarketMaker) (w : World)
    (id token : string) (amount : R) (tol : option R) :
  fst (get_trade_quote self id token amount tol w) = w.
Proof.
  destruct (get_trade_quote self id token amount tol w) as [w' res] eqn:Hrun.
  apply get_trade_quote_world in Hrun. exact Hrun.
Qed.

Lemma Rdiv_lt_cross (a b c d : R) :
  0 < b -> 0 < d -> a * d < c * b -> a / b < c / d.
Proof.
  intros Hb Hd Hcross.
  apply (Rmult_lt_reg_r (b * d)); [apply Rmult_lt_0_compat; assumption|].
  replace (a / b * (b * d)) with (a * d) by (field; lra).
  replace (c / d * (b * d)) with (c * b) by (field; lra).
  exact Hcross.
Qed.

(** The arithmetic of a quote as a function of the gross input: [rin] and
    [rout] are the two reserves and [f] is the fee rate. *)
Section QuoteArithmetic.

Variables rin rout f : R.

Hypothesis rin_pos : 0 < rin.
Hypothesis rout_pos : 0 < rout.
Hypothesis f_range : 0 <= f < 1.

Local Abbreviation output a := (rout * (a * (1 - f)) / (rin + a * (1 - f))).

Lemma output_increases (a1 a2 : R) :
  0 <= a1 -> a1 < a2 -> output a1 < output a2.
Proof.
  intros H1 H12.
  assert (He1 : 0 <= a1 * (1 - f)) by (apply Rmult_le_pos; lra).
  assert (He12 : a1 * (1 - f) < a2 * (1 - f))
    by (apply Rmult_lt_compat_r; lra).
  apply Rdiv_lt_cross; [lra | lra |].
  assert (Hgap : 0 < rout * rin * (a2 * (1 - f) - a1 * (1 - f))).
  { apply Rmult_lt_0_compat; [apply Rmult_lt_0_compat; assumption | lra]. }
  replace (rout * (a2 * (1 - f)) * (rin + a1 * (1 - f)))
    with (rout * (a1 * (1 - f)) * (rin + a2 * (1 - f))
          + rout * rin * (a2 * (1 - f) - a1 * (1 - f))) by ring.
  lra.
Qed.

Lemma rate_decreases (a1 a2 : R) :
  0 < a1 -> a1 < a2 -> output a2 / a2 < output a1 / a1.
Proof.
  intros H1 H12.
  assert (He1 : 0 < a1 * (1 - f)) by (apply Rmult_lt_0_compat; lra).
  assert (He12 : a1 * (1 - f) < a2 * (1 - f))
    by (apply Rmult_lt_compat_r; lra).
  replace (output a2 / a2) with (rout * (1 - f) / (rin + a2 * (1 - f)))
    by (field; lra).
  replace (output a1 / a1) with (rout * (1 - f) / (rin + a1 * (1 - f)))
    by (field; lra).
  apply Rdiv_lt_cross; [lra | lra |].
  assert (Hscale : 0 < rout * (1 - f)) by (apply Rmult_lt_0_compat; lra).
  apply Rmult_lt_compat_l; [exact Hscale | lra].
Qed.

Lemma impact_closed_form (a : R) :
  0 <= a ->
  Rabs ((rout - output a) / (rin + a) - rout / rin) / (rout / rin)
  = 1 - rin * rin / ((rin + a * (1 - f)) * (rin + a)).
Proof.
  intros Ha.
  assert (He : 0 <= a * (1 - f)) by (apply Rmult_le_pos; lra).
  assert (Hden : 0 < (rin + a * (1 - f)) * (rin + a))
    by (apply Rmult_lt_0_compat; lra).
  assert (Hsmall : rin * rin <= (rin + a * (1 - f)) * (rin + a)).
  { apply Rmult_le_compat; lra. }
  assert (Hfrac : rin * rin / ((rin + a * (1 - f)) * (rin + a)) <= 1).
  { apply (Rmult_le_reg_r ((rin + a * (1 - f)) * (rin + a))); [exact Hden|].
    unfold Rdiv. rewrite Rmult_assoc, Rinv_l by lra. lra. }
  assert (Hprice : 0 < rout / rin) by (apply Rdiv_lt_0_compat; assumption).
  replace ((rout - output a) / (rin + a) - rout / rin)
    with (- (rout / rin * (1 - rin * rin / ((rin + a * (1 - f)) * (rin + a)))))
    by (field; lra).
  rewrite Rabs_Ropp, Rabs_pos_eq by (apply Rmult_le_pos; lra).
  field. lra.
Qed.

Lemma impact_range (a : R) :
  0 <= a ->
  0 <= 1 - rin * rin / ((rin + a * (1 - f)) * (rin + a)) < 1 /\
  (0 < a -> 0 < 1 - rin * rin / ((rin + a * (1 - f)) * (rin + a))).
Proof.
  intros Ha.
  assert (He : 0 <= a * (1 - f)) by (apply Rmult_le_pos; lra).
  assert (Hden : 0 < (rin + a * (1 - f)) * (rin + a))
    by (apply Rmult_lt_0_compat; lra).
  assert (Hnum : 0 < rin * rin) by (apply Rmult_lt_0_compat; assumption).
  assert (Hpos : 0 < rin * rin / ((rin + a * (1 - f)) * (rin + a)))
    by (apply Rdiv_lt_0_compat; assumption).
  assert (Hscaled : forall x, x / ((rin + a * (1 - f)) * (rin + a))
                              * ((rin + a * (1 - f)) * (rin + a)) = x)
    by (intros x; field; lra).
  split; [split; [|lra]|].
  - assert (rin * rin / ((rin + a * (1 - f)) * (rin + a)) <= 1); [|lra].
    apply (Rmult_le_reg_r ((rin + a * (1 - f)) * (rin + a))); [exact Hden|].
    rewrite Hscaled, Rmult_1_l. apply Rmult_le_compat; lra.
  - intros Hstrict.
    assert (rin * rin / ((rin + a * (1 - f)) * (rin + a)) < 1); [|lra].
    apply (Rmult_lt_reg_r ((rin + a * (1 - f)) * (rin + a))); [exact Hden|].
    rewrite Hscaled, Rmult_1_l.
    apply Rle_lt_trans with (rin * (rin + a)).
    + apply Rmult_le_compat_l; lra.
    + apply Rmult_lt_compat_r; [lra|].
      assert (0 < a * (1 - f)) by (apply Rmult_lt_0_compat; lra). lra.
Qed.

End QuoteArithmetic.

Lemma sides_positive (pool : LiquidityPool) (token : string) :
  0 < domain_token_reserve pool ->
  0 < base_token_reserve pool ->
  0 < input_side pool token /\ 0 < output_side pool token.
Proof.
  intros Hd Hb. unfold input_side, output_side.
  destruct (decide (token = "domain")); split; assumption.
Qed.

Lemma get_trade_quote_nonneg (self : AutomatedMarketMaker) (w : World) (id : string)
    (pool : LiquidityPool) (token : string) (amount : R) (tol : option R) :
  pools w !! id = Some pool ->
  0 < domain_token_reserve pool ->
  0 < base_token_reserve pool ->
  0 <= fee_rate pool <= 1 ->
  0 <= amount ->
  token = "domain" \/ token = base_token pool ->
  exists q,
    get_trade_quote self id token amount tol w = (w, inr q) /\
    input_amount q = amount /\
    output_amount q =
      output_side pool token * (amount * (1 - fee_rate pool))
      / (input_side pool token + amount * (1 - fee_rate pool)) /\
    price_impact q =
      Rabs ((output_side pool token
             - output_side pool token * (amount * (1 - fee_rate pool))
               / (input_side pool token + amount * (1 - fee_rate pool)))
            / (input_side pool token + amount)
            - output_side pool token / input_side pool token)
      / (output_side pool token / input_side pool token) /\
    minimum_output q = output_amount q * (1 - slippage_or_default self tol) /\
    valid_until q = (clock w + five_minutes)%Z.
Proof.
  intros Hp Hd Hb Hf Ha Htok.
  destruct (sides_positive pool token Hd Hb) as [Hin Hout].
  assert (He : 0 <= amount * (1 - fee_rate pool)) by (apply Rmult_le_pos; lra).
  eexists. split.
  - apply (get_trade_quote_run self w id pool); try assumption; lra.
  - cbn. auto.
Qed.

(** X3: the output of a quote never reaches the output reserve.  On a pool
    with positive reserves and a fee rate in [0,1), the quote for any
    non-negative input amount, however large, has an output amount that is at
    least zero and strictly less than the reserve of the token bought; the
    output is positive when the input is. *)
Theorem quote_output_below_reserve (self : AutomatedMarketMaker) (w : World)
    (id : string) (pool : LiquidityPool) (token : string) (amount : R)
    (tol : option R) :
  pools w !! id = Some pool ->
  0 < domain_token_reserve pool ->
  0 < base_token_reserve pool ->
  0 <= fee_rate pool < 1 ->
  0 <= amount ->
  token = "domain" \/ token = base_token pool ->
  exists q,
    get_trade_quote self id token amount tol w = (w, inr q) /\
    0 <= output_amount q < output_side pool token /\
    (0 < amount -> 0 < output_amount q).
Proof.
  intros Hp Hd Hb Hf Ha Htok.
  destruct (get_trade_quote_nonneg self w id pool token amount tol Hp Hd Hb
              ltac:(lra) Ha Htok) as (q & Hq & _ & Hout & _).
  destruct (sides_positive pool token Hd Hb) as [Hin Hos].
  exists q. split; [exact Hq|]. rewrite Hout.
  split.
  - apply (output_below_reserve _ _ _ _ Hin Hos Ha). lra.
  - intros Hpos.
    assert (He : 0 < amount * (1 - fee_rate pool))
      by (apply Rmult_lt_0_compat; lra).
    apply Rdiv_lt_0_compat; [apply Rmult_lt_0_compat; assumption | lra].
Qed.

Lemma quote_output_below_reserve_witness :
  exists q,
    get_trade_quote AutomatedMarketMaker_init "P" "domain" 1000000 None sample_world
    = (sample_world, inr q) /\
    0 < output_amount q < 5000.
Proof.
  destruct (quote_output_below_reserve AutomatedMarketMaker_init sample_world "P"
              (sample_pool "P" sample_time) "domain" 1000000 None)
    as (q & Hq & Hrange & Hpos).
  - exact sample_world_pool.
  - simpl; lra.
  - simpl; lra.
  - simpl; lra.
  - lra.
  - left; reflexivity.
  - exists q. split; [exact Hq|].
    rewrite output_side_domain in Hrange. simpl in Hrange.
    split; [apply Hpos; lra | apply Hrange].
Defined.

(** X4: diminishing returns.  On a pool with positive reserves and a fee rate
    in [0,1), of two quotes for the same token from the same state the one
    for the larger input has the larger output, and the smaller output per
    unit of input. *)
Theorem quote_diminishing_returns (self : AutomatedMarketMaker) (w : World)
    (id : string) (pool : LiquidityPool) (token : string) (small large : R)
    (tol : option R) :
  pools w !! id = Some pool ->
  0 < domain_token_reserve pool ->
  0 < base_token_reserve pool ->
  0 <= fee_rate pool < 1 ->
  0 < small < large ->
  token = "domain" \/ token = base_token pool ->
  exists q1 q2,
    get_trade_quote self id token small tol w = (w, inr q1) /\
    get_trade_quote self id token large tol w = (w, inr q2) /\
    output_amount q1 < output_amount q2 /\
    output_amount q2 / input_amount q2 < output_amount q1 / input_amount q1.
Proof.
  intros Hp Hd Hb Hf [Hsmall Hlarge] Htok.
  destruct (get_trade_quote_nonneg self w id pool token small tol Hp Hd Hb
              ltac:(lra) ltac:(lra) Htok) as (q1 & Hq1 & Hin1 & Hout1 & _).
  destruct (get_trade_quote_nonneg self w id pool token large tol Hp Hd Hb
              ltac:(lra) ltac:(lra) Htok) as (q2 & Hq2 & Hin2 & Hout2 & _).
  destruct (sides_positive pool token Hd Hb) as [Hin Hos].
  exists q1, q2. split; [exact Hq1|]. split; [exact Hq2|].
  rewrite Hout1, Hout2, Hin1, Hin2. split.
  - apply output_increases; try assumption; lra.
  - apply rate_decreases; assumption.
Qed.

Lemma quote_diminishing_returns_witness :
  exists q1 q2,
    get_trade_quote AutomatedMarketMaker_init "P" "USDC" 100 None sample_world
    = (sample_world, inr q1) /\
    get_trade_quote AutomatedMarketMaker_init "P" "USDC" 200 None sample_world
    = (sample_world, inr q2) /\
    output_amount q1 < output_amount q2 /\
    output_amount q2 / input_amount q2 < output_amount q1 / input_amount q1.
Proof.
  apply (quote_diminishing_returns AutomatedMarketMaker_init sample_world "P"
           (sample_pool "P" sample_time) "USDC" 100 200 None).
  - exact sample_world_pool.
  - simpl; lra.
  - simpl; lra.
  - simpl; lra.
  - lra.
  - right; reflexivity.
Defined.

(** X5: the price impact of a quote in closed form.  On a pool with positive
    reserves and a fee rate in [0,1), the price impact that [get_trade_quote]
    reports for a non-negative input [a] is
    [1 - rin^2 / ((rin + a * (1 - fee)) * (rin + a))], with [rin] the reserve
    of the token sold: it does not depend on the output reserve, it lies in
    [0,1), and it is positive when the input is. *)
Theorem quote_price_impact_closed_form (self : AutomatedMarketMaker) (w : World)
    (id : string) (pool : LiquidityPool) (token : string) (amount : R)
    (tol : option R) :
  pools w !! id = Some pool ->
  0 < domain_token_reserve pool ->
  0 < base_token_reserve pool ->
  0 <= fee_rate pool < 1 ->
  0 <= amount ->
  token = "domain" \/ token = base_token pool ->
  exists q,
    get_trade_quote self id token amount tol w = (w, inr q) /\
    price_impact q =
      1 - input_side pool token * input_side pool token
          / ((input_side pool token + amount * (1 - fee_rate pool))
             * (input_side pool token + amount)) /\
    0 <= price_impact q < 1 /\
    (0 < amount -> 0 < price_impact q).
Proof.
  intros Hp Hd Hb Hf Ha Htok.
  destruct (get_trade_quote_nonneg self w id pool token amount tol Hp Hd Hb
              ltac:(lra) Ha Htok) as (q & Hq & _ & _ & Himpact & _).
  destruct (sides_positive pool token Hd Hb) as [Hin Hos].
  exists q. split; [exact Hq|].
  rewrite Himpact, (impact_closed_form _ _ _ Hin Hos Hf _ Ha).
  split; [reflexivity|].
  apply (impact_range _ _ Hin Hf _ Ha).
Qed.

Lemma quote_price_impact_closed_form_witness :
  exists q,
    get_trade_quote AutomatedMarketMaker_init "P" "domain" 10 None sample_world
    = (sample_world, inr q) /\
    price_impact q
    = 1 - 1000 * 1000 / ((1000 + 10 * (1 - 3 / 1000)) * (1000 + 10)) /\
    0 < price_impact q < 1.
Proof.
  destruct (quote_price_impact_closed_form AutomatedMarketMaker_init sample_world
              "P" (sample_pool "P" sample_time) "domain" 10 None)
    as (q & Hq & Hform & Hrange & Hpos).
  - exact sample_world_pool.
  - simpl; lra.
  - simpl; lra.
  - simpl; lra.
  - lra.
  - left; reflexivity.
  - exists q. split; [exact Hq|].
    rewrite input_side_domain in Hform. simpl in Hform.
    split; [exact Hform|]. split; [apply Hpos; lra | apply Hrange].
Defined.

(** X6: the minimum output of a quote.  [minimum_output] is the output
    reduced by the slippage tolerance; the tolerance is the caller's when one
    is given and is not zero, and the default of the market maker otherwise:
    a caller who passes a tolerance of zero gets the default tolerance. *)
Theorem quote_minimum_output (self : AutomatedMarketMaker) (w : World)
    (id : string) (pool : LiquidityPool) (token : string) (amount : R)
    (tol : option R) :
  pools w !! id = Some pool ->
  0 < domain_token_reserve pool ->
  0 < base_token_reserve pool ->
  0 <= fee_rate pool < 1 ->
  0 <= amount ->
  token = "domain" \/ token = base_token pool ->
  exists q,
    get_trade_quote self id token amount tol w = (w, inr q) /\
    (tol = None \/ tol = Some 0 ->
     minimum_output q = output_amount q * (1 - slippage_tolerance self)) /\
    (forall s, tol = Some s -> s <> 0 ->
     minimum_output q = output_amount q * (1 - s)) /\
    (0 <= slippage_tolerance self <= 1 ->
     (forall s, tol = Some s -> 0 <= s <= 1) ->
     0 <= minimum_output q <= output_amount q).
Proof.
  intros Hp Hd Hb Hf Ha Htok.
  destruct (get_trade_quote_nonneg self w id pool token amount tol Hp Hd Hb
              ltac:(lra) Ha Htok) as (q & Hq & _ & Hout & _ & Hmin & _).
  destruct (sides_positive pool token Hd Hb) as [Hin Hos].
  assert (Hnonneg : 0 <= output_amount q).
  { rewrite Hout. apply (output_below_reserve _ _ _ _ Hin Hos Ha). lra. }
  exists q. split; [exact Hq|]. rewrite Hmin.
  split; [|split].
  - intros [-> | ->]; unfold slippage_or_default; [reflexivity|].
    destruct (Req_dec_T 0 0); [reflexivity | contradiction].
  - intros s -> Hs. unfold slippage_or_default.
    destruct (Req_dec_T s 0); [contradiction | reflexivity].
  - intros Hdefault Hgiven.
    assert (Hs : 0 <= slippage_or_default self tol <= 1).
    { unfold slippage_or_default. destruct tol as [s|]; [|exact Hdefault].
      destruct (Req_dec_T s 0); [exact Hdefault | apply Hgiven; reflexivity]. }
    split.
    + apply Rmult_le_pos; lra.
    + rewrite <- (Rmult_1_r (output_amount q)) at 2.
      apply Rmult_le_compat_l; lra.
Qed.

Lemma quote_minimum_output_witness :
  exists q,
    get_trade_quote AutomatedMarketMaker_init "P" "domain" 10 (Some 0) sample_world
    = (sample_world, inr q) /\
    minimum_output q = output_amount q * (1 - 2 / 100).
Proof.
  destruct (quote_minimum_output AutomatedMarketMaker_init sample_world "P"
              (sample_pool "P" sample_time) "domain" 10 (Some 0))
    as (q & Hq & Hdefault & _).
  - exact sample_world_pool.
  - simpl; lra.
  - simpl; lra.
  - simpl; lra.
  - lra.
  - left; reflexivity.
  - exists q. split; [exact Hq|]. apply Hdefault. right; reflexivity.
Defined.

(** ** Execution of a quote *)

(** X7: a quote lives five minutes.  A quote that [get_trade_quote] issued at
    time [t0] is rejected as expired by [execute_trade] at every time after
    [t0 + 5 min], and passes the expiry check at every time up to it: if the
    pool has not changed, its price impact is within the threshold and its
    input is not zero, it is executed. *)
Theorem quote_lives_five_minutes (self : AutomatedMarketMaker) (w : World)
    (id token : string) (amount : R) (tol : option R) (q : TradeQuote)
    (trader : Z) (t : datetime) :
  get_trade_quote self id token amount tol w = (w, inr q) ->
  ((clock w + five_minutes < t)%Z ->
   execute_trade self id q trader (advance t w)
   = (advance t w, inl QuoteExpired)) /\
  ((t <= clock w + five_minutes)%Z ->
   price_impact q <= price_impact_threshold self ->
   amount <> 0 ->
   exists w' r, execute_trade self id q trader (advance t w) = (w', inr r)).
Proof.
  intros Hq.
  destruct (get_trade_quote_value _ _ _ _ _ _ _ _ Hq)
    as (_ & pool & Hp & _ & _ & _ & _ & _ & Hamount & _ & _ & Huntil).
  split.
  - intros Hlate. apply execute_trade_expired. rewrite Huntil. exact Hlate.
  - intros Hfresh Himpact Hnz.
    destruct (execute_trade_applied self (advance t w) id q trader pool)
      as (tx & res & Hrun & _ & Hres).
    + rewrite Huntil. exact Hfresh.
    + exact Hp.
    + exact Himpact.
    + destruct Hres as (r & -> & _); [congruence|]. eauto.
Qed.

Lemma quote_lives_five_minutes_witness :
  exists q,
    get_trade_quote AutomatedMarketMaker_init "P" "domain" 10 None sample_world
    = (sample_world, inr q) /\
    execute_trade AutomatedMarketMaker_init "P" q 7
      (advance (sample_time + 300000001)%Z sample_world)
    = (advance (sample_time + 300000001)%Z sample_world, inl QuoteExpired) /\
    exists w' r,
      execute_trade AutomatedMarketMaker_init "P" q 7
        (advance (sample_time + 300000000)%Z sample_world) = (w', inr r).
Proof.
  destruct sample_quote_runs as (q & Hq & Hamount & Himpact & _).
  destruct (quote_lives_five_minutes AutomatedMarketMaker_init sample_world "P"
              "domain" 10 None q 7 (sample_time + 300000001)%Z Hq) as (Hlate & _).
  destruct (quote_lives_five_minutes AutomatedMarketMaker_init sample_world "P"
              "domain" 10 None q 7 (sample_time + 300000000)%Z Hq) as (_ & Hfresh).
  exists q. split; [exact Hq|]. split.
  - apply Hlate. unfold five_minutes. simpl. lia.
  - apply Hfresh; [unfold five_minutes; simpl; lia | exact Himpact | lra].
Defined.

Lemma execute_trade_record (self : AutomatedMarketMaker) (w : World)
    (id : string) (quote : TradeQuote) (trader : Z) (pool : LiquidityPool) :
  (clock w <= valid_until quote)%Z ->
  pools w !! id = Some pool ->
  price_impact quote <= price_impact_threshold self ->
  exists t res,
    execute_trade self id quote trader w =
    (mkWorld (clock w) (domains w)
             (<[pool_id pool := traded pool quote (clock w)]> (pools w))
             (positions w) (transactions w ++ [t]), res) /\
    transaction_type t = "swap" /\
    tx_domain_id t = domain_id pool /\
    tx_user_id t = trader /\
    tx_status t = "confirmed" /\
    (input_amount quote = 0 -> res = inl (TradeExecutionFailed ZeroDivisionError)) /\
    (input_amount quote <> 0 ->
     res = inr {|
       te_input_amount := input_amount quote;
       te_output_amount := output_amount quote;
       te_price_impact := price_impact quote;
       te_fee_paid := fee_amount quote;
       te_execution_price := output_amount quote / input_amount quote;
       te_transactions :=
         if decide (input_token quote = "domain")
         then (domain_to_pool (domain_id pool) (input_amount quote),
               base_from_pool (base_token pool) (output_amount quote) trader)
         else (base_to_pool (base_token pool) (input_amount quote) trader,
               domain_from_pool (domain_id pool) (output_amount quote) trader)
     |}).
Proof.
  intros Hfresh Hsome Himpact. unfold execute_trade, Engine.execute_trade.
  rewrite bind_run. unfold utcnow, gets. cbv beta iota.
  destruct (decide (valid_until quote < clock w)%Z); [lia|].
  rewrite bind_run. unfold _get_pool_by_id, gets. cbv beta iota.
  rewrite Hsome.
  destruct (Rlt_dec (price_impact_threshold self) (price_impact quote)); [lra|].
  unfold try_except, traded.
  destruct (decide (input_token quote = "domain"));
    cbn [fst snd];
    rewrite bind_run; cbv beta iota;
    unfold _update_liquidity_pool, _distribute_trading_fees, db_add_commit, modify;
    rewrite bind_run; cbv beta iota;
    rewrite bind_run; unfold mret at 1, M_ret at 1; cbv beta iota;
    rewrite bind_run; cbv beta iota;
    rewrite bind_run; unfold fdiv;
    destruct (Req_dec_T (input_amount quote) 0) as [Hz | Hnz];
    unfold raise, mret, M_ret; cbv beta iota;
    eexists; eexists;
    (split; [unfold save_pool; cbn [clock domains pools positions transactions pool_id];
             reflexivity|]);
    cbn [transaction_type tx_domain_id tx_user_id tx_status domain_id];
    (split; [reflexivity|]); (split; [reflexivity|]);
    (split; [reflexivity|]); (split; [reflexivity|]);
    (split; [intros Hzero; try contradiction; reflexivity|]);
    intros Hnonzero; try contradiction; reflexivity.
Qed.

(** X8: what an executed trade does.  When a quote passes the three checks
    and its input amount is not zero, [execute_trade] adds the input amount to
    one reserve and takes the output amount from the other, exactly as the
    quote states them and whatever the reserves are; every input token other
    than ["domain"] is handled as the base token of the pool.  It stamps the
    pool with the current time, records one confirmed "swap" transaction for
    the trader, and reports [output_amount / input_amount] as the execution
    price and the quote's fee as the fee paid. *)
Theorem execute_trade_applies_quote (self : AutomatedMarketMaker) (w : World)
    (id : string) (quote : TradeQuote) (trader : Z) (pool : LiquidityPool) :
  (clock w <= valid_until quote)%Z ->
  pools w !! id = Some pool ->
  pool_id pool = id ->
  price_impact quote <= price_impact_threshold self ->
  input_amount quote <> 0 ->
  exists w' r pool' t,
    execute_trade self id quote trader w = (w', inr r) /\
    pools w' !! id = Some pool' /\
    (input_token quote = "domain" ->
     domain_token_reserve pool' = domain_token_reserve pool + input_amount quote /\
     base_token_reserve pool' = base_token_reserve pool - output_amount quote) /\
    (input_token quote <> "domain" ->
     domain_token_reserve pool' = domain_token_reserve pool - output_amount quote /\
     base_token_reserve pool' = base_token_reserve pool + input_amount quote) /\
    last_updated pool' = clock w /\
    transactions w' = transactions w ++ [t] /\
    transaction_type t = "swap" /\
    tx_user_id t = trader /\
    tx_status t = "confirmed" /\
    te_input_amount r = input_amount quote /\
    te_output_amount r = output_amount quote /\
    te_fee_paid r = fee_amount quote /\
    te_execution_price r = output_amount quote / input_amount quote.
Proof.
  intros Hfresh Hp Hid Himpact Hnz.
  destruct (execute_trade_record self w id quote trader pool Hfresh Hp Himpact)
    as (t & res & Hrun & Htype & _ & Huser & Hstatus & _ & Hres).
  rewrite (Hres Hnz) in Hrun.
  eexists. eexists. exists (traded pool quote (clock w)), t.
  split; [exact Hrun|].
  cbn [pools transactions te_input_amount te_output_amount te_fee_paid
       te_execution_price].
  split; [rewrite Hid; apply lookup_insert_eq|].
  unfold traded. cbn [domain_token_reserve base_token_reserve last_updated].
  split; [intros Hdom; destruct (decide _); [auto | contradiction]|].
  split; [intros Hbase; destruct (decide _); [contradiction | auto]|].
  auto 10.
Qed.

Lemma execute_trade_applies_quote_witness :
  exists w' r pool',
    execute_trade AutomatedMarketMaker_init "P"
      (sample_quote (1 / 100) (sample_time + five_minutes)%Z) 7 sample_world
    = (w', inr r) /\
    pools w' !! "P" = Some pool' /\
    domain_token_reserve pool' = 1000 + 10 /\
    base_token_reserve pool' = 5000 - 49 /\
    te_execution_price r = 49 / 10.
Proof.
  destruct (execute_trade_applies_quote AutomatedMarketMaker_init sample_world "P"
              (sample_quote (1 / 100) (sample_time + five_minutes)%Z) 7
              (sample_pool "P" sample_time))
    as (w' & r & pool' & t & Hrun & Hp & Hdomain & _ & _ & _ & _ & _ & _ & _ & _
        & _ & Hprice).
  - discriminate.
  - exact sample_world_pool.
  - reflexivity.
  - simpl; lra.
  - simpl; lra.
  - destruct (Hdomain eq_refl) as [Hd Hb].
    exists w', r, pool'. auto 10.
Defined.

(** X9: a failed trade that is not undone.  A quote whose input amount is
    zero passes the three checks, so [execute_trade] updates and stores the
    pool and records the "swap" transaction before it divides the output by
    the input for the execution price; the call then fails with "Trade
    execution failed" while the stored pool and the transaction stay. *)
Theorem execute_trade_zero_input_not_undone (self : AutomatedMarketMaker)
    (w : World) (id : string) (quote : TradeQuote) (trader : Z)
    (pool : LiquidityPool) :
  (clock w <= valid_until quote)%Z ->
  pools w !! id = Some pool ->
  pool_id pool = id ->
  price_impact quote <= price_impact_threshold self ->
  input_amount quote = 0 ->
  exists w' pool' t,
    execute_trade self id quote trader w
    = (w', inl (TradeExecutionFailed ZeroDivisionError)) /\
    pools w' !! id = Some pool' /\
    last_updated pool' = clock w /\
    (input_token quote = "domain" ->
     base_token_reserve pool' = base_token_reserve pool - output_amount quote) /\
    (input_token quote <> "domain" ->
     domain_token_reserve pool' = domain_token_reserve pool - output_amount quote) /\
    transactions w' = transactions w ++ [t] /\
    transaction_type t = "swap".
Proof.
  intros Hfresh Hp Hid Himpact Hz.
  destruct (execute_trade_record self w id quote trader pool Hfresh Hp Himpact)
    as (t & res & Hrun & Htype & _ & _ & _ & Hres & _).
  rewrite (Hres Hz) in Hrun.
  eexists. exists (traded pool quote (clock w)), t.
  split; [exact Hrun|]. cbn [pools transactions].
  split; [rewrite Hid; apply lookup_insert_eq|].
  unfold traded. cbn [domain_token_reserve base_token_reserve last_updated].
  split; [reflexivity|].
  split; [intros Hdom; destruct (decide _); [reflexivity | contradiction]|].
  split; [intros Hbase; destruct (decide _); [contradiction | reflexivity]|].
  auto.
Qed.

Lemma execute_trade_zero_input_not_undone_witness :
  exists w' pool',
    execute_trade AutomatedMarketMaker_init "P"
      (empty_quote (sample_time + five_minutes)%Z) 7
      (advance (sample_time + 1000000)%Z sample_world)
    = (w', inl (TradeExecutionFailed ZeroDivisionError)) /\
    pools w' !! "P" = Some pool' /\
    last_updated pool' = (sample_time + 1000000)%Z /\
    length (transactions w') = 1%nat.
Proof.
  destruct (execute_trade_zero_input_not_undone AutomatedMarketMaker_init
              (advance (sample_time + 1000000)%Z sample_world) "P"
              (empty_quote (sample_time + five_minutes)%Z) 7
              (sample_pool "P" sample_time))
    as (w' & pool' & t & Hrun & Hp & Hstamp & _ & _ & Htx & _).
  - unfold five_minutes. simpl. lia.
  - exact sample_world_pool.
  - reflexivity.
  - simpl; lra.
  - reflexivity.
  - exists w', pool'.
    split; [exact Hrun|]. split; [exact Hp|]. split; [exact Hstamp|].
    rewrite Htx. reflexivity.
Defined.

Lemma rewards_value (self : AutomatedMarketMaker) (position : LiquidityPosition)
    (pool : LiquidityPool) (w : World) :
  _calculate_liquidity_rewards self position pool w
  = (w, inr (accrued_rewards self position (clock w))).
Proof.
  unfold _calculate_liquidity_rewards, accrued_rewards.
  rewrite bind_run. unfold utcnow, gets. cbv beta iota.
  do 2 (rewrite bind_run, fdiv_ok by lra; cbv beta iota).
  reflexivity.
Qed.

(** X13: adding liquidity does not move the price.  On a pool with positive
    reserves, whatever non-negative amounts are supplied and whether or not
    the call returns a result, the pool that [add_liquidity] stores has the
    same ratio of base reserve to domain reserve as before: the amounts it
    takes are always in the ratio of the reserves. *)
Theorem add_liquidity_keeps_price (self : AutomatedMarketMaker) (w w' : World)
    (id : string) (user : Z) (domain_amount base_amount : R)
    (res : exn + LiquidityAdded) (pool : LiquidityPool) :
  pools w !! id = Some pool ->
  pool_id pool = id ->
  0 < domain_token_reserve pool ->
  0 < base_token_reserve pool ->
  0 <= domain_amount ->
  0 <= base_amount ->
  add_liquidity self id user domain_amount base_amount w = (w', res) ->
  exists pool',
    pools w' !! id = Some pool' /\
    0 < domain_token_reserve pool' /\
    base_token_reserve pool' / domain_token_reserve pool'
    = base_token_reserve pool / domain_token_reserve pool.
Proof.
  intros Hp Hid Hd Hb Hda Hba Hrun.
  destruct (add_liquidity_run self w id user domain_amount base_amount pool Hp)
    as (w1 & res1 & Hrun1 & Hpools & _); [lra | lra |].
  rewrite Hrun1 in Hrun. inversion Hrun; subst w1 res1; clear Hrun.
  destruct (add_liquidity_product self w w' id user domain_amount base_amount res
              pool Hp Hid Hd Hb Hda Hba Hrun1) as (pool' & Hp' & Hdle & _).
  pose proof (deposited_at_pool_ratio pool domain_amount base_amount Hd Hb) as Hratio.
  exists pool'. split; [exact Hp'|].
  rewrite Hpools, Hid, lookup_insert_eq in Hp'. inversion Hp'; subst pool'.
  cbn [supplied domain_token_reserve base_token_reserve] in *.
  split; [lra|].
  apply Rdiv_eq_cross; [lra | lra |].
  rewrite Rmult_plus_distr_r, Hratio. ring.
Qed.

Lemma add_liquidity_keeps_price_witness :
  exists w' res pool',
    add_liquidity AutomatedMarketMaker_init "P" 8 50 300 sample_world = (w', res) /\
    pools w' !! "P" = Some pool' /\
    base_token_reserve pool' / domain_token_reserve pool' = 5000 / 1000.
Proof.
  destruct (add_liquidity AutomatedMarketMaker_init "P" 8 50 300 sample_world)
    as [w' res] eqn:Hrun.
  destruct (add_liquidity_keeps_price AutomatedMarketMaker_init sample_world w' "P"
              8 50 300 res (sample_pool "P" sample_time))
    as (pool' & Hp & _ & Hprice).
  - exact sample_world_pool.
  - reflexivity.
  - simpl; lra.
  - simpl; lra.
  - lra.
  - lra.
  - exact Hrun.
  - exists w', res, pool'. auto.
Defined.

(** ** Creating a pool: checks and result *)

(** X17: the checks of [create_liquidity_pool], in order, each leaving the
    world as it was: the domain must exist ("Domain not found"); it must have
    a token id that is not empty ("Domain must be tokenized before creating
    pool"); the base token must be a supported one ("Unsupported base
    token"); the base amount must reach the minimum liquidity ("Minimum
    liquidity is ..."); and no pool may exist for the domain and the base token
    ("Pool already exists for this domain/base token pair"). *)
Theorem create_liquidity_pool_checks (self : AutomatedMarketMaker) (w : World)
    (domain : Z) (base : string) (initial_domain initial_base : R) (creator : Z) :
  (domains w !! domain = None ->
   create_liquidity_pool self domain base initial_domain initial_base creator w
   = (w, inl DomainNotFound)) /\
  (forall d,
     domains w !! domain = Some d ->
     token_id d = None \/ token_id d = Some "" ->
     create_liquidity_pool self domain base initial_domain initial_base creator w
     = (w, inl DomainNotTokenized)) /\
  (forall d,
     domains w !! domain = Some d ->
     truthy (token_id d) = true ->
     base ∉ supported_base_tokens self ->
     create_liquidity_pool self domain base initial_domain initial_base creator w
     = (w, inl (UnsupportedBaseToken base))) /\
  (forall d,
     domains w !! domain = Some d ->
     truthy (token_id d) = true ->
     base ∈ supported_base_tokens self ->
     initial_base < minimum_liquidity self ->
     create_liquidity_pool self domain base initial_domain initial_base creator w
     = (w, inl (MinimumLiquidity (minimum_liquidity self) base))) /\
  (forall d existing,
     domains w !! domain = Some d ->
     truthy (token_id d) = true ->
     base ∈ supported_base_tokens self ->
     minimum_liquidity self <= initial_base ->
     _get_pool_by_domain_and_base domain base w = (w, inr (Some existing)) ->
     create_liquidity_pool self domain base initial_domain initial_base creator w
     = (w, inl PoolAlreadyExists)).
Proof.
  unfold create_liquidity_pool, Engine.create_liquidity_pool.
  rewrite bind_run. unfold Domain_query_get, gets. cbv beta iota.
  split; [|split; [|split; [|split]]].
  - intros ->. reflexivity.
  - intros d -> Htoken.
    assert (Hfalse : truthy (token_id d) = false)
      by (destruct Htoken as [-> | ->]; reflexivity).
    rewrite Hfalse. reflexivity.
  - intros d -> -> Hbase. cbn [negb].
    rewrite bool_decide_eq_false_2 by assumption. reflexivity.
  - intros d -> -> Hbase Hlow. cbn [negb].
    rewrite bool_decide_eq_true_2 by assumption. cbn [negb].
    destruct (Rlt_dec initial_base (minimum_liquidity self)); [|contradiction].
    reflexivity.
  - intros d existing -> -> Hbase Hfloor Hexists. cbn [negb].
    rewrite bool_decide_eq_true_2 by assumption. cbn [negb].
    destruct (Rlt_dec initial_base (minimum_liquidity self)); [lra|].
    rewrite (bind_ok _ _ _ _ _ Hexists). reflexivity.
Qed.

Lemma create_liquidity_pool_checks_witness :
  create_liquidity_pool AutomatedMarketMaker_init 2 "USDC" 1000 5000 7 empty_world
  = (empty_world, inl DomainNotFound) /\
  create_liquidity_pool AutomatedMarketMaker_init 1 "DAI" 1000 5000 7 empty_world
  = (empty_world, inl (UnsupportedBaseToken "DAI")) /\
  create_liquidity_pool AutomatedMarketMaker_init 1 "USDC" 1000 999 7 empty_world
  = (empty_world, inl (MinimumLiquidity 1000 "USDC")).
Proof.
  destruct (create_liquidity_pool_checks AutomatedMarketMaker_init empty_world 2
              "USDC" 1000 5000 7) as (Hdomain & _).
  destruct (create_liquidity_pool_checks AutomatedMarketMaker_init empty_world 1
              "DAI" 1000 5000 7) as (_ & _ & Hbase & _).
  destruct (create_liquidity_pool_checks AutomatedMarketMaker_init empty_world 1
              "USDC" 1000 999 7) as (_ & _ & _ & Hfloor & _).
  split; [|split].
  - apply Hdomain. apply lookup_singleton_ne. discriminate.
  - apply (Hbase {| domain_name := "example.com"; token_id := Some "42" |}).
    + apply lookup_singleton_eq.
    + reflexivity.
    + simpl. repeat (apply not_elem_of_cons; split; [discriminate|]).
      apply not_elem_of_nil.
  - apply (Hfloor {| domain_name := "example.com"; token_id := Some "42" |}).
    + apply lookup_singleton_eq.
    + reflexivity.
    + simpl. apply list_elem_of_here.
    + simpl. lra.
Defined.

(** X18: what a successful [create_liquidity_pool] leaves.  When the checks
    pass, the base amount reaches the minimum and both amounts are positive,
    the call returns; the liquidity tokens minted are positive and their
    square is the product of the two amounts, the initial price is the base
    amount per domain token, the pool is stored under the id returned with
    the two amounts as reserves, the tokens minted as total and the default
    fee rate, the creator's position is appended with all of the tokens and
    the two amounts as principal, and one confirmed "create_pool" transaction
    is recorded. *)
Theorem create_liquidity_pool_result (self : AutomatedMarketMaker) (w : World)
    (domain : Z) (base : string) (initial_domain initial_base : R) (creator : Z) :
  admissible self w domain base ->
  minimum_liquidity self <= initial_base ->
  0 < initial_domain ->
  0 < initial_base ->
  exists w' r pool pos t,
    create_liquidity_pool self domain base initial_domain initial_base creator w
    = (w', inr r) /\
    0 < pc_liquidity_tokens_minted r /\
    pc_liquidity_tokens_minted r * pc_liquidity_tokens_minted r
    = initial_domain * initial_base /\
    pc_initial_price r = initial_base / initial_domain /\
    pools w' !! pc_pool_id r = Some pool /\
    pool_id pool = pc_pool_id r /\
    domain_id pool = domain /\
    base_token pool = base /\
    domain_token_reserve pool = initial_domain /\
    base_token_reserve pool = initial_base /\
    total_liquidity_tokens pool = pc_liquidity_tokens_minted r /\
    fee_rate pool = default_fee_rate self /\
    created_at pool = clock w /\
    positions w' = positions w ++ [pos] /\
    position_id pos = pc_position_id r /\
    pos_pool_id pos = pc_pool_id r /\
    user_id pos = creator /\
    liquidity_tokens pos = total_liquidity_tokens pool /\
    initial_domain_amount pos = initial_domain /\
    initial_base_amount pos = initial_base /\
    transactions w' = transactions w ++ [t] /\
    transaction_type t = "create_pool" /\
    tx_user_id t = creator.
Proof.
  intros Hadm Hfloor Hd Hb.
  assert (Hprod : 0 < initial_domain * initial_base)
    by (apply Rmult_lt_0_compat; assumption).
  destruct Hadm as ((d & Hdom & Htok) & Hbase & Hfree).
  unfold create_liquidity_pool, Engine.create_liquidity_pool.
  rewrite bind_run. unfold Domain_query_get, gets. cbv beta iota.
  rewrite Hdom, Htok. cbn [negb].
  rewrite bool_decide_eq_true_2 by assumption. cbn [negb].
  destruct (Rlt_dec initial_base (minimum_liquidity self)); [lra|].
  rewrite (bind_ok _ _ _ _ _ Hfree).
  unfold try_except.
  rewrite bind_run, fsqrt_ok by lra. cbv beta iota.
  do 4 (rewrite bind_run; unfold utcnow at 1, gets; cbv beta iota).
  unfold _store_liquidity_pool, _store_liquidity_position,
    _create_pool_creation_transactions, db_add_commit, modify.
  do 3 (rewrite bind_run; cbv beta iota).
  rewrite bind_run, fdiv_ok by lra. cbv beta iota.
  unfold mret, M_ret.
  eexists. eexists. eexists. eexists. eexists.
  split; [reflexivity|].
  cbn [pc_liquidity_tokens_minted pc_initial_price pc_pool_id pc_position_id
       pools positions transactions save_pool set_positions pool_id].
  split; [apply sqrt_lt_R0; exact Hprod|].
  split; [apply sqrt_sqrt; lra|].
  split; [reflexivity|].
  split; [apply lookup_insert_eq|].
  cbn. auto 20.
Qed.

Lemma create_liquidity_pool_result_witness :
  exists w' r pool pos,
    create_liquidity_pool AutomatedMarketMaker_init 1 "USDC" 100 5000 7 empty_world
    = (w', inr r) /\
    pc_initial_price r = 5000 / 100 /\
    pools w' !! pc_pool_id r = Some pool /\
    domain_token_reserve pool = 100 /\
    base_token_reserve pool = 5000 /\
    positions w' = [pos] /\
    liquidity_tokens pos = total_liquidity_tokens pool.
Proof.
  destruct (create_liquidity_pool_result AutomatedMarketMaker_init empty_world 1
              "USDC" 100 5000 7 empty_world_admissible)
    as (w' & r & pool & pos & t & Hrun & _ & _ & Hprice & Hp & _ & _ & _ & Hd & Hb
        & _ & _ & _ & Hpos & _ & _ & _ & Htokens & _).
  - simpl; lra.
  - lra.
  - lra.
  - exists w', r, pool, pos. auto 10.
Defined.

Lemma create_liquidity_pool_cases (self : AutomatedMarketMaker) (w w' : World)
    (domain : Z) (base : string) (initial_domain initial_base : R) (creator : Z)
    (res : exn + PoolCreated) :
  create_liquidity_pool self domain base initial_domain initial_base creator w
  = (w', res) ->
  (w' = w /\ exists e, res = inl e) \/
  (minimum_liquidity self <= initial_base /\
   0 <= initial_domain * initial_base /\
   pools w' = <[new_pool_id domain base (clock w) :=
                  new_pool self domain base initial_domain initial_base (clock w)]>
                (pools w)).
Proof.
  intros Hrun.
  destruct (Rlt_dec initial_base (minimum_liquidity self)) as [Hlow | Hok].
  { destruct (create_liquidity_pool_floor self w domain base initial_domain
                initial_base creator Hlow) as (e & He).
    rewrite He in Hrun. inversion Hrun. left. eauto. }
  destruct (Rlt_dec (initial_domain * initial_base) 0) as [Hneg | Hprod].
  { destruct (create_liquidity_pool_negative self w domain base initial_domain
                initial_base creator Hneg) as (e & He).
    rewrite He in Hrun. inversion Hrun. left. eauto. }
  revert Hrun. unfold create_liquidity_pool, Engine.create_liquidity_pool.
  rewrite bind_run. unfold Domain_query_get, gets. cbv beta iota.
  destruct (domains w !! domain) as [d|] eqn:Hdom;
    [|intros Hrun; inversion Hrun; left; eauto].
  destruct (truthy (token_id d)) eqn:Htok; cbn [negb];
    [|intros Hrun; inversion Hrun; left; eauto].
  destruct (bool_decide (base ∈ supported_base_tokens self)) eqn:Hbase; cbn [negb];
    [|intros Hrun; inversion Hrun; left; eauto].
  apply bool_decide_eq_true_1 in Hbase.
  destruct (Rlt_dec initial_base (minimum_liquidity self)); [contradiction|].
  rewrite bind_run.
  destruct (_get_pool_by_domain_and_base domain base w) as [w0 found] eqn:Hfound.
  assert (Hsame : w0 = w /\ exists o, found = inr o)
    by (unfold _get_pool_by_domain_and_base, gets in Hfound; inversion Hfound; eauto).
  destruct Hsame as (-> & o & ->).
  destruct o as [existing|]; [intros Hrun; inversion Hrun; left; eauto|].
  intros Hrun.
  assert (Hadm : admissible self w domain base).
  { split; [eauto | split; assumption]. }
  destruct (create_liquidity_pool_stored self w domain base initial_domain
              initial_base creator Hadm) as (t & res' & Hrun' & _); [lra | lra |].
  unfold create_liquidity_pool, Engine.create_liquidity_pool in Hrun'.
  rewrite bind_run in Hrun'. unfold Domain_query_get, gets in Hrun'.
  cbv beta iota in Hrun'. rewrite Hdom, Htok in Hrun'. cbn [negb] in Hrun'.
  rewrite bool_decide_eq_true_2 in Hrun' by assumption. cbn [negb] in Hrun'.
  destruct (Rlt_dec initial_base (minimum_liquidity self)); [contradiction|].
  rewrite bind_run, Hfound in Hrun'.
  rewrite Hrun' in Hrun. inversion Hrun; subst w'.
  right. split; [lra|]. split; [lra | reflexivity].
Qed.

(** X20: creation keeps the store fit for trading.  When the minimum liquidity
    of the market maker is positive and its default fee rate is in [0,1),
    [create_liquidity_pool] with a domain amount that is not zero, whatever it
    returns, leaves a store in which every pool is stored under its own id
    and has positive reserves and a fee rate in [0,1), if the store was so
    before: the pool it adds has the two amounts, which the checks force to
    be positive, as reserves. *)
Theorem create_liquidity_pool_keeps_healthy (self : AutomatedMarketMaker)
    (w w' : World) (domain : Z) (base : string) (initial_domain initial_base : R)
    (creator : Z) (res : exn + PoolCreated) :
  healthy w ->
  0 < minimum_liquidity self ->
  0 <= default_fee_rate self < 1 ->
  initial_domain <> 0 ->
  create_liquidity_pool self domain base initial_domain initial_base creator w
  = (w', res) ->
  healthy w'.
Proof.
  intros Hw Hfloor Hfee Hnz Hrun.
  destruct (create_liquidity_pool_cases _ _ _ _ _ _ _ _ _ Hrun)
    as [(-> & _) | (Hbase & Hprod & Hpools)]; [exact Hw|].
  assert (Hb : 0 < initial_base) by lra.
  assert (Hd : 0 < initial_domain).
  { destruct (Rlt_dec 0 initial_domain) as [|Hneg]; [assumption|].
    assert (Hlt : initial_domain < 0) by lra.
    assert (initial_domain * initial_base < 0); [|lra].
    rewrite <- (Rmult_0_l initial_base).
    apply Rmult_lt_compat_r; assumption. }
  intros id pool. rewrite Hpools.
  destruct (decide (id = new_pool_id domain base (clock w))) as [-> | Hne].
  - rewrite lookup_insert_eq. intros Hsame. inversion Hsame; subst pool.
    cbn. repeat split; try assumption; lra.
  - rewrite lookup_insert_ne by congruence. apply Hw.
Qed.

Lemma create_liquidity_pool_keeps_healthy_witness :
  exists w' r,
    create_liquidity_pool AutomatedMarketMaker_init 1 "USDC" 1000 5000 7 empty_world
    = (w', inr r) /\
    healthy w'.
Proof.
  destruct scenario_run as (w' & r & q & Hrun & _).
  exists w', r. split; [exact Hrun|].
  apply (create_liquidity_pool_keeps_healthy AutomatedMarketMaker_init empty_world
           w' 1 "USDC" 1000 5000 7 (inr r)).
  - intros id pool Hp. unfold empty_world in Hp. cbn [pools] in Hp.
    rewrite lookup_empty in Hp. discriminate.
  - simpl. lra.
  - simpl. lra.
  - lra.
  - exact Hrun.
Defined.

(** ** Rewards and impermanent loss *)

(** X21: the rewards of a position in closed form.
    [_calculate_liquidity_rewards] never fails and changes nothing.  With
    [days] the whole days since the position was created, it returns
    [(principal_base * base_apy + 1000 * volume_multiplier) * days / 365],
    and from the 31st day on the loyalty bonus [loyalty_bonus] times the
    first term is added: a position that is exactly 30 days old gets no
    bonus.  The rewards depend neither on the pool nor on the liquidity
    tokens the position holds, and they are not negative when the position
    is not dated in the future and the principal and rates are not
    negative. *)
Theorem liquidity_rewards_closed_form (self : AutomatedMarketMaker)
    (position : LiquidityPosition) (pool : LiquidityPool) (w : World) :
  exists rewards,
    _calculate_liquidity_rewards self position pool w = (w, inr rewards) /\
    ((timedelta_days (clock w) (pos_created_at position) <= 30)%Z ->
     rewards =
       (initial_base_amount position * base_apy self
        + 1000 * volume_multiplier self)
       * IZR (timedelta_days (clock w) (pos_created_at position)) / 365) /\
    ((30 < timedelta_days (clock w) (pos_created_at position))%Z ->
     rewards =
       (initial_base_amount position * base_apy self * (1 + loyalty_bonus self)
        + 1000 * volume_multiplier self)
       * IZR (timedelta_days (clock w) (pos_created_at position)) / 365) /\
    ((pos_created_at position <= clock w)%Z ->
     0 <= initial_base_amount position ->
     0 <= base_apy self -> 0 <= volume_multiplier self -> 0 <= loyalty_bonus self ->
     0 <= rewards).
Proof.
  exists (accrued_rewards self position (clock w)).
  split; [apply rewards_value|].
  unfold accrued_rewards.
  set (days := timedelta_days (clock w) (pos_created_at position)).
  split; [|split].
  - intros Hyoung. destruct (decide (30 < days)%Z); [lia|]. field.
  - intros Hold. destruct (decide (30 < days)%Z); [|lia]. field.
  - intros Hpast Hprincipal Hapy Hvolume Hloyalty.
    assert (Hdays : (0 <= days)%Z).
    { unfold days, timedelta_days. apply Z.div_pos; lia. }
    assert (Hyears : 0 <= IZR days / 365).
    { apply IZR_le in Hdays. unfold Rdiv. apply Rmult_le_pos; lra. }
    assert (Hbase : 0 <= initial_base_amount position * base_apy self
                         * (IZR days / 365))
      by (apply Rmult_le_pos; [apply Rmult_le_pos|]; assumption).
    assert (Hvol : 0 <= 1000 * volume_multiplier self * (IZR days / 365))
      by (apply Rmult_le_pos; [apply Rmult_le_pos; lra | assumption]).
    destruct (decide (30 < days)%Z); [|lra].
    assert (0 <= initial_base_amount position * base_apy self
                 * (IZR days / 365) * loyalty_bonus self)
      by (apply Rmult_le_pos; assumption).
    lra.
Qed.

Lemma liquidity_rewards_closed_form_witness :
  (exists rewards,
     _calculate_liquidity_rewards AutomatedMarketMaker_init sample_position
       (sample_pool "P" sample_time)
       (advance (sample_time + 30 * 86400000000)%Z provider_world)
     = (advance (sample_time + 30 * 86400000000)%Z provider_world, inr rewards) /\
     rewards = (2500 * (5 / 100) + 1000 * (1 / 10)) * 30 / 365) /\
  (exists rewards,
     _calculate_liquidity_rewards AutomatedMarketMaker_init sample_position
       (sample_pool "P" sample_time)
       (advance (sample_time + 31 * 86400000000)%Z provider_world)
     = (advance (sample_time + 31 * 86400000000)%Z provider_world, inr rewards) /\
     rewards = (2500 * (5 / 100) * (1 + 2 / 100) + 1000 * (1 / 10)) * 31 / 365).
Proof.
  split.
  - destruct (liquidity_rewards_closed_form AutomatedMarketMaker_init sample_position
                (sample_pool "P" sample_time)
                (advance (sample_time + 30 * 86400000000)%Z provider_world))
      as (rewards & Hrun & Hyoung & _).
    exists rewards. split; [exact Hrun|].
    apply Hyoung. vm_compute. discriminate.
  - destruct (liquidity_rewards_closed_form AutomatedMarketMaker_init sample_position
                (sample_pool "P" sample_time)
                (advance (sample_time + 31 * 86400000000)%Z provider_world))
      as (rewards & Hrun & _ & Hold & _).
    exists rewards. split; [exact Hrun|].
    apply Hold. vm_compute. reflexivity.
Defined.

(** X22: where [_calculate_impermanent_loss] fails and where it reports a
    total loss.  A position whose domain principal or base principal is zero,
    or a pool whose domain reserve is zero, gives a [ZeroDivisionError]; a
    price ratio that is negative relative to the deposit, as after a reserve
    has been overdrawn, gives the math domain error of [math.sqrt]; and a pool
    whose base reserve is zero, the rest being positive, gives a loss of
    -100 %. *)
Theorem impermanent_loss_edges (position : LiquidityPosition)
    (pool : LiquidityPool) (w : World) :
  (initial_domain_amount position = 0 \/
   initial_base_amount position = 0 \/
   domain_token_reserve pool = 0 ->
   _calculate_impermanent_loss position pool w = (w, inl ZeroDivisionError)) /\
  (0 < initial_domain_amount position ->
   0 < initial_base_amount position ->
   0 < domain_token_reserve pool ->
   base_token_reserve pool < 0 ->
   _calculate_impermanent_loss position pool w = (w, inl MathDomainError)) /\
  (0 < initial_domain_amount position ->
   0 < initial_base_amount position ->
   0 < domain_token_reserve pool ->
   base_token_reserve pool = 0 ->
   _calculate_impermanent_loss position pool w = (w, inr (- 100))).
Proof.
  unfold _calculate_impermanent_loss.
  split; [|split].
  - intros Hzero.
    destruct (Req_dec_T (initial_domain_amount position) 0) as [Hpd | Hpd].
    { rewrite bind_run, Hpd, fdiv_zero. reflexivity. }
    rewrite bind_run, fdiv_ok by assumption. cbv beta iota.
    destruct (Req_dec_T (domain_token_reserve pool) 0) as [Hdr | Hdr].
    { rewrite bind_run, Hdr, fdiv_zero. reflexivity. }
    rewrite bind_run, fdiv_ok by assumption. cbv beta iota.
    destruct Hzero as [Hz | [Hz | Hz]]; try contradiction.
    assert (Hratio : initial_base_amount position / initial_domain_amount position
                     = 0) by (rewrite Hz; unfold Rdiv; apply Rmult_0_l).
    rewrite Hratio, bind_run, fdiv_zero. reflexivity.
  - intros Hpd Hpb Hdr Hbr.
    assert (Hinit : 0 < initial_base_amount position / initial_domain_amount position)
      by (apply Rdiv_lt_0_compat; assumption).
    assert (Hcur : base_token_reserve pool / domain_token_reserve pool < 0).
    { unfold Rdiv. rewrite <- (Rmult_0_l (/ domain_token_reserve pool)).
      apply Rmult_lt_compat_r; [apply Rinv_0_lt_compat|]; assumption. }
    do 3 (rewrite bind_run, fdiv_ok by lra; cbv beta iota).
    rewrite bind_run, fsqrt_neg; [reflexivity|].
    unfold Rdiv. rewrite <- (Rmult_0_l (/ (initial_base_amount position
                                            * / initial_domain_amount position))).
    apply Rmult_lt_compat_r; [apply Rinv_0_lt_compat|]; assumption.
  - intros Hpd Hpb Hdr Hbr.
    assert (Hinit : 0 < initial_base_amount position / initial_domain_amount position)
      by (apply Rdiv_lt_0_compat; assumption).
    assert (Hchange : base_token_reserve pool / domain_token_reserve pool
                      / (initial_base_amount position
                         / initial_domain_amount position) = 0)
      by (rewrite Hbr; unfold Rdiv; rewrite !Rmult_0_l; reflexivity).
    do 3 (rewrite bind_run, fdiv_ok by lra; cbv beta iota).
    rewrite Hchange.
    rewrite bind_run, fsqrt_ok by lra. cbv beta iota.
    rewrite bind_run, fdiv_ok by lra. cbv beta iota.
    unfold mret, M_ret. rewrite sqrt_0. f_equal. f_equal. field.
Qed.

Lemma impermanent_loss_edges_witness :
  _calculate_impermanent_loss sample_position drained_pool drained_world
  = (drained_world, inl ZeroDivisionError).
Proof.
  apply (impermanent_loss_edges sample_position drained_pool drained_world).
  right. right. reflexivity.
Defined.

Lemma il_curve_inverse (r r' : R) :
  0 < r -> r * r' = 1 -> il_curve r' = il_curve r.
Proof.
  intros Hr Hinv.
  assert (Hr' : 0 < r').
  { destruct (Rlt_dec 0 r') as [|Hn]; [assumption|].
    assert (r * r' <= 0); [|lra].
    rewrite <- (Rmult_0_r r). apply Rmult_le_compat_l; lra. }
  assert (Hs : sqrt r * sqrt r = r) by (apply sqrt_sqrt; lra).
  assert (Hs' : sqrt r' * sqrt r' = r') by (apply sqrt_sqrt; lra).
  assert (Hroots : sqrt r * sqrt r' = 1)
    by (rewrite <- sqrt_mult, Hinv by lra; apply sqrt_1).
  assert (Hpos : 0 < sqrt r) by (apply sqrt_lt_R0; assumption).
  assert (Hpos' : 0 < sqrt r') by (apply sqrt_lt_R0; assumption).
  unfold il_curve. f_equal.
  apply Rdiv_eq_cross; [lra | lra |].
  set (s := sqrt r) in *. set (s' := sqrt r') in *.
  rewrite <- Hs, <- Hs'.
  transitivity (2 * s' + 2 * s * (s * s')); [ring|].
  transitivity (2 * s + 2 * s' * (s * s')); [|ring].
  rewrite Hroots. ring.
Qed.

(** X23: the impermanent loss is the same for a rise and for a fall of the
    price by the same factor.  For one position and two pools with positive
    reserves whose prices, relative to the price at deposit, are inverse to
    each other, [_calculate_impermanent_loss] returns the same loss. *)
Theorem impermanent_loss_symmetric (position : LiquidityPosition)
    (risen fallen : LiquidityPool) (w : World) :
  0 < initial_domain_amount position ->
  0 < initial_base_amount position ->
  0 < domain_token_reserve risen ->
  0 < base_token_reserve risen ->
  0 < domain_token_reserve fallen ->
  0 < base_token_reserve fallen ->
  (base_token_reserve risen / domain_token_reserve risen)
  * (base_token_reserve fallen / domain_token_reserve fallen)
  = (initial_base_amount position / initial_domain_amount position)
    * (initial_base_amount position / initial_domain_amount position) ->
  _calculate_impermanent_loss position fallen w
  = _calculate_impermanent_loss position risen w.
Proof.
  intros Hpd Hpb Hdr Hbr Hdf Hbf Hinverse.
  assert (Hinit : 0 < initial_base_amount position / initial_domain_amount position)
    by (apply Rdiv_lt_0_compat; assumption).
  assert (Hrisen : 0 < base_token_reserve risen / domain_token_reserve risen)
    by (apply Rdiv_lt_0_compat; assumption).
  assert (Hfallen : 0 < base_token_reserve fallen / domain_token_reserve fallen)
    by (apply Rdiv_lt_0_compat; assumption).
  set (p0 := initial_base_amount position / initial_domain_amount position) in *.
  set (pr := base_token_reserve risen / domain_token_reserve risen) in *.
  set (pf := base_token_reserve fallen / domain_token_reserve fallen) in *.
  assert (Hr : 0 < pr / p0) by (apply Rdiv_lt_0_compat; assumption).
  assert (Hf : 0 < pf / p0) by (apply Rdiv_lt_0_compat; assumption).
  assert (Hcurve : il_curve (pf / p0) = il_curve (pr / p0)).
  { apply il_curve_inverse; [exact Hr|].
    replace (pr / p0 * (pf / p0)) with (pr * pf / (p0 * p0)) by (field; lra).
    rewrite Hinverse. field. lra. }
  unfold il_curve in Hcurve.
  subst p0 pr pf.
  unfold _calculate_impermanent_loss.
  do 3 (rewrite bind_run, fdiv_ok by lra; cbv beta iota).
  rewrite bind_run, fsqrt_ok by lra; cbv beta iota.
  rewrite bind_run, fdiv_ok by lra; cbv beta iota.
  do 3 (rewrite bind_run, fdiv_ok by lra; cbv beta iota).
  rewrite bind_run, fsqrt_ok by lra; cbv beta iota.
  rewrite bind_run, fdiv_ok by lra; cbv beta iota.
  unfold mret, M_ret. rewrite Hcurve. reflexivity.
Qed.

Lemma impermanent_loss_symmetric_witness :
  _calculate_impermanent_loss sample_position
    {| pool_id := "Q"; domain_id := 1; base_token := "USDC";
       domain_token_reserve := 4000; base_token_reserve := 5000;
       total_liquidity_tokens := 2236; fee_rate := 3 / 1000;
       created_at := sample_time; last_updated := sample_time |} sample_world
  = _calculate_impermanent_loss sample_position (sample_pool "P" sample_time)
      sample_world.
Proof.
  apply (impermanent_loss_symmetric sample_position (sample_pool "P" sample_time)
           {| pool_id := "Q"; domain_id := 1; base_token := "USDC";
              domain_token_reserve := 4000; base_token_reserve := 5000;
              total_liquidity_tokens := 2236; fee_rate := 3 / 1000;
              created_at := sample_time; last_updated := sample_time |}
           sample_world); simpl; lra.
Defined.

(** ** What an executed swap returns *)

Lemma quoted_swap_result (self : AutomatedMarketMaker) (w w' : World)
    (id token : string) (amount : R) (tol : option R) (trader : Z)
    (r : TradeExecuted) :
  quoted_swap self id token amount tol trader w = (w', inr r) ->
  exists pool q t,
    pools w !! id = Some pool /\
    (token = "domain" \/ token = base_token pool) /\
    input_token q = token /\
    input_amount q = amount /\
    output_amount q =
      output_side pool token * (amount * (1 - fee_rate pool))
      / (input_side pool token + amount * (1 - fee_rate pool)) /\
    w' = mkWorld (clock w) (domains w)
                 (<[pool_id pool := traded pool q (clock w)]> (pools w))
                 (positions w) (transactions w ++ [t]) /\
    te_input_amount r = amount /\
    te_output_amount r = output_amount q.
Proof.
  unfold quoted_swap. rewrite bind_run.
  destruct (get_trade_quote self id token amount tol w) as [w1 [e | q]] eqn:Hq;
    [intros Hrun; inversion Hrun|].
  destruct (get_trade_quote_value _ _ _ _ _ _ _ _ Hq)
    as (-> & pool & Hp & Htok & _ & _ & _ & Hit & Hamount & Hout & _ & Huntil).
  assert (Hfresh : (clock w <= valid_until q)%Z)
    by (rewrite Huntil; unfold five_minutes; lia).
  destruct (Rlt_dec (price_impact_threshold self) (price_impact q)) as [Hbig | Hok].
  { rewrite (execute_trade_impact self w id q trader pool) by assumption.
    intros Hrun; inversion Hrun. }
  destruct (execute_trade_applied self w id q trader pool)
    as (t & res' & Happlied & Hzero & Hres); [assumption | assumption | lra |].
  rewrite Happlied. intros Hrun. inversion Hrun; subst w' res'.
  destruct (Req_dec_T (input_amount q) 0) as [Hz | Hnz];
    [specialize (Hzero Hz); discriminate|].
  destruct (Hres Hnz) as (r' & Hr' & Hin & Hout' & _).
  inversion Hr'; subst r'.
  exists pool, q, t. rewrite Hin, Hout'. auto 10.
Qed.

(** ** Amounts below zero *)

Lemma traded_same_side (pool : LiquidityPool) (q : TradeQuote) (token : string)
    (now : datetime) :
  input_token q = token ->
  input_side (traded pool q now) token = input_side pool token + input_amount q /\
  output_side (traded pool q now) token = output_side pool token - output_amount q.
Proof.
  intros Hit. unfold input_side, output_side, traded.
  cbn [domain_token_reserve base_token_reserve]. rewrite Hit.
  destruct (decide (token = "domain")); split; reflexivity.
Qed.

Lemma reserve_product_sides (pool : LiquidityPool) (token : string) :
  reserve_product pool = input_side pool token * output_side pool token.
Proof.
  unfold reserve_product, input_side, output_side.
  destruct (decide (token = "domain")); ring.
Qed.

Lemma negative_input_arith (rin rout a f : R) :
  0 < rin -> 0 < rout -> 0 < f < 1 -> a < 0 -> 0 < rin + a ->
  rout * (a * (1 - f)) / (rin + a * (1 - f)) < 0 /\
  (rin + a) * (rout - rout * (a * (1 - f)) / (rin + a * (1 - f))) < rin * rout.
Proof.
  intros Hin Hout Hf Ha Hleft.
  assert (He : a < a * (1 - f) < 0).
  { assert (0 < - a * f) by (apply Rmult_lt_0_compat; lra).
    assert (0 < - a * (1 - f)) by (apply Rmult_lt_0_compat; lra).
    lra. }
  assert (Hden : 0 < rin + a * (1 - f)) by lra.
  assert (Hneg : rout * (a * (1 - f)) / (rin + a * (1 - f)) < 0).
  { unfold Rdiv. rewrite <- (Rmult_0_l (/ (rin + a * (1 - f)))).
    apply Rmult_lt_compat_r; [apply Rinv_0_lt_compat; exact Hden|].
    rewrite <- (Rmult_0_r rout). apply Rmult_lt_compat_l; lra. }
  split; [exact Hneg|].
  replace ((rin + a) * (rout - rout * (a * (1 - f)) / (rin + a * (1 - f))))
    with (rin * rout
          - (- a * f) * (rout - rout * (a * (1 - f)) / (rin + a * (1 - f))))
    by (field; lra).
  assert (0 < (- a * f) * (rout - rout * (a * (1 - f)) / (rin + a * (1 - f)))).
  { apply Rmult_lt_0_compat; [apply Rmult_lt_0_compat|]; lra. }
  lra.
Qed.

(** X25: a swap of a negative amount.  [get_trade_quote] and [execute_trade]
    do not reject an input amount below zero.  On a pool with positive
    reserves and a fee rate strictly between 0 and 1, when such a swap is
    executed for an amount that is less, in absolute value, than the reserve
    of the input token, the output amount is negative as well: the reserve of
    the input token is lowered, the reserve of the output token is raised,
    and the product of the reserves is strictly lower than it was. *)
Theorem swap_of_negative_amount (self : AutomatedMarketMaker) (w w' : World)
    (id token : string) (amount : R) (tol : option R) (trader : Z)
    (r : TradeExecuted) (pool : LiquidityPool) :
  pools w !! id = Some pool ->
  pool_id pool = id ->
  0 < domain_token_reserve pool ->
  0 < base_token_reserve pool ->
  0 < fee_rate pool < 1 ->
  amount < 0 ->
  0 < input_side pool token + amount ->
  quoted_swap self id token amount tol trader w = (w', inr r) ->
  te_output_amount r < 0 /\
  exists pool',
    pools w' !! id = Some pool' /\
    input_side pool' token = input_side pool token + amount /\
    output_side pool' token = output_side pool token - te_output_amount r /\
    reserve_product pool' < reserve_product pool.
Proof.
  intros Hp Hid Hd Hb Hfee Ha Hleft Hrun.
  destruct (sides_positive pool token Hd Hb) as [Hin Hout].
  destruct (quoted_swap_result _ _ _ _ _ _ _ _ _ Hrun)
    as (pool0 & q & t & Hp0 & _ & Hit & Hia & Hoa & Hw' & _ & Hr).
  rewrite Hp in Hp0. inversion Hp0; subst pool0. clear Hp0.
  destruct (negative_input_arith (input_side pool token) (output_side pool token)
              amount (fee_rate pool) Hin Hout Hfee Ha Hleft) as [Hneg Hprod].
  destruct (traded_same_side pool q token (clock w) Hit) as [Hin' Hout'].
  rewrite Hr.
  split; [rewrite Hoa; exact Hneg|].
  exists (traded pool q (clock w)).
  split; [rewrite Hw'; cbn [pools]; rewrite Hid; apply lookup_insert_eq|].
  split; [rewrite Hin', Hia; reflexivity|].
  split; [exact Hout'|].
  rewrite (reserve_product_sides (traded pool q (clock w)) token),
          (reserve_product_sides pool token), Hin', Hout', Hia, Hoa.
  exact Hprod.
Qed.

Lemma negative_swap_impact :
  Rabs ((5000 - 5000 * (- 10 * (1 - 3 / 1000)) / (1000 + - 10 * (1 - 3 / 1000)))
        / (1000 + - 10) - 5000 / 1000) / (5000 / 1000) <= 5 / 100.
Proof.
  replace ((5000 - 5000 * (- 10 * (1 - 3 / 1000)) / (1000 + - 10 * (1 - 3 / 1000)))
           / (1000 + - 10) - 5000 / 1000)
    with (993515 / 9801297) by field.
  rewrite Rabs_pos_eq by lra.
  replace (993515 / 9801297 / (5000 / 1000)) with (198703 / 9801297) by field.
  lra.
Qed.

Lemma swap_of_negative_amount_witness :
  exists w' r pool',
    quoted_swap AutomatedMarketMaker_init "P" "domain" (- 10) None 7 sample_world
    = (w', inr r) /\
    te_output_amount r < 0 /\
    pools w' !! "P" = Some pool' /\
    reserve_product pool' < 1000 * 5000.
Proof.
  assert (Hrun : exists w' r,
             quoted_swap AutomatedMarketMaker_init "P" "domain" (- 10) None 7
               sample_world = (w', inr r)).
  { unfold quoted_swap.
    rewrite (bind_ok _ _ _ _ _
               (get_trade_quote_run AutomatedMarketMaker_init sample_world "P"
                  (sample_pool "P" sample_time) "domain" (- 10) None
                  sample_world_pool (or_introl eq_refl)
                  ltac:(rewrite input_side_domain; simpl; lra)
                  ltac:(rewrite input_side_domain; simpl; lra)
                  ltac:(rewrite input_side_domain; simpl; lra)
                  ltac:(rewrite output_side_domain; simpl; lra))).
    match goal with
    | |- exists w' r, execute_trade _ _ ?q _ _ = _ =>
        destruct (execute_trade_applied AutomatedMarketMaker_init sample_world "P"
                    q 7 (sample_pool "P" sample_time))
          as (t & res & Happlied & _ & Hres)
    end.
    - cbn [valid_until]. unfold five_minutes. simpl. lia.
    - exact sample_world_pool.
    - cbn [price_impact]. rewrite input_side_domain, output_side_domain.
      exact negative_swap_impact.
    - destruct Hres as (r & -> & _); [cbn [input_amount]; lra|]. eauto. }
  destruct Hrun as (w' & r & Hrun).
  destruct (swap_of_negative_amount AutomatedMarketMaker_init sample_world w' "P"
              "domain" (- 10) None 7 r (sample_pool "P" sample_time))
    as (Hneg & pool' & Hp' & _ & _ & Hprod).
  - exact sample_world_pool.
  - reflexivity.
  - simpl. lra.
  - simpl. lra.
  - simpl. lra.
  - lra.
  - rewrite input_side_domain. simpl. lra.
  - exact Hrun.
  - exists w', r, pool'. auto.
Defined.


(** ** Swaps of a negative amount and the product *)



(** * The program of the source

    The properties below are stated on [Source]: the public methods with the
    storage helpers as the source has them. *)

Lemma source_pool_run (id : string) (w : World) :
  Source._get_pool_by_id id w = (w, inr (Some (sample_pool id (clock w)))).
Proof. reflexivity. Qed.

(** ** Execution of a quote: validation *)



(** ** Creation of a pool *)




(** ** Liquidity *)

Lemma source_add_liquidity_run (self : AutomatedMarketMaker) (w : World)
    (id : string) (user : Z) (domain_amount base_amount : R) :
  exists t res,
    Source.add_liquidity self id user domain_amount base_amount w
    = (mkWorld (clock w) (domains w) (pools w) (positions w)
               (transactions w ++ [t]), res) /\
    transaction_type t = "add_liquidity" /\
    tx_user_id t = user /\
    (2236 + minted (sample_pool id (clock w)) domain_amount base_amount = 0 ->
     res = inl (AddLiquidityFailed ZeroDivisionError)) /\
    (2236 + minted (sample_pool id (clock w)) domain_amount base_amount <> 0 ->
     res = inr {|
       la_liquidity_tokens_minted :=
         minted (sample_pool id (clock w)) domain_amount base_amount;
       la_domain_amount_used :=
         fst (deposited (sample_pool id (clock w)) domain_amount base_amount);
       la_base_amount_used :=
         snd (deposited (sample_pool id (clock w)) domain_amount base_amount);
       la_unused_domain :=
         domain_amount
         - fst (deposited (sample_pool id (clock w)) domain_amount base_amount);
       la_unused_base :=
         base_amount
         - snd (deposited (sample_pool id (clock w)) domain_amount base_amount);
       la_new_pool_share :=
         minted (sample_pool id (clock w)) domain_amount base_amount
         / (2236 + minted (sample_pool id (clock w)) domain_amount base_amount) * 100;
       la_transactions :=
         (domain_to_pool 1
            (fst (deposited (sample_pool id (clock w)) domain_amount base_amount)),
          base_to_pool "USDC"
            (snd (deposited (sample_pool id (clock w)) domain_amount base_amount)) user)
     |}).
Proof.
  assert (Hratio : 5000 / 1000 <> 0) by lra.
  unfold Source.add_liquidity, Engine.add_liquidity.
  rewrite (bind_ok _ _ _ _ _ (source_pool_run id w)).
  cbn [sample_pool domain_token_reserve base_token_reserve total_liquidity_tokens
       pool_id domain_id base_token fee_rate created_at].
  do 4 (rewrite bind_run, fdiv_ok by lra; cbv beta iota).
  change (if Rle_dec (domain_amount * (5000 / 1000)) base_amount
          then (domain_amount, domain_amount * (5000 / 1000))
          else (base_amount / (5000 / 1000), base_amount))
    with (deposited (sample_pool id (clock w)) domain_amount base_amount).
  change (Rmin (fst (deposited (sample_pool id (clock w)) domain_amount base_amount)
                / 1000 * 2236)
               (snd (deposited (sample_pool id (clock w)) domain_amount base_amount)
                / 5000 * 2236))
    with (minted (sample_pool id (clock w)) domain_amount base_amount).
  unfold try_except.
  rewrite bind_run. unfold utcnow at 1, gets. cbv beta iota.
  rewrite bind_run. unfold Source._get_user_position at 1.
  unfold mret at 1, M_ret at 1. cbv beta iota.
  rewrite bind_run.
  do 2 (rewrite bind_run; unfold utcnow at 1, gets; cbv beta iota).
  unfold Source._store_liquidity_position, Source._update_liquidity_pool,
    db_add_commit, modify.
  unfold mret at 1, M_ret at 1. cbv beta iota.
  rewrite bind_run. unfold mret at 1, M_ret at 1. cbv beta iota.
  rewrite bind_run. cbv beta iota.
  rewrite bind_run. unfold fdiv. cbn [total_liquidity_tokens].
  destruct (Req_dec_T _ 0) as [Hz | Hnz];
    unfold raise, mret, M_ret; cbv beta iota;
    eexists; eexists; (split; [reflexivity|]);
    (split; [reflexivity|]); (split; [reflexivity|]);
    (split; [intros Hzero; try contradiction; reflexivity|]);
    intros Hnonzero; try contradiction; reflexivity.
Qed.

Lemma sample_deposit_minted (id : string) (now : datetime) :
  minted (sample_pool id now) 1000 5000 = 2236.
Proof.
  unfold minted, deposited.
  cbn [sample_pool domain_token_reserve base_token_reserve total_liquidity_tokens].
  destruct (Rle_dec (1000 * (5000 / 1000)) 5000) as [_ | Hn]; [|lra].
  cbn [fst snd].
  replace (1000 / 1000 * 2236) with 2236 by field.
  replace (1000 * (5000 / 1000) / 5000 * 2236) with 2236 by field.
  apply Rmin_left. lra.
Qed.


(** ** The quote *)

Lemma source_get_trade_quote_run (self : AutomatedMarketMaker) (w : World)
    (id : string) (token : string) (amount : R) (tol : option R) :
  token = "domain" \/ token = "USDC" ->
  input_side (sample_pool id (clock w)) token + amount * (1 - 3 / 1000) <> 0 ->
  input_side (sample_pool id (clock w)) token + amount <> 0 ->
  Source.get_trade_quote self id token amount tol w =
  (w, inr {|
    input_token := token;
    output_token := if decide (token = "domain") then "USDC" else "domain";
    input_amount := amount;
    output_amount :=
      output_side (sample_pool id (clock w)) token * (amount * (1 - 3 / 1000))
      / (input_side (sample_pool id (clock w)) token + amount * (1 - 3 / 1000));
    price_impact :=
      Rabs ((output_side (sample_pool id (clock w)) token
             - output_side (sample_pool id (clock w)) token
               * (amount * (1 - 3 / 1000))
               / (input_side (sample_pool id (clock w)) token
                  + amount * (1 - 3 / 1000)))
            / (input_side (sample_pool id (clock w)) token + amount)
            - output_side (sample_pool id (clock w)) token
              / input_side (sample_pool id (clock w)) token)
      / (output_side (sample_pool id (clock w)) token
         / input_side (sample_pool id (clock w)) token);
    fee_amount := amount * (3 / 1000);
    minimum_output :=
      output_side (sample_pool id (clock w)) token * (amount * (1 - 3 / 1000))
      / (input_side (sample_pool id (clock w)) token + amount * (1 - 3 / 1000))
      * (1 - slippage_or_default self tol);
    valid_until := (clock w + five_minutes)%Z
  |}).
Proof.
  intros Htok He Ha.
  unfold Source.get_trade_quote, Engine.get_trade_quote.
  rewrite (bind_ok _ _ _ _ _ (source_pool_run id w)).
  unfold input_side, output_side in *.
  cbn [sample_pool domain_token_reserve base_token_reserve base_token fee_rate] in *.
  destruct (decide (token = "domain")) as [Hd | Hd].
  - rewrite bind_run. cbn [mret M_ret fst snd].
    do 4 (rewrite bind_run, fdiv_ok by lra; cbv beta iota).
    reflexivity.
  - destruct Htok as [Htok | Htok]; [contradiction|].
    destruct (decide (token = "USDC")) as [_ | Hn]; [|contradiction].
    rewrite bind_run. cbn [mret M_ret fst snd].
    do 4 (rewrite bind_run, fdiv_ok by lra; cbv beta iota).
    reflexivity.
Qed.

(** X2: where [get_trade_quote] fails.  The lookup of the source returns the
    pool of reserves (1000, 5000) and fee rate 0.003 for every pool id, so
    "Pool not found" is never raised.  A token other than ["domain"] and
    ["USDC"] is rejected with "Invalid input token".  For the two tokens of
    the pool the call returns a quote for every amount, zero and negative
    amounts included, except the two amounts that make a divisor zero: minus
    the reserve of the token sold, and that divided by 0.997; there it fails
    with a bare [ZeroDivisionError].  The world is left as it was. *)
Theorem get_trade_quote_rejections (self : AutomatedMarketMaker) (w : World)
    (id : string) (token : string) (amount : R) (tol : option R) :
  (token <> "domain" -> token <> "USDC" ->
   Source.get_trade_quote self id token amount tol w
   = (w, inl (InvalidInputToken token))) /\
  (token = "domain" \/ token = "USDC" ->
   (input_side (sample_pool id (clock w)) token + amount * (1 - 3 / 1000) = 0 \/
    input_side (sample_pool id (clock w)) token + amount = 0 ->
    Source.get_trade_quote self id token amount tol w
    = (w, inl ZeroDivisionError)) /\
   (input_side (sample_pool id (clock w)) token + amount * (1 - 3 / 1000) <> 0 ->
    input_side (sample_pool id (clock w)) token + amount <> 0 ->
    exists q,
      Source.get_trade_quote self id token amount tol w = (w, inr q) /\
      input_amount q = amount /\
      output_amount q =
        output_side (sample_pool id (clock w)) token * (amount * (1 - 3 / 1000))
        / (input_side (sample_pool id (clock w)) token
           + amount * (1 - 3 / 1000)))).
Proof.
  split.
  - intros Hd Hb.
    unfold Source.get_trade_quote, Engine.get_trade_quote.
    rewrite (bind_ok _ _ _ _ _ (source_pool_run id w)).
    cbn [sample_pool base_token].
    destruct (decide (token = "domain")); [contradiction|].
    destruct (decide (token = "USDC")); [contradiction|].
    reflexivity.
  - intros Htok. split.
    + intros Hzero.
      unfold Source.get_trade_quote, Engine.get_trade_quote.
      rewrite (bind_ok _ _ _ _ _ (source_pool_run id w)).
      unfold input_side in Hzero.
      cbn [sample_pool domain_token_reserve base_token_reserve base_token fee_rate]
        in *.
      destruct (decide (token = "domain")) as [Hd | Hd].
      * rewrite bind_run. cbn [mret M_ret fst snd].
        destruct (Req_dec_T (1000 + amount * (1 - 3 / 1000)) 0) as [He | He].
        { rewrite bind_run, He, fdiv_zero. reflexivity. }
        rewrite bind_run, fdiv_ok by assumption; cbv beta iota.
        rewrite bind_run, fdiv_ok by lra; cbv beta iota.
        destruct Hzero as [Hz | Hz]; [contradiction|].
        rewrite bind_run, Hz, fdiv_zero. reflexivity.
      * destruct Htok as [Htok | Htok]; [contradiction|].
        destruct (decide (token = "USDC")) as [_ | Hn]; [|contradiction].
        rewrite bind_run. cbn [mret M_ret fst snd].
        destruct (Req_dec_T (5000 + amount * (1 - 3 / 1000)) 0) as [He | He].
        { rewrite bind_run, He, fdiv_zero. reflexivity. }
        rewrite bind_run, fdiv_ok by assumption; cbv beta iota.
        rewrite bind_run, fdiv_ok by lra; cbv beta iota.
        destruct Hzero as [Hz | Hz]; [contradiction|].
        rewrite bind_run, Hz, fdiv_zero. reflexivity.
    + intros He Ha. eexists.
      split; [apply (source_get_trade_quote_run self w id token amount tol Htok He Ha)|].
      split; reflexivity.
Qed.

Lemma get_trade_quote_rejections_witness :
  pools empty_world !! "Q" = None /\
  Source.get_trade_quote AutomatedMarketMaker_init "Q" "ETH" 10 None empty_world
  = (empty_world, inl (InvalidInputToken "ETH")) /\
  Source.get_trade_quote AutomatedMarketMaker_init "Q" "domain" (- 1000) None
    empty_world
  = (empty_world, inl ZeroDivisionError) /\
  exists q,
    Source.get_trade_quote AutomatedMarketMaker_init "Q" "domain" 10 None
      empty_world
    = (empty_world, inr q) /\
    input_amount q = 10.
Proof.
  split; [reflexivity|]. split; [|split].
  - apply (get_trade_quote_rejections AutomatedMarketMaker_init empty_world "Q"
             "ETH" 10 None); discriminate.
  - destruct (get_trade_quote_rejections AutomatedMarketMaker_init empty_world "Q"
                "domain" (- 1000) None) as [_ Hvalid].
    destruct (Hvalid (or_introl eq_refl)) as [Hzero _].
    apply Hzero. right. rewrite input_side_domain. simpl. lra.
  - destruct (get_trade_quote_rejections AutomatedMarketMaker_init empty_world "Q"
                "domain" 10 None) as [_ Hvalid].
    destruct (Hvalid (or_introl eq_refl)) as [_ Hquote].
    destruct Hquote as (q & Hrun & Hamount & _).
    + rewrite input_side_domain. simpl. lra.
    + rewrite input_side_domain. simpl. lra.
    + exists q. split; assumption.
Defined.

(** ** What the source keeps between two calls *)

Lemma source_execute_trade_run (self : AutomatedMarketMaker) (w : World)
    (id : string) (quote : TradeQuote) (trader : Z) :
  (clock w <= valid_until quote)%Z ->
  price_impact quote <= price_impact_threshold self ->
  exists t res,
    Source.execute_trade self id quote trader w =
    (mkWorld (clock w) (domains w) (pools w) (positions w) (transactions w ++ [t]),
     res) /\
    t = {|
      tx_domain_id := 1;
      tx_user_id := trader;
      transaction_type := "swap";
      transaction_hash :=
        if decide (input_token quote = "domain")
        then (domain_to_pool 1 (input_amount quote),
              base_from_pool "USDC" (output_amount quote) trader)
        else (base_to_pool "USDC" (input_amount quote) trader,
              domain_from_pool 1 (output_amount quote) trader);
      tx_status := "confirmed";
      transaction_metadata :=
        [("pool_id", JStr id);
         ("input_token", JStr (input_token quote));
         ("output_token", JStr (output_token quote));
         ("input_amount", JNum (input_amount quote));
         ("output_amount", JNum (output_amount quote));
         ("price_impact", JNum (price_impact quote));
         ("fee_amount", JNum (fee_amount quote))]
    |} /\
    (input_amount quote = 0 -> res = inl (TradeExecutionFailed ZeroDivisionError)) /\
    (input_amount quote <> 0 ->
     res = inr {|
       te_input_amount := input_amount quote;
       te_output_amount := output_amount quote;
       te_price_impact := price_impact quote;
       te_fee_paid := fee_amount quote;
       te_execution_price := output_amount quote / input_amount quote;
       te_transactions :=
         if decide (input_token quote = "domain")
         then (domain_to_pool 1 (input_amount quote),
               base_from_pool "USDC" (output_amount quote) trader)
         else (base_to_pool "USDC" (input_amount quote) trader,
               domain_from_pool 1 (output_amount quote) trader)
     |}).
Proof.
  intros Hfresh Himpact. unfold Source.execute_trade, Engine.execute_trade.
  rewrite bind_run. unfold utcnow at 1, gets at 1. cbv beta iota.
  destruct (decide (valid_until quote < clock w)%Z); [lia|].
  rewrite (bind_ok _ _ _ _ _ (source_pool_run id w)).
  destruct (Rlt_dec (price_impact_threshold self) (price_impact quote)); [lra|].
  unfold try_except.
  cbn [sample_pool domain_id base_token domain_token_reserve base_token_reserve
       pool_id total_liquidity_tokens fee_rate created_at].
  destruct (decide (input_token quote = "domain"));
    cbn [fst snd];
    rewrite bind_run; unfold utcnow at 1, gets at 1; cbv beta iota;
    unfold Source._update_liquidity_pool, _distribute_trading_fees, db_add_commit,
      modify;
    rewrite bind_run; unfold mret at 1, M_ret at 1; cbv beta iota;
    rewrite bind_run; unfold mret at 1, M_ret at 1; cbv beta iota;
    rewrite bind_run; cbv beta iota;
    rewrite bind_run; unfold fdiv;
    destruct (Req_dec_T (input_amount quote) 0) as [Hz | Hnz];
    unfold raise, mret, M_ret; cbv beta iota;
    eexists; eexists;
    (split; [reflexivity|]);
    (split; [reflexivity|]);
    (split; [intros Hzero; try contradiction; reflexivity|]);
    intros Hnonzero; try contradiction; reflexivity.
Qed.

(** X10: a quote can be executed more than once, and every execution starts
    from the same reserves.  [execute_trade] keeps no record of the quotes it
    has executed and the store helpers of the source keep nothing: a quote
    that was just executed is executed again when it is submitted again
    before it expires, with the same result, and all that the two calls leave
    is the same confirmed "swap" transaction, committed twice. *)
Theorem execute_trade_replays_quote (self : AutomatedMarketMaker) (w : World)
    (id : string) (quote : TradeQuote) (trader : Z) :
  (clock w <= valid_until quote)%Z ->
  price_impact quote <= price_impact_threshold self ->
  input_amount quote <> 0 ->
  exists w1 w2 r t,
    Source.execute_trade self id quote trader w = (w1, inr r) /\
    Source.execute_trade self id quote trader w1 = (w2, inr r) /\
    te_input_amount r = input_amount quote /\
    te_output_amount r = output_amount quote /\
    transaction_type t = "swap" /\
    tx_status t = "confirmed" /\
    tx_user_id t = trader /\
    transactions w2 = transactions w ++ [t; t] /\
    pools w2 = pools w /\
    positions w2 = positions w.
Proof.
  intros Hfresh Himpact Hnz.
  destruct (source_execute_trade_run self w id quote trader Hfresh Himpact)
    as (t1 & res1 & Hrun1 & Ht1 & _ & Hres1).
  rewrite (Hres1 Hnz) in Hrun1.
  match type of Hrun1 with
  | _ = (?w1, _) =>
      destruct (source_execute_trade_run self w1 id quote trader Hfresh Himpact)
        as (t2 & res2 & Hrun2 & Ht2 & _ & Hres2)
  end.
  rewrite (Hres2 Hnz) in Hrun2.
  eexists. eexists. eexists. exists t1.
  split; [exact Hrun1|]. split; [exact Hrun2|].
  cbn [te_input_amount te_output_amount transactions pools positions].
  do 2 (split; [reflexivity|]).
  rewrite Ht1 at 1 2 3. cbn [transaction_type tx_status tx_user_id].
  do 3 (split; [reflexivity|]).
  split; [|split; reflexivity].
  rewrite <- app_assoc. cbn [app]. rewrite Ht2, <- Ht1. reflexivity.
Qed.

Lemma execute_trade_replays_quote_witness :
  exists w1 w2 r,
    Source.execute_trade AutomatedMarketMaker_init "P"
      (sample_quote (1 / 100) (sample_time + five_minutes)%Z) 7 sample_world
    = (w1, inr r) /\
    Source.execute_trade AutomatedMarketMaker_init "P"
      (sample_quote (1 / 100) (sample_time + five_minutes)%Z) 7 w1
    = (w2, inr r) /\
    te_output_amount r = 49 /\
    length (transactions w2) = 2%nat.
Proof.
  destruct (execute_trade_replays_quote AutomatedMarketMaker_init sample_world "P"
              (sample_quote (1 / 100) (sample_time + five_minutes)%Z) 7)
    as (w1 & w2 & r & t & Hrun1 & Hrun2 & _ & Hout & _ & _ & _ & Htx & _).
  - discriminate.
  - simpl; lra.
  - simpl; lra.
  - exists w1, w2, r. split; [exact Hrun1|]. split; [exact Hrun2|].
    split; [exact Hout|]. rewrite Htx. reflexivity.
Defined.

Lemma sample_minted_nonneg (id : string) (now : datetime)
    (domain_amount base_amount : R) :
  0 <= domain_amount -> 0 <= base_amount ->
  0 <= minted (sample_pool id now) domain_amount base_amount.
Proof.
  intros Hd Hb. unfold minted, deposited.
  cbn [sample_pool domain_token_reserve base_token_reserve total_liquidity_tokens].
  replace (5000 / 1000) with 5 by field.
  destruct (Rle_dec (domain_amount * 5) base_amount); cbn [fst snd];
    apply Rmin_glb; lra.
Qed.

(** X11: a deposit leaves nothing behind for the next.  [add_liquidity]
    prices every deposit on the reserves (1000, 5000) and the total of 2236
    liquidity tokens that the lookup of the source returns, and the store
    helpers keep neither the pool it updates nor the position it opens.  Two
    deposits of the same amounts, none negative, by the same user return the
    same result, whatever the pool ids and whatever happened in between: a
    deposit that follows another mints as many tokens and reports the same
    share of the pool as the first.  Each call leaves one committed
    transaction and nothing else. *)
Theorem add_liquidity_keeps_no_state (self : AutomatedMarketMaker)
    (w w' : World) (id id' : string) (user : Z) (domain_amount base_amount : R) :
  0 <= domain_amount ->
  0 <= base_amount ->
  exists r t t',
    Source.add_liquidity self id user domain_amount base_amount w
    = (mkWorld (clock w) (domains w) (pools w) (positions w)
               (transactions w ++ [t]), inr r) /\
    Source.add_liquidity self id' user domain_amount base_amount w'
    = (mkWorld (clock w') (domains w') (pools w') (positions w')
               (transactions w' ++ [t']), inr r) /\
    la_liquidity_tokens_minted r
    = minted (sample_pool id (clock w)) domain_amount base_amount /\
    la_new_pool_share r
    = la_liquidity_tokens_minted r / (2236 + la_liquidity_tokens_minted r) * 100.
Proof.
  intros Hd Hb.
  pose proof (sample_minted_nonneg id (clock w) domain_amount base_amount Hd Hb)
    as Hminted.
  destruct (source_add_liquidity_run self w id user domain_amount base_amount)
    as (t & res & Hrun & _ & _ & _ & Hres).
  destruct (source_add_liquidity_run self w' id' user domain_amount base_amount)
    as (t' & res' & Hrun' & _ & _ & _ & Hres').
  rewrite Hres in Hrun by lra.
  change (minted (sample_pool id' (clock w')) domain_amount base_amount)
    with (minted (sample_pool id (clock w)) domain_amount base_amount) in Hres'.
  change (deposited (sample_pool id' (clock w')) domain_amount base_amount)
    with (deposited (sample_pool id (clock w)) domain_amount base_amount) in Hres'.
  rewrite Hres' in Hrun' by lra.
  eexists. exists t, t'.
  split; [exact Hrun|]. split; [exact Hrun'|].
  split; reflexivity.
Qed.

Lemma add_liquidity_keeps_no_state_witness :
  exists w1 w2 r,
    Source.add_liquidity AutomatedMarketMaker_init "P" 7 1000 5000 sample_world
    = (w1, inr r) /\
    Source.add_liquidity AutomatedMarketMaker_init "P" 7 1000 5000 w1
    = (w2, inr r) /\
    la_liquidity_tokens_minted r = 2236.
Proof.
  destruct (add_liquidity_keeps_no_state AutomatedMarketMaker_init sample_world
              sample_world "P" "P" 7 1000 5000)
    as (r & t & _ & Hrun1 & _ & Hminted & _); [lra | lra |].
  match type of Hrun1 with
  | _ = (?w1, _) =>
      destruct (add_liquidity_keeps_no_state AutomatedMarketMaker_init sample_world
                  w1 "P" "P" 7 1000 5000)
        as (r' & t1 & t2 & Hrun1' & Hrun2 & _); [lra | lra |]
  end.
  rewrite Hrun1 in Hrun1'. inversion Hrun1'; subst r'.
  eexists. eexists. exists r.
  split; [exact Hrun1|]. split; [exact Hrun2|].
  rewrite Hminted. apply sample_deposit_minted.
Defined.

Lemma source_create_run (self : AutomatedMarketMaker) (w : World) (domain : Z)
    (base : string) (initial_domain initial_base : R) (creator : Z) (d : Domain) :
  domains w !! domain = Some d ->
  truthy (token_id d) = true ->
  base ∈ supported_base_tokens self ->
  minimum_liquidity self <= initial_base ->
  0 <= initial_domain * initial_base ->
  initial_domain <> 0 ->
  exists t,
    Source.create_liquidity_pool self domain base initial_domain initial_base
      creator w
    = (mkWorld (clock w) (domains w) (pools w) (positions w)
               (transactions w ++ [t]),
       inr {|
         pc_pool_id := new_pool_id domain base (clock w);
         pc_pool_contract_address := new_pool_id domain base (clock w);
         pc_initial_price := initial_base / initial_domain;
         pc_liquidity_tokens_minted := sqrt (initial_domain * initial_base);
         pc_position_id :=
           position_id (new_position domain base initial_domain initial_base
                          creator (clock w));
         pc_transactions :=
           (domain_to_pool domain initial_domain,
            base_to_pool base initial_base creator)
       |}) /\
    transaction_type t = "create_pool" /\
    tx_status t = "confirmed" /\
    tx_user_id t = creator.
Proof.
  intros Hd Htok Hbase Hfloor Hprod Hnz.
  unfold Source.create_liquidity_pool, Engine.create_liquidity_pool.
  rewrite bind_run. unfold Domain_query_get, gets. cbv beta iota.
  rewrite Hd, Htok. cbn [negb].
  rewrite bool_decide_eq_true_2 by assumption. cbn [negb].
  destruct (Rlt_dec initial_base (minimum_liquidity self)); [lra|].
  rewrite bind_run. unfold Source._get_pool_by_domain_and_base.
  unfold mret at 1, M_ret at 1. cbv beta iota.
  unfold try_except.
  rewrite bind_run, fsqrt_ok by assumption. cbv beta iota.
  do 4 (rewrite bind_run; unfold utcnow at 1, gets; cbv beta iota).
  unfold Source._store_liquidity_pool, Source._store_liquidity_position,
    _create_pool_creation_transactions, db_add_commit, modify.
  do 2 (rewrite bind_run; unfold mret at 1, M_ret at 1; cbv beta iota).
  rewrite bind_run; cbv beta iota.
  rewrite bind_run, fdiv_ok by assumption. cbv beta iota.
  eexists. split; [reflexivity|]. repeat split.
Qed.

(** X19: a pool can be created again.  [_get_pool_by_domain_and_base] returns
    [None] in the source and nothing is stored, so "Pool already exists for
    this domain/base token pair" is never raised: when a creation with
    positive amounts succeeds, the same creation submitted again succeeds
    again, with the same result and, within the same second, under the same
    pool id.  The two calls leave two "create_pool" transactions and nothing
    else. *)
Theorem create_liquidity_pool_repeats (self : AutomatedMarketMaker) (w : World)
    (domain : Z) (base : string) (initial_domain initial_base : R) (creator : Z)
    (d : Domain) :
  domains w !! domain = Some d ->
  truthy (token_id d) = true ->
  base ∈ supported_base_tokens self ->
  minimum_liquidity self <= initial_base ->
  0 < initial_domain ->
  0 < initial_base ->
  exists w1 w2 r t t',
    Source.create_liquidity_pool self domain base initial_domain initial_base
      creator w = (w1, inr r) /\
    Source.create_liquidity_pool self domain base initial_domain initial_base
      creator w1 = (w2, inr r) /\
    pc_pool_id r = new_pool_id domain base (clock w) /\
    transactions w2 = transactions w ++ [t; t'] /\
    transaction_type t = "create_pool" /\
    transaction_type t' = "create_pool" /\
    pools w2 = pools w /\
    positions w2 = positions w.
Proof.
  intros Hd Htok Hbase Hfloor Hdom Hb.
  assert (Hprod : 0 <= initial_domain * initial_base)
    by (apply Rmult_le_pos; lra).
  assert (Hnz : initial_domain <> 0) by lra.
  destruct (source_create_run self w domain base initial_domain initial_base
              creator d Hd Htok Hbase Hfloor Hprod Hnz)
    as (t & Hrun1 & Htype & _).
  match type of Hrun1 with
  | _ = (?w1, _) =>
      destruct (source_create_run self w1 domain base initial_domain initial_base
                  creator d Hd Htok Hbase Hfloor Hprod Hnz)
        as (t' & Hrun2 & Htype' & _)
  end.
  cbn [clock domains pools positions transactions] in Hrun2.
  eexists. eexists. eexists. exists t, t'.
  split; [exact Hrun1|]. split; [exact Hrun2|].
  cbn [pc_pool_id transactions pools positions].
  split; [reflexivity|].
  split; [rewrite <- app_assoc; reflexivity|].
  auto.
Qed.

Lemma create_liquidity_pool_repeats_witness :
  exists w1 w2 r,
    Source.create_liquidity_pool AutomatedMarketMaker_init 1 "USDC" 1000 5000 7
      empty_world = (w1, inr r) /\
    Source.create_liquidity_pool AutomatedMarketMaker_init 1 "USDC" 1000 5000 7
      w1 = (w2, inr r) /\
    length (transactions w2) = 2%nat.
Proof.
  destruct (create_liquidity_pool_repeats AutomatedMarketMaker_init empty_world 1
              "USDC" 1000 5000 7
              {| domain_name := "example.com"; token_id := Some "42" |})
    as (w1 & w2 & r & t & t' & Hrun1 & Hrun2 & _ & Htx & _).
  - apply lookup_singleton_eq.
  - reflexivity.
  - apply list_elem_of_here.
  - simpl. lra.
  - lra.
  - lra.
  - exists w1, w2, r. split; [exact Hrun1|]. split; [exact Hrun2|].
    rewrite Htx. reflexivity.
Defined.

(** ** The analytics *)

Lemma vbind_run {A B : Type} (m : V A) (f : A -> V B) (w : World) :
  (m ≫= f) w = match m w with
               | (w', inl e) => (w', inl e)
               | (w', inr x) => f x w'
               end.
Proof. reflexivity. Qed.

Lemma lift_ok {A : Type} (m : M A) (w w' : World) (x : A) :
  m w = (w', inr x) -> lift m w = (w', inr x).
Proof. intros H. unfold lift. rewrite H. reflexivity. Qed.

Lemma Domain_name_run (domain : Z) (w : World) :
  Domain_name domain w =
  (w, match domains w !! domain with
      | None => inl (AttributeError "name")
      | Some d => inr (domain_name d)
      end).
Proof.
  unfold Domain_name. rewrite vbind_run.
  unfold lift, Domain_query_get, gets.
  destruct (domains w !! domain); reflexivity.
Qed.

Lemma token_price_usdc : _get_token_price "USDC" = 1.
Proof.
  unfold _get_token_price. cbv zeta. rewrite lookup_insert_eq. reflexivity.
Qed.

(** X27: what [get_pool_analytics] reports.  The lookup of the source returns
    the same pool for every id, so the analytics do not depend on the pool
    that is asked for nor on what was traded or deposited: for every pool id
    the call reports the id itself, the name of domain 1, a price of 5 base
    tokens per domain token, reserves of (1000, 5000), 2236 liquidity tokens
    and a total value locked of 10000, twice the base reserve at the price 1
    of USDC.  "Pool not found" is never raised; the call fails only when
    domain 1 has no row, with the [AttributeError] of [None.name].  The world
    is left as it was. *)
Theorem get_pool_analytics_report (self : AutomatedMarketMaker) (w : World)
    (id : string) :
  (domains w !! 1%Z = None ->
   Source.get_pool_analytics self id w = (w, inl (AttributeError "name"))) /\
  (forall d,
     domains w !! 1%Z = Some d ->
     exists a,
       Source.get_pool_analytics self id w = (w, inr a) /\
       pa_pool_id a = id /\
       pa_domain_name a = domain_name d /\
       pa_base_token a = "USDC" /\
       pa_current_price a = 5 /\
       pa_reserves a = (1000, 5000) /\
       pa_total_liquidity_tokens a = 2236 /\
       pa_tvl a = 10000 /\
       pa_created_at a = clock w).
Proof.
  assert (Hprice : forall w0 : World, fdiv 5000 1000 w0 = (w0, inr (5000 / 1000)))
    by (intros w0; apply fdiv_ok; lra).
  split.
  - intros Hrow. unfold Source.get_pool_analytics, Engine.get_pool_analytics.
    rewrite vbind_run, (lift_ok _ _ _ _ (source_pool_run id w)).
    cbn [sample_pool domain_token_reserve base_token_reserve domain_id base_token].
    rewrite vbind_run, (lift_ok _ _ _ _ (Hprice w)).
    rewrite vbind_run, Domain_name_run, Hrow. reflexivity.
  - intros d Hrow. unfold Source.get_pool_analytics, Engine.get_pool_analytics.
    rewrite vbind_run, (lift_ok _ _ _ _ (source_pool_run id w)).
    cbn [sample_pool domain_token_reserve base_token_reserve domain_id base_token
         total_liquidity_tokens fee_rate created_at last_updated].
    rewrite vbind_run, (lift_ok _ _ _ _ (Hprice w)).
    rewrite vbind_run, Domain_name_run, Hrow.
    eexists. split; [reflexivity|].
    cbn [pa_pool_id pa_domain_name pa_base_token pa_current_price pa_reserves
         pa_total_liquidity_tokens pa_tvl pa_created_at].
    rewrite token_price_usdc.
    repeat (split; [reflexivity|]).
    split; [field|]. split; [reflexivity|]. split; [reflexivity|].
    split; [ring | reflexivity].
Qed.

Lemma get_pool_analytics_report_witness :
  pools empty_world !! "Q" = None /\
  exists a,
    Source.get_pool_analytics AutomatedMarketMaker_init "Q" empty_world
    = (empty_world, inr a) /\
    pa_domain_name a = "example.com" /\
    pa_current_price a = 5 /\
    pa_tvl a = 10000.
Proof.
  split; [reflexivity|].
  destruct (get_pool_analytics_report AutomatedMarketMaker_init empty_world "Q")
    as [_ Hreport].
  destruct (Hreport {| domain_name := "example.com"; token_id := Some "42" |})
    as (a & Hrun & _ & Hname & _ & Hprice & _ & _ & Htvl & _).
  - apply lookup_singleton_eq.
  - exists a. auto.
Defined.
